(** * The stub TLS handshake of src/platform/tls_stub.c

    A shallow embedding of the fake TLS 1.3 handshake that drives the QUIC
    handshake state machine: the wire codec, the extension serializer and
    parser, the two role state machines, the validity gate and the packet
    key update, followed by the properties established about them.

    Conventions.  Machine integers are [Z] with the wrap-around written out
    ([u8], [u16], [u32]).  Memory reached through a [uint8_t*] is a total
    map from offsets to cells ([mem]); the code does no bounds checking of
    its own, so a store lands wherever the offset arithmetic of the source
    points, also past the capacity the caller announced.  Byte arrays owned
    by a context (SNI, ALPN, transport parameters, certificate chain) are
    lists. *)

From Stdlib Require Import ZArith List Bool Lia.
Import ListNotations.
Open Scope Z_scope.

(** ** Machine integers *)

Definition u8 (x : Z) : Z := x mod 256.
Definition u16 (x : Z) : Z := x mod 65536.
Definition u32 (x : Z) : Z := x mod 4294967296.

(** ** Flat byte memory *)

Definition mem : Type := Z -> Z.

(** A cell holds a [uint8_t]. *)
Definition load8 (m : mem) (a : Z) : Z := u8 (m a).

Definition store8 (m : mem) (a v : Z) : mem :=
  fun i => if i =? a then u8 v else m i.

(** [memcpy(dst, src, n)] from an array owned by a context; cells of [src]
    past its end read as 0. *)
Definition memcpy (m : mem) (dst : Z) (src : list Z) (n : Z) : mem :=
  fun i =>
    if (dst <=? i) && (i <? dst + n)
    then u8 (nth (Z.to_nat (i - dst)) src 0)
    else m i.

(** The [n] bytes found at [a]. *)
Definition peek (m : mem) (a : Z) (n : Z) : list Z :=
  map (fun k => load8 m (a + Z.of_nat k)) (seq 0 (Z.to_nat n)).

(** The memory whose first cells are the bytes of [l] (0 elsewhere). *)
Definition mem_of_list (l : list Z) : mem :=
  fun i => if i <? 0 then 0 else nth (Z.to_nat i) l 0.

(** [strlen]: the index of the first NUL of a character array. *)
Fixpoint strlen (s : list Z) : Z :=
  match s with
  | [] => 0
  | c :: s' => if u8 c =? 0 then 0 else 1 + strlen s'
  end.

(** ** Constants of the file *)

Definition TLS_MESSAGE_HEADER_LENGTH : Z := 4.
Definition TLS_RANDOM_LENGTH : Z := 32.
Definition MAX_PARAM_LENGTH : Z := 256.

Definition TlsHandshake_ClientHello : Z := 0x01.

Definition TlsExt_ServerName : Z := 0x00.
Definition TlsExt_AppProtocolNegotiation : Z := 0x10.
Definition TlsExt_SessionTicket : Z := 0x23.
Definition TlsExt_QuicTransportParameters : Z := 0xffa5.

Definition TlsExt_Sni_NameType_HostName : Z := 0.

Inductive QUIC_FAKE_TLS_MESSAGE_TYPE : Type :=
| QUIC_TLS_MESSAGE_INVALID
| QUIC_TLS_MESSAGE_CLIENT_INITIAL
| QUIC_TLS_MESSAGE_CLIENT_HANDSHAKE
| QUIC_TLS_MESSAGE_SERVER_INITIAL
| QUIC_TLS_MESSAGE_SERVER_HANDSHAKE
| QUIC_TLS_MESSAGE_TICKET
| QUIC_TLS_MESSAGE_MAX.

(** The value of an enumerator, as stored in the [Type] byte. *)
Definition msg_code (t : QUIC_FAKE_TLS_MESSAGE_TYPE) : Z :=
  match t with
  | QUIC_TLS_MESSAGE_INVALID => 0
  | QUIC_TLS_MESSAGE_CLIENT_INITIAL => 1
  | QUIC_TLS_MESSAGE_CLIENT_HANDSHAKE => 2
  | QUIC_TLS_MESSAGE_SERVER_INITIAL => 3
  | QUIC_TLS_MESSAGE_SERVER_HANDSHAKE => 4
  | QUIC_TLS_MESSAGE_TICKET => 5
  | QUIC_TLS_MESSAGE_MAX => 6
  end.

Definition MinMessageLengths (t : QUIC_FAKE_TLS_MESSAGE_TYPE) : Z :=
  match t with
  | QUIC_TLS_MESSAGE_INVALID => 0
  | QUIC_TLS_MESSAGE_CLIENT_INITIAL => 0
  | QUIC_TLS_MESSAGE_CLIENT_HANDSHAKE => 7 + 1
  | QUIC_TLS_MESSAGE_SERVER_INITIAL => 7 + 1
  | QUIC_TLS_MESSAGE_SERVER_HANDSHAKE => 7 + 3 + MAX_PARAM_LENGTH
  | QUIC_TLS_MESSAGE_TICKET => 7 + 1
  | QUIC_TLS_MESSAGE_MAX => 0
  end.

(** ** Wire codec *)

Definition TlsReadUint16 (m : mem) (a : Z) : Z :=
  u16 (Z.shiftl (load8 m a) 8 + load8 m (a + 1)).

Definition TlsWriteUint16 (m : mem) (a : Z) (Value : Z) : mem :=
  let v := u16 Value in
  store8 (store8 m a (Z.shiftr v 8)) (a + 1) v.

Definition TlsReadUint24 (m : mem) (a : Z) : Z :=
  u32 (Z.shiftl (load8 m a) 16 + Z.shiftl (load8 m (a + 1)) 8 + load8 m (a + 2)).

Definition TlsWriteUint24 (m : mem) (a : Z) (Value : Z) : mem :=
  let v := u32 Value in
  store8 (store8 (store8 m a (Z.shiftr v 16)) (a + 1) (Z.shiftr v 8)) (a + 2) v.

(** ** Layout of the packed wire structures (offsets of the fields) *)

Module Off.
(** QUIC_FAKE_TLS_MESSAGE *)
Definition Type_ : Z := 0.
Definition Length : Z := 1.
Definition Body : Z := 4.
(** QUIC_TLS_CLIENT_HELLO, from the start of the message *)
Definition Version : Z := 4.
Definition Random : Z := 6.
Definition SessionIdLength : Z := 38.
Definition CipherSuiteLength : Z := 39.
Definition CompressionMethodLength : Z := 41.
Definition CompressionMethod : Z := 42.
Definition ExtListLength : Z := 43.
Definition ExtList : Z := 45.
(** SERVER_HANDSHAKE, from the start of the message *)
Definition QuicTPLength : Z := 4.
Definition QuicTP : Z := 5.
Definition CertificateLength : Z := 5 + 256.
Definition Certificate : Z := 5 + 256 + 2.
(** the extension structures, from the start of the extension *)
Definition ExtType : Z := 0.
Definition ExtLen : Z := 2.
Definition SniListLen : Z := 4.
Definition SniNameType : Z := 6.
Definition SniNameLength : Z := 7.
Definition SniName : Z := 9.
Definition AlpnListLength : Z := 4.
Definition AlpnLength : Z := 6.
Definition Alpn : Z := 7.
Definition Ticket : Z := 4.
Definition TP : Z := 4.
End Off.

(** [sizeof(QUIC_TLS_CLIENT_HELLO)] under [#pragma pack(1)]:
    2 + 32 + 1 + 2 + 1 + 1 + 2. *)
Definition sizeof_QUIC_TLS_CLIENT_HELLO : Z := 41.

(** ** Declarations of quic_tls.h used by the file *)

(** Modelled from the spec: the QUIC_TLS_RESULT_FLAGS bitmask (declared in
    quic_tls.h, which is not part of the tree): one bit per result flag of
    the list "Error, Data, ReadKeyUpdated, WriteKeyUpdated, EarlyDataAccept,
    EarlyDataReject, Complete, Ticket". *)
Definition QUIC_TLS_RESULT_DATA : Z := 0x0004.
Definition QUIC_TLS_RESULT_READ_KEY_UPDATED : Z := 0x0008.
Definition QUIC_TLS_RESULT_WRITE_KEY_UPDATED : Z := 0x0010.
Definition QUIC_TLS_RESULT_EARLY_DATA_ACCEPT : Z := 0x0020.
Definition QUIC_TLS_RESULT_EARLY_DATA_REJECT : Z := 0x0040.
Definition QUIC_TLS_RESULT_COMPLETE : Z := 0x0080.
Definition QUIC_TLS_RESULT_TICKET : Z := 0x0100.
Definition QUIC_TLS_RESULT_ERROR : Z := 0x8000.

(** [Flags & Flag] is not zero. *)
Definition has_flag (Flags Flag : Z) : bool := negb (Z.land Flags Flag =? 0).

(** Modelled from the spec: the epochs of a packet key (QUIC_PACKET_KEY_TYPE
    of quic_tls.h): "an opaque handle tagged with an epoch {Initial,
    Handshake, 0-RTT, 1-RTT}". *)
Inductive QUIC_PACKET_KEY_TYPE : Type :=
| QUIC_PACKET_KEY_INITIAL
| QUIC_PACKET_KEY_0_RTT
| QUIC_PACKET_KEY_HANDSHAKE
| QUIC_PACKET_KEY_1_RTT.

Definition key_type_eqb (a b : QUIC_PACKET_KEY_TYPE) : bool :=
  match a, b with
  | QUIC_PACKET_KEY_INITIAL, QUIC_PACKET_KEY_INITIAL
  | QUIC_PACKET_KEY_0_RTT, QUIC_PACKET_KEY_0_RTT
  | QUIC_PACKET_KEY_HANDSHAKE, QUIC_PACKET_KEY_HANDSHAKE
  | QUIC_PACKET_KEY_1_RTT, QUIC_PACKET_KEY_1_RTT => true
  | _, _ => false
  end.

(** A packet key: the stub only ever sets its type (the rest is zeroed). *)
Record QUIC_PACKET_KEY : Type := { KeyType : QUIC_PACKET_KEY_TYPE }.

Definition key_table : Type := QUIC_PACKET_KEY_TYPE -> option QUIC_PACKET_KEY.

Definition set_key (t : key_table) (k : QUIC_PACKET_KEY_TYPE)
    (v : QUIC_PACKET_KEY) : key_table :=
  fun i => if key_type_eqb i k then Some v else t i.

Inductive QUIC_STATUS : Type :=
| QUIC_STATUS_SUCCESS
| QUIC_STATUS_INVALID_STATE
| QUIC_STATUS_INVALID_PARAMETER
| QUIC_STATUS_BUFFER_TOO_SMALL
| QUIC_STATUS_NOT_SUPPORTED
| QUIC_STATUS_OUT_OF_MEMORY.

(** Modelled from the spec: QUIC_TLS_PROCESS_STATE (quic_tls.h): "a byte
    buffer with a capacity and a current used length; cumulative total bytes
    produced so far; two watermark offsets; flags for early-data-attempted /
    accepted and handshake-complete; an epoch-indexed table of read keys and
    write keys plus the currently active read/write epoch".  The names are
    those the code uses; [BufferAllocLength] and [BufferLength] are 16 bits
    wide (the code keeps them in [uint16_t] locals), the totals 32. *)
Record QUIC_TLS_PROCESS_STATE : Type := {
  HandshakeComplete : bool;
  EarlyDataAttempted : bool;
  EarlyDataAccepted : bool;
  BufferAllocLength : Z;
  BufferTotalLength : Z;
  BufferLength : Z;
  BufferOffsetHandshake : Z;
  BufferOffset1Rtt : Z;
  Buffer : mem;
  ReadKey : QUIC_PACKET_KEY_TYPE;
  WriteKey : QUIC_PACKET_KEY_TYPE;
  ReadKeys : key_table;
  WriteKeys : key_table
}.

(** ** Ways a call ends

    A call returns, or it does not: a failed [QUIC_FRE_ASSERT] aborts the
    process in every build, a failed [QUIC_DBG_ASSERT] breaks the contract
    the caller owes (it aborts a debug build), and a dereference of a NULL
    [SecConfig] faults.  [OutOfFuel] belongs to the model of the extension
    loop only and is never produced by the entry points. *)
Inductive fault : Type := FreAssert | DbgAssert | NullDeref | OutOfFuel.

Inductive outcome (A : Type) : Type :=
| Done (a : A)
| Fault (f : fault).
Arguments Done {A} a.
Arguments Fault {A} f.

Definition bind {A B : Type} (x : outcome A) (k : A -> outcome B) : outcome B :=
  match x with
  | Done a => k a
  | Fault f => Fault f
  end.

Notation "'do' x <- e ; k" := (bind e (fun x => k))
  (at level 10, x pattern, e at level 100, k at level 200).

Definition QUIC_FRE_ASSERT (b : bool) : outcome unit :=
  if b then Done tt else Fault FreAssert.

Definition QUIC_DBG_ASSERT (b : bool) : outcome unit :=
  if b then Done tt else Fault DbgAssert.


(** ** Structures of the file *)

Record QUIC_TLS_SESSION : Type := {
  AlpnLength : Z;
  Alpn : list Z
}.

Section Stub.

(** The certificate capability (quic_cert.h) and the flag that disables
    validation are supplied by the platform. *)
Context {QUIC_CERT : Type}.
Variable QuicCertSelect : option QUIC_CERT -> list Z -> bool.
Variable QuicCertParseChain : Z -> list Z -> option QUIC_CERT.
Variable QuicCertValidateChain : QUIC_CERT -> option (list Z) -> Z -> bool.
Variable QUIC_CERTIFICATE_FLAG_DISABLE_CERT_VALIDATION : Z.

(** The build: [QUIC_DBG_ASSERT] is compiled into a debug build ([true])
    and into no other. *)
Variable DBG : bool.

Record QUIC_SEC_CONFIG : Type := {
  RefCount : Z;
  Flags : Z;
  Certificate : option QUIC_CERT;
  FormatLength : Z;
  FormatBuffer : list Z
}.

(** QUIC_TLS.  [SNI] is the allocated character array, terminator included.
    [Connection] and [ReceiveTPCallback] are kept as the log of what the
    callback was handed: the length argument and the bytes it points to. *)
Record QUIC_TLS : Type := {
  IsServer : bool;
  TicketReady : bool;
  LastMessageType : QUIC_FAKE_TLS_MESSAGE_TYPE;
  TlsSession : QUIC_TLS_SESSION;
  SecConfig : option QUIC_SEC_CONFIG;
  ReceivedTP : list (Z * list Z);
  SNI : option (list Z);
  LocalTPBuffer : list Z;
  LocalTPLength : Z
}.

(** *** Field updates *)

Definition set_LastMessageType (c : QUIC_TLS) (v : QUIC_FAKE_TLS_MESSAGE_TYPE) :=
  {| IsServer := IsServer c; TicketReady := TicketReady c;
     LastMessageType := v; TlsSession := TlsSession c;
     SecConfig := SecConfig c; ReceivedTP := ReceivedTP c; SNI := SNI c;
     LocalTPBuffer := LocalTPBuffer c; LocalTPLength := LocalTPLength c |}.

Definition set_TicketReady (c : QUIC_TLS) (v : bool) :=
  {| IsServer := IsServer c; TicketReady := v;
     LastMessageType := LastMessageType c; TlsSession := TlsSession c;
     SecConfig := SecConfig c; ReceivedTP := ReceivedTP c; SNI := SNI c;
     LocalTPBuffer := LocalTPBuffer c; LocalTPLength := LocalTPLength c |}.

Definition set_SecConfig (c : QUIC_TLS) (v : option QUIC_SEC_CONFIG) :=
  {| IsServer := IsServer c; TicketReady := TicketReady c;
     LastMessageType := LastMessageType c; TlsSession := TlsSession c;
     SecConfig := v; ReceivedTP := ReceivedTP c; SNI := SNI c;
     LocalTPBuffer := LocalTPBuffer c; LocalTPLength := LocalTPLength c |}.

Definition set_SNI (c : QUIC_TLS) (v : option (list Z)) :=
  {| IsServer := IsServer c; TicketReady := TicketReady c;
     LastMessageType := LastMessageType c; TlsSession := TlsSession c;
     SecConfig := SecConfig c; ReceivedTP := ReceivedTP c; SNI := v;
     LocalTPBuffer := LocalTPBuffer c; LocalTPLength := LocalTPLength c |}.

(** [TlsContext->ReceiveTPCallback(TlsContext->Connection, Length, Bytes)] *)
Definition ReceiveTPCallback (c : QUIC_TLS) (Length : Z) (Bytes : list Z) :=
  {| IsServer := IsServer c; TicketReady := TicketReady c;
     LastMessageType := LastMessageType c; TlsSession := TlsSession c;
     SecConfig := SecConfig c; ReceivedTP := ReceivedTP c ++ [(Length, Bytes)];
     SNI := SNI c;
     LocalTPBuffer := LocalTPBuffer c; LocalTPLength := LocalTPLength c |}.

Definition set_EarlyData (s : QUIC_TLS_PROCESS_STATE) (attempted accepted : bool) :=
  {| HandshakeComplete := HandshakeComplete s;
     EarlyDataAttempted := attempted; EarlyDataAccepted := accepted;
     BufferAllocLength := BufferAllocLength s;
     BufferTotalLength := BufferTotalLength s;
     BufferLength := BufferLength s;
     BufferOffsetHandshake := BufferOffsetHandshake s;
     BufferOffset1Rtt := BufferOffset1Rtt s;
     Buffer := Buffer s;
     ReadKey := ReadKey s; WriteKey := WriteKey s;
     ReadKeys := ReadKeys s; WriteKeys := WriteKeys s |}.

Definition set_HandshakeComplete (s : QUIC_TLS_PROCESS_STATE) (v : bool) :=
  {| HandshakeComplete := v;
     EarlyDataAttempted := EarlyDataAttempted s;
     EarlyDataAccepted := EarlyDataAccepted s;
     BufferAllocLength := BufferAllocLength s;
     BufferTotalLength := BufferTotalLength s;
     BufferLength := BufferLength s;
     BufferOffsetHandshake := BufferOffsetHandshake s;
     BufferOffset1Rtt := BufferOffset1Rtt s;
     Buffer := Buffer s;
     ReadKey := ReadKey s; WriteKey := WriteKey s;
     ReadKeys := ReadKeys s; WriteKeys := WriteKeys s |}.

Definition set_Buffer (s : QUIC_TLS_PROCESS_STATE) (v : mem) :=
  {| HandshakeComplete := HandshakeComplete s;
     EarlyDataAttempted := EarlyDataAttempted s;
     EarlyDataAccepted := EarlyDataAccepted s;
     BufferAllocLength := BufferAllocLength s;
     BufferTotalLength := BufferTotalLength s;
     BufferLength := BufferLength s;
     BufferOffsetHandshake := BufferOffsetHandshake s;
     BufferOffset1Rtt := BufferOffset1Rtt s;
     Buffer := v;
     ReadKey := ReadKey s; WriteKey := WriteKey s;
     ReadKeys := ReadKeys s; WriteKeys := WriteKeys s |}.

(** [BufferLength], [BufferTotalLength] and the two watermarks. *)
Definition set_Lengths (s : QUIC_TLS_PROCESS_STATE)
    (len total offHandshake off1Rtt : Z) :=
  {| HandshakeComplete := HandshakeComplete s;
     EarlyDataAttempted := EarlyDataAttempted s;
     EarlyDataAccepted := EarlyDataAccepted s;
     BufferAllocLength := BufferAllocLength s;
     BufferTotalLength := total;
     BufferLength := len;
     BufferOffsetHandshake := offHandshake;
     BufferOffset1Rtt := off1Rtt;
     Buffer := Buffer s;
     ReadKey := ReadKey s; WriteKey := WriteKey s;
     ReadKeys := ReadKeys s; WriteKeys := WriteKeys s |}.

(** [State->ReadKey = k; State->ReadKeys[k] = Key;] *)
Definition install_ReadKey (s : QUIC_TLS_PROCESS_STATE)
    (k : QUIC_PACKET_KEY_TYPE) (Key : QUIC_PACKET_KEY) :=
  {| HandshakeComplete := HandshakeComplete s;
     EarlyDataAttempted := EarlyDataAttempted s;
     EarlyDataAccepted := EarlyDataAccepted s;
     BufferAllocLength := BufferAllocLength s;
     BufferTotalLength := BufferTotalLength s;
     BufferLength := BufferLength s;
     BufferOffsetHandshake := BufferOffsetHandshake s;
     BufferOffset1Rtt := BufferOffset1Rtt s;
     Buffer := Buffer s;
     ReadKey := k; WriteKey := WriteKey s;
     ReadKeys := set_key (ReadKeys s) k Key; WriteKeys := WriteKeys s |}.

(** [State->ReadKeys[k] = Key;] alone, the active epoch untouched. *)
Definition store_ReadKey (s : QUIC_TLS_PROCESS_STATE)
    (k : QUIC_PACKET_KEY_TYPE) (Key : QUIC_PACKET_KEY) :=
  {| HandshakeComplete := HandshakeComplete s;
     EarlyDataAttempted := EarlyDataAttempted s;
     EarlyDataAccepted := EarlyDataAccepted s;
     BufferAllocLength := BufferAllocLength s;
     BufferTotalLength := BufferTotalLength s;
     BufferLength := BufferLength s;
     BufferOffsetHandshake := BufferOffsetHandshake s;
     BufferOffset1Rtt := BufferOffset1Rtt s;
     Buffer := Buffer s;
     ReadKey := ReadKey s; WriteKey := WriteKey s;
     ReadKeys := set_key (ReadKeys s) k Key; WriteKeys := WriteKeys s |}.

(** [State->WriteKey = k; State->WriteKeys[k] = Key;] *)
Definition install_WriteKey (s : QUIC_TLS_PROCESS_STATE)
    (k : QUIC_PACKET_KEY_TYPE) (Key : QUIC_PACKET_KEY) :=
  {| HandshakeComplete := HandshakeComplete s;
     EarlyDataAttempted := EarlyDataAttempted s;
     EarlyDataAccepted := EarlyDataAccepted s;
     BufferAllocLength := BufferAllocLength s;
     BufferTotalLength := BufferTotalLength s;
     BufferLength := BufferLength s;
     BufferOffsetHandshake := BufferOffsetHandshake s;
     BufferOffset1Rtt := BufferOffset1Rtt s;
     Buffer := Buffer s;
     ReadKey := ReadKey s; WriteKey := k;
     ReadKeys := ReadKeys s; WriteKeys := set_key (WriteKeys s) k Key |}.

(** [QuicStubAllocKey]: a zeroed key of the given type (the allocation is
    asserted to succeed). *)
Definition QuicStubAllocKey (Type_ : QUIC_PACKET_KEY_TYPE) : QUIC_PACKET_KEY :=
  {| KeyType := Type_ |}.

(** What a processing call hands back: the context and process state as it
    leaves them, the result flags, and [*BufferLength], the number of input
    bytes consumed. *)
Record PROCESS_RESULT : Type := {
  r_TlsContext : QUIC_TLS;
  r_ResultFlags : Z;
  r_State : QUIC_TLS_PROCESS_STATE;
  r_BufferLength : Z
}.

Definition returns (c : QUIC_TLS) (ResultFlags : Z)
    (s : QUIC_TLS_PROCESS_STATE) (DrainLength : Z) : outcome PROCESS_RESULT :=
  Done {| r_TlsContext := c; r_ResultFlags := ResultFlags;
          r_State := s; r_BufferLength := DrainLength |}.

(** ** Stores into the wire structures that are not byte arrays *)

(** [SERVER_INITIAL.EarlyDataAccepted = v]: a one-bit field.
    Modelled from the spec: the bit positions "bit 0 = success, bit 1 =
    early-data-accepted" (the compiler's choice for the two bit-fields). *)
Definition store_EarlyDataAccepted (m : mem) (a : Z) (v : bool) : mem :=
  store8 m a (Z.lor (Z.land (load8 m a) 0xFD) (if v then 2 else 0)).

Definition load_EarlyDataAccepted (m : mem) (a : Z) : bool :=
  Z.testbit (load8 m a) 1.

(** [SERVER_HANDSHAKE.CertificateLength] is a [uint16_t] member, stored in
    the byte order of the host (little-endian on the supported targets). *)
Definition store_u16_host (m : mem) (a v : Z) : mem :=
  store8 (store8 m a (u16 v)) (a + 1) (Z.shiftr (u16 v) 8).

Definition load_u16_host (m : mem) (a : Z) : Z :=
  load8 m a + Z.shiftl (load8 m (a + 1)) 8.

(** ** The extension list of the ClientInitial *)

(** The [while (ExtListLength > 0)] loop of the server (lines 644-683).
    [SNI->NameLength != 0] tests the address of an array member and so
    always holds: the name is stored whatever its length.  Every turn
    consumes at least four bytes of [ExtListLength], which bounds the
    number of turns; [fuel] is that bound. *)
Fixpoint ParseExtList (fuel : nat) (c : QUIC_TLS) (s : QUIC_TLS_PROCESS_STATE)
    (B : mem) (ExtList ExtListLength : Z)
    : outcome (QUIC_TLS * QUIC_TLS_PROCESS_STATE) :=
  if ExtListLength >? 0 then
    match fuel with
    | O => Fault OutOfFuel
    | S fuel' =>
      let ExtType := TlsReadUint16 B ExtList in
      let ExtLength := TlsReadUint16 B (ExtList + 2) in
      do _ <- QUIC_FRE_ASSERT (ExtLength + 4 <=? ExtListLength);
      do cs <-
        (if ExtType =? TlsExt_ServerName then
           let NameLength := TlsReadUint16 B (ExtList + Off.SniNameLength) in
           Done (set_SNI c
                   (Some (peek B (ExtList + Off.SniName) NameLength ++ [0])), s)
         else if ExtType =? TlsExt_AppProtocolNegotiation then
           Done (c, s)
         else if ExtType =? TlsExt_SessionTicket then
           Done (c, set_EarlyData s true true)
         else if ExtType =? TlsExt_QuicTransportParameters then
           Done (ReceiveTPCallback c ExtLength
                   (peek B (ExtList + Off.TP) ExtLength), s)
         else
           Fault FreAssert);
      ParseExtList fuel' (fst cs) (snd cs) B
        (ExtList + (ExtLength + 4)) (u16 (ExtListLength - (ExtLength + 4)))
    end
  else Done (c, s).

(** The client's serializer (lines 861-901): the extensions are written at
    [ExtList] in the order ServerName, ALPN, SessionTicket, transport
    parameters; returns the memory and [ExtListLength]. *)
Definition WriteExtList (c : QUIC_TLS) (EarlyData : bool) (m : mem)
    (ExtList : Z) : mem * Z :=
  let ExtListLength := 0 in
  let '(m, ExtListLength) :=
    match SNI c with
    | Some Name =>
      let ext := ExtList in
      let SniNameLength := u16 (strlen Name) in
      let m := TlsWriteUint16 m (ext + Off.ExtType) TlsExt_ServerName in
      let m := TlsWriteUint16 m (ext + Off.ExtLen) (5 + SniNameLength) in
      let m := TlsWriteUint16 m (ext + Off.SniListLen) (3 + SniNameLength) in
      let m := store8 m (ext + Off.SniNameType) TlsExt_Sni_NameType_HostName in
      let m := TlsWriteUint16 m (ext + Off.SniNameLength) SniNameLength in
      let m := memcpy m (ext + Off.SniName) Name SniNameLength in
      (m, u16 (ExtListLength + (9 + SniNameLength)))
    | None => (m, ExtListLength)
    end in
  let ext := ExtList + ExtListLength in
  let AlpnLength_ := AlpnLength (TlsSession c) in
  let m := TlsWriteUint16 m (ext + Off.ExtType) TlsExt_AppProtocolNegotiation in
  let m := TlsWriteUint16 m (ext + Off.ExtLen) (3 + AlpnLength_) in
  let m := TlsWriteUint16 m (ext + Off.AlpnListLength) (1 + AlpnLength_) in
  let m := store8 m (ext + Off.AlpnLength) AlpnLength_ in
  let m := memcpy m (ext + Off.Alpn) (Alpn (TlsSession c)) AlpnLength_ in
  let ExtListLength := u16 (ExtListLength + (7 + AlpnLength_)) in
  let '(m, ExtListLength) :=
    if EarlyData then
      let ext := ExtList + ExtListLength in
      let m := TlsWriteUint16 m (ext + Off.ExtType) TlsExt_SessionTicket in
      let m := TlsWriteUint16 m (ext + Off.ExtLen) 0 in
      (m, u16 (ExtListLength + 4))
    else (m, ExtListLength) in
  let ext := ExtList + ExtListLength in
  let m := TlsWriteUint16 m (ext + Off.ExtType) TlsExt_QuicTransportParameters in
  let m := TlsWriteUint16 m (ext + Off.ExtLen) (u16 (LocalTPLength c)) in
  let m := memcpy m (ext + Off.TP) (LocalTPBuffer c) (LocalTPLength c) in
  (m, u16 (ExtListLength + (4 + u16 (LocalTPLength c)))).

(** [DrainLength = (uint16_t)TlsReadUint24(Message->Length) + 4;] with
    [uint16_t DrainLength]. *)
Definition DrainLengthOf (B : mem) : Z :=
  u16 (u16 (TlsReadUint24 B Off.Length) + 4).

(** ** QuicTlsServerProcess *)

(** Emission of the ServerInitial and ServerHandshake records (lines
    688-761), after the extensions were parsed. *)
Definition ServerFirstFlight (c : QUIC_TLS) (ResultFlags : Z)
    (s : QUIC_TLS_PROCESS_STATE) (B : mem) (SecurityConfig : QUIC_SEC_CONFIG)
    (ServerMessage MaxServerMessageLength : Z) : outcome PROCESS_RESULT :=
  if MaxServerMessageLength <? MinMessageLengths QUIC_TLS_MESSAGE_SERVER_INITIAL
  then returns c (Z.lor ResultFlags QUIC_TLS_RESULT_ERROR) s 0
  else if negb (QuicCertSelect (Certificate SecurityConfig) [0x0804])
  then returns c (Z.lor ResultFlags QUIC_TLS_RESULT_ERROR) s 0
  else
    let MessageLength := u16 (MinMessageLengths QUIC_TLS_MESSAGE_SERVER_INITIAL) in
    let m := Buffer s in
    let m := TlsWriteUint24 m (ServerMessage + Off.Length) (MessageLength - 4) in
    let m := store8 m (ServerMessage + Off.Type_)
               (msg_code QUIC_TLS_MESSAGE_SERVER_INITIAL) in
    let m := store_EarlyDataAccepted m (ServerMessage + Off.Body)
               (EarlyDataAccepted s) in
    let s := set_Buffer s m in
    let s := set_Lengths s MessageLength MessageLength MessageLength
               (BufferOffset1Rtt s) in
    let ServerMessage := BufferLength s in
    let MaxServerMessageLength := u16 (BufferAllocLength s - BufferLength s) in
    if MaxServerMessageLength <?
         MinMessageLengths QUIC_TLS_MESSAGE_SERVER_HANDSHAKE
         + FormatLength SecurityConfig
    then returns c (Z.lor ResultFlags QUIC_TLS_RESULT_ERROR) s 0
    else
      let '(ResultFlags, s) :=
        if EarlyDataAccepted s then
          (Z.lor ResultFlags QUIC_TLS_RESULT_EARLY_DATA_ACCEPT,
           store_ReadKey s QUIC_PACKET_KEY_0_RTT
             (QuicStubAllocKey QUIC_PACKET_KEY_0_RTT))
        else (ResultFlags, s) in
      let ResultFlags := Z.lor ResultFlags QUIC_TLS_RESULT_READ_KEY_UPDATED in
      let s := install_ReadKey s QUIC_PACKET_KEY_HANDSHAKE
                 (QuicStubAllocKey QUIC_PACKET_KEY_HANDSHAKE) in
      let ResultFlags := Z.lor ResultFlags QUIC_TLS_RESULT_WRITE_KEY_UPDATED in
      let s := install_WriteKey s QUIC_PACKET_KEY_HANDSHAKE
                 (QuicStubAllocKey QUIC_PACKET_KEY_HANDSHAKE) in
      let MessageLength :=
        u16 (MinMessageLengths QUIC_TLS_MESSAGE_SERVER_HANDSHAKE
             + FormatLength SecurityConfig) in
      let m := Buffer s in
      let m := TlsWriteUint24 m (ServerMessage + Off.Length) (MessageLength - 4) in
      let m := store8 m (ServerMessage + Off.Type_)
                 (msg_code QUIC_TLS_MESSAGE_SERVER_HANDSHAKE) in
      let m := store8 m (ServerMessage + Off.QuicTPLength) (LocalTPLength c) in
      let m := memcpy m (ServerMessage + Off.QuicTP)
                 (LocalTPBuffer c) (LocalTPLength c) in
      let m := store_u16_host m (ServerMessage + Off.CertificateLength)
                 (FormatLength SecurityConfig) in
      let m := memcpy m (ServerMessage + Off.Certificate)
                 (FormatBuffer SecurityConfig) (FormatLength SecurityConfig) in
      let s := set_Buffer s m in
      let s := set_Lengths s
                 (u16 (BufferLength s + MessageLength))
                 (u32 (BufferTotalLength s + MessageLength))
                 (BufferOffsetHandshake s)
                 (u32 (BufferTotalLength s + MessageLength)) in
      let ResultFlags := Z.lor ResultFlags QUIC_TLS_RESULT_DATA in
      let ResultFlags := Z.lor ResultFlags QUIC_TLS_RESULT_WRITE_KEY_UPDATED in
      let s := install_WriteKey s QUIC_PACKET_KEY_1_RTT
                 (QuicStubAllocKey QUIC_PACKET_KEY_1_RTT) in
      let DrainLength := DrainLengthOf B in
      let c := set_LastMessageType c QUIC_TLS_MESSAGE_SERVER_HANDSHAKE in
      returns c ResultFlags s DrainLength.

(** [QuicTlsSecConfigRelease] drops one reference of the shared config; the
    count itself is not followed here, only the context's pointer.  The
    assertion that the context has a config (line 686) stands alone: a
    debug build stops at it; any other build goes on with the NULL pointer,
    leaves with Error when the buffer has no room for the ServerInitial
    and reads through the pointer otherwise. *)
Definition QuicTlsServerProcess (c : QUIC_TLS) (ResultFlags : Z)
    (s : QUIC_TLS_PROCESS_STATE) (InLength : Z) (B : mem)
    : outcome PROCESS_RESULT :=
  do _ <- QUIC_DBG_ASSERT (BufferLength s <? BufferAllocLength s);
  let ServerMessage := BufferLength s in
  let MaxServerMessageLength := u16 (BufferAllocLength s - BufferLength s) in
  match LastMessageType c with
  | QUIC_TLS_MESSAGE_INVALID =>
    do _ <- QUIC_FRE_ASSERT
              (load8 B Off.Type_ =? msg_code QUIC_TLS_MESSAGE_CLIENT_INITIAL);
    let s := set_EarlyData s false false in
    let ExtListLength := TlsReadUint16 B Off.ExtListLength in
    do cs <- ParseExtList (Z.to_nat ExtListLength) c s B Off.ExtList ExtListLength;
    let '(c, s) := cs in
    match SecConfig c with
    | None =>
      if DBG then Fault DbgAssert
      else if MaxServerMessageLength <?
                MinMessageLengths QUIC_TLS_MESSAGE_SERVER_INITIAL
      then returns c (Z.lor ResultFlags QUIC_TLS_RESULT_ERROR) s 0
      else Fault NullDeref
    | Some SecurityConfig =>
      ServerFirstFlight c ResultFlags s B SecurityConfig
        ServerMessage MaxServerMessageLength
    end
  | QUIC_TLS_MESSAGE_SERVER_HANDSHAKE =>
    if load8 B Off.Type_ =? msg_code QUIC_TLS_MESSAGE_CLIENT_HANDSHAKE then
      if load8 B Off.Body =? 0 then
        returns c (Z.lor ResultFlags QUIC_TLS_RESULT_ERROR) s 0
      else
        let ResultFlags := Z.lor ResultFlags QUIC_TLS_RESULT_COMPLETE in
        match SecConfig c with
        | None => Fault NullDeref
        | Some _ =>
          let c := set_SecConfig c None in
          if MaxServerMessageLength <? MinMessageLengths QUIC_TLS_MESSAGE_TICKET
          then returns c (Z.lor ResultFlags QUIC_TLS_RESULT_ERROR) s 0
          else
            let MessageLength := u16 (MinMessageLengths QUIC_TLS_MESSAGE_TICKET) in
            let m := Buffer s in
            let m := TlsWriteUint24 m (ServerMessage + Off.Length)
                       (MessageLength - 4) in
            let m := store8 m (ServerMessage + Off.Type_)
                       (msg_code QUIC_TLS_MESSAGE_TICKET) in
            let m := store8 m (ServerMessage + Off.Body) 1 in
            let s := set_Buffer s m in
            let ResultFlags := Z.lor ResultFlags QUIC_TLS_RESULT_DATA in
            let s := set_Lengths s
                       (u16 (BufferLength s + MessageLength))
                       (u32 (BufferTotalLength s + MessageLength))
                       (BufferOffsetHandshake s) (BufferOffset1Rtt s) in
            let ResultFlags :=
              Z.lor ResultFlags QUIC_TLS_RESULT_READ_KEY_UPDATED in
            let s := install_ReadKey s QUIC_PACKET_KEY_1_RTT
                       (QuicStubAllocKey QUIC_PACKET_KEY_1_RTT) in
            let c := set_LastMessageType c QUIC_TLS_MESSAGE_TICKET in
            returns c ResultFlags s (DrainLengthOf B)
        end
    else returns c (Z.lor ResultFlags QUIC_TLS_RESULT_ERROR) s 0
  | _ => returns c (Z.lor ResultFlags QUIC_TLS_RESULT_ERROR) s 0
  end.

(** ** QuicTlsClientProcess *)

(** The first flight (lines 849-918): the ClientInitial is written at
    [State->Buffer + State->BufferLength].  [Random] and
    [CompressionMethod] are left as the caller's buffer had them. *)
Definition ClientFirstFlight (c : QUIC_TLS) (ResultFlags : Z)
    (s : QUIC_TLS_PROCESS_STATE) (ClientMessage : Z) : outcome PROCESS_RESULT :=
  let s := set_EarlyData s true false in
  let m := Buffer s in
  let m := store8 m (ClientMessage + Off.Type_) TlsHandshake_ClientHello in
  let m := TlsWriteUint16 m (ClientMessage + Off.Version) 0x0302 in
  let m := store8 m (ClientMessage + Off.SessionIdLength) 0 in
  let m := TlsWriteUint16 m (ClientMessage + Off.CipherSuiteLength) 0 in
  let m := store8 m (ClientMessage + Off.CompressionMethodLength) 1 in
  let '(m, ExtListLength) :=
    WriteExtList c (EarlyDataAttempted s) m (ClientMessage + Off.ExtList) in
  let m := TlsWriteUint16 m (ClientMessage + Off.ExtListLength) ExtListLength in
  let MessageLength := u16 (sizeof_QUIC_TLS_CLIENT_HELLO + ExtListLength + 4) in
  let m := TlsWriteUint24 m (ClientMessage + Off.Length) (MessageLength - 4) in
  let s := set_Buffer s m in
  let ResultFlags := Z.lor ResultFlags QUIC_TLS_RESULT_DATA in
  let s := set_Lengths s MessageLength MessageLength
             (BufferOffsetHandshake s) (BufferOffset1Rtt s) in
  let s :=
    if EarlyDataAttempted s then
      install_WriteKey s QUIC_PACKET_KEY_0_RTT
        (QuicStubAllocKey QUIC_PACKET_KEY_0_RTT)
    else s in
  let c := set_LastMessageType c QUIC_TLS_MESSAGE_CLIENT_INITIAL in
  returns c ResultFlags s 0.

Definition QuicTlsClientProcess (c : QUIC_TLS) (ResultFlags : Z)
    (s : QUIC_TLS_PROCESS_STATE) (InLength : Z) (B : mem)
    : outcome PROCESS_RESULT :=
  do _ <- QUIC_DBG_ASSERT (BufferLength s <? BufferAllocLength s);
  let ClientMessage := BufferLength s in
  let MaxClientMessageLength := u16 (BufferAllocLength s - BufferLength s) in
  match LastMessageType c with
  | QUIC_TLS_MESSAGE_INVALID =>
    ClientFirstFlight c ResultFlags s ClientMessage
  | QUIC_TLS_MESSAGE_CLIENT_INITIAL =>
    if load8 B Off.Type_ =? msg_code QUIC_TLS_MESSAGE_SERVER_INITIAL then
      let '(ResultFlags, s) :=
        if EarlyDataAttempted s then
          let Accepted := load_EarlyDataAccepted B Off.Body in
          let s := set_EarlyData s (EarlyDataAttempted s) Accepted in
          if negb Accepted
          then (Z.lor ResultFlags QUIC_TLS_RESULT_EARLY_DATA_REJECT, s)
          else (Z.lor ResultFlags QUIC_TLS_RESULT_EARLY_DATA_ACCEPT, s)
        else (ResultFlags, s) in
      let s := set_Lengths s (BufferLength s) (BufferTotalLength s)
                 (BufferTotalLength s) (BufferOffset1Rtt s) in
      let ResultFlags := Z.lor ResultFlags QUIC_TLS_RESULT_READ_KEY_UPDATED in
      let s := install_ReadKey s QUIC_PACKET_KEY_HANDSHAKE
                 (QuicStubAllocKey QUIC_PACKET_KEY_HANDSHAKE) in
      let ResultFlags := Z.lor ResultFlags QUIC_TLS_RESULT_WRITE_KEY_UPDATED in
      let s := install_WriteKey s QUIC_PACKET_KEY_HANDSHAKE
                 (QuicStubAllocKey QUIC_PACKET_KEY_HANDSHAKE) in
      returns c ResultFlags s (DrainLengthOf B)
    else if load8 B Off.Type_ =? msg_code QUIC_TLS_MESSAGE_SERVER_HANDSHAKE then
      let QuicTPLength := load8 B Off.QuicTPLength in
      let c := ReceiveTPCallback c QuicTPLength (peek B Off.QuicTP QuicTPLength) in
      match SecConfig c with
      | None => Fault NullDeref
      | Some SecurityConfig =>
        let validated :=
          if negb (Z.land (Flags SecurityConfig)
                     QUIC_CERTIFICATE_FLAG_DISABLE_CERT_VALIDATION =? 0)
          then true
          else
            let CertificateLength := load_u16_host B Off.CertificateLength in
            match QuicCertParseChain CertificateLength
                    (peek B Off.Certificate CertificateLength) with
            | None => false
            | Some ServerCert =>
              QuicCertValidateChain ServerCert (SNI c) (Flags SecurityConfig)
            end in
        if negb validated
        then returns c (Z.lor ResultFlags QUIC_TLS_RESULT_ERROR) s 0
        else
          let s := set_HandshakeComplete s true in
          let ResultFlags := Z.lor ResultFlags QUIC_TLS_RESULT_COMPLETE in
          if MaxClientMessageLength <?
               MinMessageLengths QUIC_TLS_MESSAGE_CLIENT_HANDSHAKE
          then returns c (Z.lor ResultFlags QUIC_TLS_RESULT_ERROR) s 0
          else
            let MessageLength :=
              u16 (MinMessageLengths QUIC_TLS_MESSAGE_CLIENT_HANDSHAKE) in
            let m := Buffer s in
            let m := TlsWriteUint24 m (ClientMessage + Off.Length)
                       (MessageLength - 4) in
            let m := store8 m (ClientMessage + Off.Type_)
                       (msg_code QUIC_TLS_MESSAGE_CLIENT_HANDSHAKE) in
            let m := store8 m (ClientMessage + Off.Body) 1 in
            let s := set_Buffer s m in
            let ResultFlags := Z.lor ResultFlags QUIC_TLS_RESULT_DATA in
            let s := set_Lengths s
                       (u16 (BufferLength s + MessageLength))
                       (u32 (BufferTotalLength s + MessageLength))
                       (BufferOffsetHandshake s)
                       (u32 (BufferTotalLength s + MessageLength)) in
            let ResultFlags :=
              Z.lor ResultFlags QUIC_TLS_RESULT_READ_KEY_UPDATED in
            let s := install_ReadKey s QUIC_PACKET_KEY_1_RTT
                       (QuicStubAllocKey QUIC_PACKET_KEY_1_RTT) in
            let ResultFlags :=
              Z.lor ResultFlags QUIC_TLS_RESULT_WRITE_KEY_UPDATED in
            let s := install_WriteKey s QUIC_PACKET_KEY_1_RTT
                       (QuicStubAllocKey QUIC_PACKET_KEY_1_RTT) in
            let c := set_LastMessageType c QUIC_TLS_MESSAGE_CLIENT_HANDSHAKE in
            returns c ResultFlags s (DrainLengthOf B)
      end
    else returns c (Z.lor ResultFlags QUIC_TLS_RESULT_ERROR) s 0
  | QUIC_TLS_MESSAGE_CLIENT_HANDSHAKE =>
    if negb (load8 B Off.Type_ =? msg_code QUIC_TLS_MESSAGE_TICKET) then
      returns c (Z.lor ResultFlags QUIC_TLS_RESULT_ERROR) s 0
    else
      let ResultFlags := Z.lor ResultFlags QUIC_TLS_RESULT_TICKET in
      let c := set_TicketReady c true in
      returns c ResultFlags s (DrainLengthOf B)
  | _ => returns c (Z.lor ResultFlags QUIC_TLS_RESULT_ERROR) s 0
  end.

(** ** The validity gate and the entry point *)

Definition is_INVALID (t : QUIC_FAKE_TLS_MESSAGE_TYPE) : bool :=
  match t with QUIC_TLS_MESSAGE_INVALID => true | _ => false end.

Definition QuicTlsHasValidMessageToProcess (c : QUIC_TLS) (InLength : Z)
    (B : mem) : bool :=
  if negb (IsServer c) && is_INVALID (LastMessageType c) && (InLength =? 0)
  then true
  else if InLength <? 7 then false
  else
    let MessageLength := u32 (TlsReadUint24 B Off.Length + 4) in
    if InLength <? MessageLength then false else true.

Definition QuicTlsProcessData (c : QUIC_TLS) (B : mem) (InLength : Z)
    (s : QUIC_TLS_PROCESS_STATE) : outcome PROCESS_RESULT :=
  let ResultFlags := 0 in
  if QuicTlsHasValidMessageToProcess c InLength B then
    if IsServer c
    then QuicTlsServerProcess c ResultFlags s InLength B
    else QuicTlsClientProcess c ResultFlags s InLength B
  else returns c ResultFlags s 0.

(** ** QuicTlsReset *)

(** The assertion on the role stands alone (no [__assume] follows it): a
    debug build stops at it, any other build goes on and resets the marker
    of a server as well. *)
Definition QuicTlsReset (c : QUIC_TLS) : outcome QUIC_TLS :=
  do _ <- (if DBG then QUIC_DBG_ASSERT (negb (IsServer c)) else Done tt);
  Done (set_LastMessageType c QUIC_TLS_MESSAGE_INVALID).

End Stub.

Arguments QUIC_SEC_CONFIG : clear implicits.
Arguments QUIC_TLS : clear implicits.
Arguments PROCESS_RESULT : clear implicits.

(** ** QuicPacketKeyUpdate *)

(** Returns the status and [*NewKey], which is only written on success. *)
Definition QuicPacketKeyUpdate (OldKey : option QUIC_PACKET_KEY)
    (NewKey : option QUIC_PACKET_KEY) : QUIC_STATUS * option QUIC_PACKET_KEY :=
  match OldKey with
  | None => (QUIC_STATUS_INVALID_STATE, NewKey)
  | Some k =>
    if negb (key_type_eqb (KeyType k) QUIC_PACKET_KEY_1_RTT)
    then (QUIC_STATUS_INVALID_STATE, NewKey)
    else (QUIC_STATUS_SUCCESS, Some (QuicStubAllocKey QUIC_PACKET_KEY_1_RTT))
  end.

(** ** Packet keys as objects of the heap *)

(** The functions above hand out key values.  Here the keys are objects
    that a pointer refers to, so that a key that is newly allocated can be
    told from one that was there before: [key_heap] holds the packet keys
    that are allocated, by address, and address 0 is NULL. *)
Definition key_heap : Type := Z -> option QUIC_PACKET_KEY.

Definition put_key (heap : key_heap) (a : Z) (k : QUIC_PACKET_KEY) : key_heap :=
  fun i => if i =? a then Some k else heap i.

(** What a pointer to a key refers to. *)
Definition key_at (heap : key_heap) (p : Z) : option QUIC_PACKET_KEY :=
  if p =? 0 then None else heap p.

Module Heap.

(** [QuicStubAllocKey].  [allocated] is what [QUIC_ALLOC_NONPAGED]
    returns: NULL, or the address of memory that is not in use.  The
    assertion stands alone: a debug build ([DBG]) stops at it, any other
    build goes on and zeroes the memory at NULL. *)
Definition QuicStubAllocKey (allocated : Z) (DBG : bool)
    (heap : key_heap) (Type_ : QUIC_PACKET_KEY_TYPE)
    : outcome (Z * key_heap) :=
  let Key := allocated in
  do _ <- (if DBG then QUIC_DBG_ASSERT (negb (Key =? 0)) else Done tt);
  if Key =? 0 then Fault NullDeref
  else Done (Key, put_key heap Key {| KeyType := Type_ |}).

(** [QuicPacketKeyUpdate]: the status, [*NewKey] and the heap.  [NewKey]
    is what [*NewKey] held before the call.  Reading [OldKey->Type]
    through a pointer that is not NULL and refers to no key has no defined
    result. *)
Definition QuicPacketKeyUpdate (allocated : Z) (DBG : bool)
    (heap : key_heap) (OldKey NewKey : Z)
    : outcome (QUIC_STATUS * Z * key_heap) :=
  if OldKey =? 0 then Done (QUIC_STATUS_INVALID_STATE, NewKey, heap)
  else
    match heap OldKey with
    | None => Fault NullDeref
    | Some k =>
      if negb (key_type_eqb (KeyType k) QUIC_PACKET_KEY_1_RTT)
      then Done (QUIC_STATUS_INVALID_STATE, NewKey, heap)
      else
        do kh <- QuicStubAllocKey allocated DBG heap QUIC_PACKET_KEY_1_RTT;
        Done (QUIC_STATUS_SUCCESS, fst kh, snd kh)
    end.

End Heap.

(** ** QuicPacketKeyCreateInitial *)

(** [ReadKey] and [WriteKey] are optional out-parameters: [None] is a NULL
    pointer, [Some old] a pointer to a slot that holds [old].  The salt and
    the connection id are not looked at. *)
Definition QuicPacketKeyCreateInitial (IsServer_ : bool) (Salt : list Z)
    (CIDLength : Z) (CID : list Z)
    (ReadKey_ WriteKey_ : option (option QUIC_PACKET_KEY))
    : QUIC_STATUS * option (option QUIC_PACKET_KEY)
      * option (option QUIC_PACKET_KEY) :=
  let ReadKey_ :=
    match ReadKey_ with
    | Some _ => Some (Some (QuicStubAllocKey QUIC_PACKET_KEY_INITIAL))
    | None => None
    end in
  let WriteKey_ :=
    match WriteKey_ with
    | Some _ => Some (Some (QuicStubAllocKey QUIC_PACKET_KEY_INITIAL))
    | None => None
    end in
  (QUIC_STATUS_SUCCESS, ReadKey_, WriteKey_).

(** ** The stub AEAD, header protection and hash *)

Definition MAGIC_NO_ENCRYPTION_VALUE : Z := 0xF0F1F2F3F4F5F6F7.

(** [*(PUINT64)p = v] and [*(PUINT64)p]: eight bytes in the byte order of
    the host (little-endian on the supported targets). *)
Definition store_u64_host (m : mem) (a v : Z) : mem :=
  fold_left (fun m k => store8 m (a + Z.of_nat k) (Z.shiftr v (8 * Z.of_nat k)))
    (seq 0 8) m.

Definition load_u64_host (m : mem) (a : Z) : Z :=
  fold_right (fun k acc => load8 m (a + Z.of_nat k) + 256 * acc) 0 (seq 0 8).

(** [QuicZeroMemory(p, n)] *)
Definition QuicZeroMemory (m : mem) (a n : Z) : mem :=
  fun i => if (a <=? i) && (i <? a + n) then 0 else m i.

Section Crypt.

(** Constants of quic_crypt.h, which the tree does not hold. *)
Variable QUIC_ENCRYPTION_OVERHEAD : Z.
Variable QUIC_HP_SAMPLE_LENGTH : Z.

(** The key, the IV and the authenticated data are not looked at. *)
Definition QuicEncrypt (Key : Z) (Iv : list Z) (AuthDataLength : Z)
    (AuthData : list Z) (BufferLength_ : Z) (Buffer_ : mem)
    : QUIC_STATUS * mem :=
  let PlainTextLength := u16 (BufferLength_ - QUIC_ENCRYPTION_OVERHEAD) in
  (QUIC_STATUS_SUCCESS,
   store_u64_host Buffer_ PlainTextLength MAGIC_NO_ENCRYPTION_VALUE).

Definition QuicDecrypt (Key : Z) (Iv : list Z) (AuthDataLength : Z)
    (AuthData : list Z) (BufferLength_ : Z) (Buffer_ : mem) : QUIC_STATUS :=
  let PlainTextLength := u16 (BufferLength_ - QUIC_ENCRYPTION_OVERHEAD) in
  if negb (load_u64_host Buffer_ PlainTextLength =? MAGIC_NO_ENCRYPTION_VALUE)
  then QUIC_STATUS_INVALID_PARAMETER
  else QUIC_STATUS_SUCCESS.

(** [BatchSize] is a [uint8_t]. *)
Definition QuicHpComputeMask (Key : Z) (BatchSize : Z) (Cipher : mem)
    (Mask : mem) : QUIC_STATUS * mem :=
  (QUIC_STATUS_SUCCESS,
   QuicZeroMemory Mask 0 (u8 BatchSize * QUIC_HP_SAMPLE_LENGTH)).

End Crypt.

(** ** QuicTlsSessionInitialize *)

(** [ALPN] is a character array that holds a C string; [allocated] tells
    whether the allocator hands out the session.  The length is a [size_t],
    compared before it is cut to 16 bits. *)
Definition QuicTlsSessionInitialize (ALPN : list Z) (allocated : bool)
    : QUIC_STATUS * option QUIC_TLS_SESSION :=
  let ALPNLength := strlen ALPN in
  if ALPNLength >? 65535 then (QUIC_STATUS_INVALID_PARAMETER, None)
  else if negb allocated then (QUIC_STATUS_OUT_OF_MEMORY, None)
  else
    (QUIC_STATUS_SUCCESS,
     Some {| AlpnLength := u16 ALPNLength;
             Alpn := firstn (Z.to_nat ALPNLength) ALPN |}).

Section Stub2.

Context {QUIC_CERT : Type}.

(** ** QuicTlsReadTicket *)

(** [Buffer_] is an optional pointer; returns the status, [*BufferLength]
    and the destination. *)
Definition QuicTlsReadTicket (c : QUIC_TLS QUIC_CERT) (BufferLength_ : Z)
    (Buffer_ : option mem) : QUIC_STATUS * Z * option mem :=
  if negb (TicketReady c) then
    (QUIC_STATUS_INVALID_STATE, BufferLength_, Buffer_)
  else
    match Buffer_ with
    | None => (QUIC_STATUS_BUFFER_TOO_SMALL, BufferLength_, Buffer_)
    | Some m =>
      if BufferLength_ =? 0
      then (QUIC_STATUS_BUFFER_TOO_SMALL, BufferLength_, Buffer_)
      else (QUIC_STATUS_SUCCESS, 1, Some (store8 m 0 0xFF))
    end.

End Stub2.


(** ** The security configuration: creation, references, deletion *)

Section SecConfig.

Context {QUIC_CERT : Type}.

(** Flags of msquic.h, the size of the formatted chain and the certificate
    capability of quic_cert.h, which the tree does not hold. *)
Variable QUIC_SEC_CONFIG_FLAG_CERTIFICATE_NULL : Z.
Variable QUIC_SEC_CONFIG_FLAG_CERTIFICATE_FILE : Z.
Variable QUIC_SEC_CONFIG_FLAG_CERTIFICATE_CONTEXT : Z.
Variable SIZEOF_CERT_CHAIN_LIST_LENGTH : Z.

(** [QuicCertCreate(Flags, Certificate, Principal, &NewCertificate)]: the
    status and what it leaves in [NewCertificate]. *)
Variable QuicCertCreate :
  Z -> option QUIC_CERT -> option (list Z) -> QUIC_STATUS * option QUIC_CERT.

(** [QuicCertFormat(Certificate, BufferLength, Buffer)]: the length it
    returns and the bytes it leaves in the buffer. *)
Variable QuicCertFormat : option QUIC_CERT -> Z -> Z * list Z.

(** [long], the type of the count: at least 32 bits wide. *)
Variable long : Z -> Z.

Definition QUIC_FAILED (Status : QUIC_STATUS) : bool :=
  match Status with QUIC_STATUS_SUCCESS => false | _ => true end.

(** The allocated QUIC_SEC_CONFIG: the fields the handshake reads and
    [CleanupRundown], which is NULL ([false]) or the rundown of the
    creator. *)
Record SEC_CONFIG_OBJECT : Type := {
  CleanupRundown : bool;
  Config : QUIC_SEC_CONFIG QUIC_CERT
}.

(** The calls made to the rundown, the allocator, the certificate
    capability and the completion handler, in the order they are made. *)
Inductive sec_call : Type :=
| QuicRundownAcquire
| QuicRundownRelease
| QUIC_ALLOC_PAGED
| QUIC_FREE
| CertCreate
| CertFormat (Certificate_ : option QUIC_CERT)
| QuicCertFree (Certificate_ : option QUIC_CERT)
| CompletionHandler (Status : QUIC_STATUS) (SecurityConfig : SEC_CONFIG_OBJECT).

Definition set_RefCount (o : SEC_CONFIG_OBJECT) (n : Z) : SEC_CONFIG_OBJECT :=
  {| CleanupRundown := CleanupRundown o;
     Config := {| RefCount := n; Flags := Flags (Config o);
                  Certificate := Certificate (Config o);
                  FormatLength := FormatLength (Config o);
                  FormatBuffer := FormatBuffer (Config o) |} |}.

(** [QuicTlsServerSecConfigCreate].  [acquired] is what
    [QuicRundownAcquire] answers; [allocated] is what the allocator hands
    out: nothing, or memory with whatever it held. *)
Definition QuicTlsServerSecConfigCreate (acquired : bool)
    (allocated : option SEC_CONFIG_OBJECT) (Flags_ : Z)
    (Certificate_ : option QUIC_CERT) (Principal : option (list Z))
    : QUIC_STATUS * list sec_call :=
  if negb acquired then (QUIC_STATUS_INVALID_STATE, [QuicRundownAcquire])
  else
    match allocated with
    | None =>
      (QUIC_STATUS_OUT_OF_MEMORY,
       [QuicRundownAcquire; QUIC_ALLOC_PAGED; QuicRundownRelease])
    | Some raw =>
      let calls := [QuicRundownAcquire; QUIC_ALLOC_PAGED] in
      let Error Status calls :=
        (Status, calls ++ [QUIC_FREE; QuicRundownRelease]) in
      let Format cert calls :=
        let '(Length, Bytes) := QuicCertFormat cert SIZEOF_CERT_CHAIN_LIST_LENGTH in
        let SecurityConfig :=
          {| CleanupRundown := true;
             Config := {| RefCount := 1; Flags := Flags_; Certificate := cert;
                          FormatLength := u16 Length;
                          FormatBuffer := Bytes |} |} in
        (QUIC_STATUS_SUCCESS,
         calls ++ [CertFormat cert;
                   CompletionHandler QUIC_STATUS_SUCCESS SecurityConfig]) in
      if Flags_ =? QUIC_SEC_CONFIG_FLAG_CERTIFICATE_NULL then
        Format (Certificate (Config raw)) calls
      else if negb (Z.land Flags_ QUIC_SEC_CONFIG_FLAG_CERTIFICATE_FILE =? 0)
      then Error QUIC_STATUS_INVALID_PARAMETER calls
      else if negb (Z.land Flags_ QUIC_SEC_CONFIG_FLAG_CERTIFICATE_CONTEXT =? 0)
      then
        match Certificate_ with
        | None => Error QUIC_STATUS_INVALID_PARAMETER calls
        | Some _ => Format Certificate_ calls
        end
      else
        let '(Status, cert) := QuicCertCreate Flags_ Certificate_ Principal in
        if QUIC_FAILED Status
        then Error Status (calls ++ [CertCreate])
        else Format cert (calls ++ [CertCreate])
    end.

(** [QuicTlsClientSecConfigCreate]: the status and [*ClientConfig]. *)
Definition QuicTlsClientSecConfigCreate (Flags_ : Z) (allocated : bool)
    : QUIC_STATUS * option SEC_CONFIG_OBJECT :=
  if negb allocated then (QUIC_STATUS_OUT_OF_MEMORY, None)
  else
    (QUIC_STATUS_SUCCESS,
     Some {| CleanupRundown := false;
             Config := {| RefCount := 1; Flags := u32 Flags_;
                          Certificate := None;
                          FormatLength := 0;
                          FormatBuffer :=
                            repeat 0 (Z.to_nat SIZEOF_CERT_CHAIN_LIST_LENGTH)
                       |} |}).

(** [QuicTlsSecConfigDelete]: the calls it makes. *)
Definition QuicTlsSecConfigDelete (o : SEC_CONFIG_OBJECT) : list sec_call :=
  (if Z.land (Flags (Config o)) QUIC_SEC_CONFIG_FLAG_CERTIFICATE_CONTEXT =? 0
   then [QuicCertFree (Certificate (Config o))]
   else [])
  ++ [QUIC_FREE]
  ++ (if CleanupRundown o then [QuicRundownRelease] else []).

(** [InterlockedIncrement] and [InterlockedDecrement] on the count: one
    indivisible step each, which returns the new value. *)
Definition InterlockedIncrement (x : Z) : Z := long (x + 1).
Definition InterlockedDecrement (x : Z) : Z := long (x - 1).

Definition QuicTlsSecConfigAddRef (o : SEC_CONFIG_OBJECT) : SEC_CONFIG_OBJECT :=
  set_RefCount o (InterlockedIncrement (RefCount (Config o))).

(** [QuicTlsSecConfigRelease]: the object as it is left ([None] once it
    is freed) and the calls made. *)
Definition QuicTlsSecConfigRelease (o : SEC_CONFIG_OBJECT)
    : option SEC_CONFIG_OBJECT * list sec_call :=
  let o := set_RefCount o (InterlockedDecrement (RefCount (Config o))) in
  if RefCount (Config o) =? 0
  then (None, QuicTlsSecConfigDelete o)
  else (Some o, []).

(** The holders of a configuration add and release references; each
    operation is one step on the shared object.  An operation on an
    object that was freed has no defined result. *)
Inductive ref_op : Type := OpAddRef | OpRelease.

Fixpoint references (ops : list ref_op) (o : option SEC_CONFIG_OBJECT)
    : option (option SEC_CONFIG_OBJECT * list sec_call) :=
  match ops with
  | [] => Some (o, [])
  | op :: rest =>
    match o with
    | None => None
    | Some o =>
      let '(o, calls) :=
        match op with
        | OpAddRef => (Some (QuicTlsSecConfigAddRef o), [])
        | OpRelease => QuicTlsSecConfigRelease o
        end in
      match references rest o with
      | None => None
      | Some (o, calls') => Some (o, calls ++ calls')
      end
    end
  end.

(** ** QuicTlsInitialize *)

(** Constant of the platform headers. *)
Variable QUIC_MAX_SNI_LENGTH : Z.

(** The part of QUIC_TLS_CONFIG (quic_tls.h) the function reads.
    Modelled from the spec: "role, reference to Session, reference to
    SecurityConfig, optional server-name string, local transport-parameter
    bytes"; the names are those the code uses.  [cfg_SecConfig] is the
    shared object [Config->SecConfig] points to. *)
Record QUIC_TLS_CONFIG : Type := {
  cfg_IsServer : bool;
  cfg_TlsSession : QUIC_TLS_SESSION;
  cfg_SecConfig : SEC_CONFIG_OBJECT;
  cfg_LocalTPBuffer : list Z;
  cfg_LocalTPLength : Z;
  cfg_ServerName : option (list Z)
}.

(** [strnlen(s, maxlen)] *)
Definition strnlen (s : list Z) (maxlen : Z) : Z := Z.min (strlen s) maxlen.

(** [allocated] and [allocatedSNI] tell whether the allocator hands out the
    context and the copy of the server name.  Returns the status, the
    context left in [*NewTlsContext], the shared configuration as the call
    leaves it ([None] once it is freed) and the calls made for it.  The
    context takes a reference to the configuration as soon as it exists
    and, under the label [Error], gives it back when the call fails; there
    the context and the copy of the name are freed and none is handed out.
    When the context cannot be allocated the code jumps to [Exit] and the
    configuration is not touched. *)
Definition QuicTlsInitialize (Config_ : QUIC_TLS_CONFIG)
    (allocated allocatedSNI : bool)
    : QUIC_STATUS * option (QUIC_TLS QUIC_CERT)
      * option SEC_CONFIG_OBJECT * list sec_call :=
  if negb allocated
  then (QUIC_STATUS_OUT_OF_MEMORY, None, Some (cfg_SecConfig Config_), [])
  else
    let SecConfig_ := QuicTlsSecConfigAddRef (cfg_SecConfig Config_) in
    let TlsContext :=
      {| IsServer := cfg_IsServer Config_; TicketReady := false;
         LastMessageType := QUIC_TLS_MESSAGE_INVALID;
         TlsSession := cfg_TlsSession Config_;
         SecConfig := Some (Config SecConfig_);
         ReceivedTP := [];
         SNI := None;
         LocalTPBuffer := cfg_LocalTPBuffer Config_;
         LocalTPLength := cfg_LocalTPLength Config_ |} in
    let Error Status :=
      if QUIC_FAILED Status then
        let '(o, calls) := QuicTlsSecConfigRelease SecConfig_ in
        (Status, None, o, calls)
      else (Status, Some TlsContext, Some SecConfig_, []) in
    match cfg_ServerName Config_ with
    | Some ServerName =>
      let ServerNameLength := strnlen ServerName (QUIC_MAX_SNI_LENGTH + 1) in
      if ServerNameLength =? QUIC_MAX_SNI_LENGTH + 1
      then Error QUIC_STATUS_INVALID_PARAMETER
      else if negb allocatedSNI then Error QUIC_STATUS_OUT_OF_MEMORY
      else
        (QUIC_STATUS_SUCCESS,
         Some (set_SNI TlsContext
                 (Some (firstn (Z.to_nat (ServerNameLength + 1)) ServerName))),
         Some SecConfig_, [])
    | None => (QUIC_STATUS_SUCCESS, Some TlsContext, Some SecConfig_, [])
    end.

End SecConfig.

Arguments SEC_CONFIG_OBJECT : clear implicits.
Arguments sec_call : clear implicits.
Arguments QUIC_TLS_CONFIG : clear implicits.


(** ** Contexts and states as the API creates them *)

Module Fresh.

(** [QuicTlsSessionInitialize]: the ALPN string and its length. *)
Definition session (ALPN : list Z) : QUIC_TLS_SESSION :=
  {| AlpnLength := u16 (Z.of_nat (length ALPN)); Alpn := ALPN |}.

(** A server config holding a formatted certificate chain. *)
Definition sec_config {QUIC_CERT : Type} (flags : Z) (cert : option QUIC_CERT)
    (chain : list Z) : QUIC_SEC_CONFIG QUIC_CERT :=
  {| RefCount := 1; Flags := flags; Certificate := cert;
     FormatLength := u16 (Z.of_nat (length chain)); FormatBuffer := chain |}.

(** [QuicTlsInitialize]: zeroed context, then the fields of the config;
    the server name, when given, is copied with its terminator. *)
Definition context {QUIC_CERT : Type} (isServer : bool) (ALPN : list Z)
    (config : QUIC_SEC_CONFIG QUIC_CERT) (ServerName : option (list Z))
    (LocalTP : list Z) : QUIC_TLS QUIC_CERT :=
  {| IsServer := isServer; TicketReady := false;
     LastMessageType := QUIC_TLS_MESSAGE_INVALID;
     TlsSession := session ALPN;
     SecConfig := Some config;
     ReceivedTP := [];
     SNI := option_map (fun n => n ++ [0]) ServerName;
     LocalTPBuffer := LocalTP;
     LocalTPLength := u32 (Z.of_nat (length LocalTP)) |}.

(** A process state with an empty buffer of the given capacity whose
    cells hold [fill]. *)
Definition state (alloc : Z) (fill : mem) : QUIC_TLS_PROCESS_STATE :=
  {| HandshakeComplete := false;
     EarlyDataAttempted := false; EarlyDataAccepted := false;
     BufferAllocLength := alloc;
     BufferTotalLength := 0; BufferLength := 0;
     BufferOffsetHandshake := 0; BufferOffset1Rtt := 0;
     Buffer := fill;
     ReadKey := QUIC_PACKET_KEY_INITIAL; WriteKey := QUIC_PACKET_KEY_INITIAL;
     ReadKeys := fun _ => None; WriteKeys := fun _ => None |}.

End Fresh.

(** ** Notions the properties are stated with *)

(** The closed set of extension types. *)
Definition recognized (ExtType : Z) : bool :=
  (ExtType =? TlsExt_ServerName)
  || (ExtType =? TlsExt_AppProtocolNegotiation)
  || (ExtType =? TlsExt_SessionTicket)
  || (ExtType =? TlsExt_QuicTransportParameters).

(** Walking the list at [ExtList] by the declared length of each extension,
    with [ExtListLength] declared bytes left, meets an extension of a type
    outside the closed set, or one whose declared length plus 4 exceeds
    what is left. *)
Inductive ExtListOffends (B : mem) : Z -> Z -> Prop :=
| offends_type : forall ExtList ExtListLength,
    0 < ExtListLength ->
    recognized (TlsReadUint16 B ExtList) = false ->
    ExtListOffends B ExtList ExtListLength
| offends_length : forall ExtList ExtListLength,
    0 < ExtListLength ->
    ExtListLength < TlsReadUint16 B (ExtList + 2) + 4 ->
    ExtListOffends B ExtList ExtListLength
| offends_later : forall ExtList ExtListLength,
    0 < ExtListLength ->
    recognized (TlsReadUint16 B ExtList) = true ->
    TlsReadUint16 B (ExtList + 2) + 4 <= ExtListLength ->
    ExtListOffends B
      (ExtList + (TlsReadUint16 B (ExtList + 2) + 4))
      (ExtListLength - (TlsReadUint16 B (ExtList + 2) + 4)) ->
    ExtListOffends B ExtList ExtListLength.

(** The size of the extension list the client writes for a server name (if
    any), an ALPN value, the early-data flag and transport parameters:
    9 + name, 7 + ALPN, 4 for the ticket, 4 + parameters. *)
Definition ext_list_size (name : option (list Z)) (alpn : list Z)
    (early : bool) (tp : list Z) : Z :=
  match name with
  | Some n => 9 + Z.of_nat (length n)
  | None => 0
  end
  + (7 + Z.of_nat (length alpn))
  + (if early then 4 else 0)
  + (4 + Z.of_nat (length tp)).

(** A 16-bit value as it lies on the wire, high byte first. *)
Definition be16 (v : Z) : list Z := [v / 256; v mod 256].

(** The bytes of that extension list.  Every extension is
    [type:2, length:2, value:length]; the value of ServerName is
    [list_len:2, name_type:1, name_len:2, name], that of ALPN is
    [list_len:2, proto_len:1, proto] (the length of the protocol lies in one
    byte), that of SessionTicket is empty, that of the transport parameters
    is their bytes. *)
Definition ext_list_bytes (name : option (list Z)) (alpn : list Z)
    (early : bool) (tp : list Z) : list Z :=
  match name with
  | Some n =>
    be16 TlsExt_ServerName ++ be16 (5 + Z.of_nat (length n))
    ++ be16 (3 + Z.of_nat (length n))
    ++ [TlsExt_Sni_NameType_HostName] ++ be16 (Z.of_nat (length n)) ++ n
  | None => []
  end
  ++ (be16 TlsExt_AppProtocolNegotiation ++ be16 (3 + Z.of_nat (length alpn))
      ++ be16 (1 + Z.of_nat (length alpn))
      ++ [u8 (Z.of_nat (length alpn))] ++ alpn)
  ++ (if early then be16 TlsExt_SessionTicket ++ be16 0 else [])
  ++ (be16 TlsExt_QuicTransportParameters ++ be16 (Z.of_nat (length tp))
      ++ tp).

(** A ClientInitial lies at [ClientMessage] in [M]: the type byte of a
    ClientHello, the 24-bit length of what follows the 4-byte header,
    version 0x0302, no session id, no cipher suites, one compression
    method, the 16-bit length of the extension list and the list itself,
    which holds the server name (if any), the ALPN value, the empty
    SessionTicket and the transport parameters. *)
Definition ClientInitial_at (M : mem) (ClientMessage : Z)
    (name : option (list Z)) (alpn tp : list Z) : Prop :=
  let size := ext_list_size name alpn true tp in
  load8 M (ClientMessage + Off.Type_) = TlsHandshake_ClientHello
  /\ TlsReadUint24 M (ClientMessage + Off.Length)
       = sizeof_QUIC_TLS_CLIENT_HELLO + size
  /\ TlsReadUint16 M (ClientMessage + Off.Version) = 0x0302
  /\ load8 M (ClientMessage + Off.SessionIdLength) = 0
  /\ TlsReadUint16 M (ClientMessage + Off.CipherSuiteLength) = 0
  /\ load8 M (ClientMessage + Off.CompressionMethodLength) = 1
  /\ TlsReadUint16 M (ClientMessage + Off.ExtListLength) = size
  /\ peek M (ClientMessage + Off.ExtList) size
       = ext_list_bytes name alpn true tp.

(** The first flight of the server as it lies in the buffer after the
    call: a ServerInitial record of [InitialSize] bytes at the start, the
    Handshake watermark behind it, then a ServerHandshake record of
    [HandshakeSize] bytes, the used length and the 1-RTT watermark behind
    that one. *)
Definition emitted_first_flight (s : QUIC_TLS_PROCESS_STATE)
    (InitialSize HandshakeSize : Z) : Prop :=
  load8 (Buffer s) Off.Type_ = msg_code QUIC_TLS_MESSAGE_SERVER_INITIAL
  /\ TlsReadUint24 (Buffer s) Off.Length + 4 = InitialSize
  /\ BufferOffsetHandshake s = InitialSize
  /\ load8 (Buffer s) (InitialSize + Off.Type_)
       = msg_code QUIC_TLS_MESSAGE_SERVER_HANDSHAKE
  /\ TlsReadUint24 (Buffer s) (InitialSize + Off.Length) + 4 = HandshakeSize
  /\ BufferLength s = InitialSize + HandshakeSize
  /\ BufferOffset1Rtt s = InitialSize + HandshakeSize.

(** The result flags and keys of the first flight of the server: the read
    key and the write key of the Handshake epoch and the write key of the
    1-RTT epoch are installed and signalled together with Data. *)
Definition signalled_first_flight (ResultFlags : Z)
    (s : QUIC_TLS_PROCESS_STATE) : Prop :=
  has_flag ResultFlags QUIC_TLS_RESULT_READ_KEY_UPDATED = true
  /\ has_flag ResultFlags QUIC_TLS_RESULT_WRITE_KEY_UPDATED = true
  /\ has_flag ResultFlags QUIC_TLS_RESULT_DATA = true
  /\ has_flag ResultFlags QUIC_TLS_RESULT_ERROR = false
  /\ ReadKey s = QUIC_PACKET_KEY_HANDSHAKE
  /\ ReadKeys s QUIC_PACKET_KEY_HANDSHAKE
       = Some {| KeyType := QUIC_PACKET_KEY_HANDSHAKE |}
  /\ WriteKeys s QUIC_PACKET_KEY_HANDSHAKE
       = Some {| KeyType := QUIC_PACKET_KEY_HANDSHAKE |}
  /\ WriteKey s = QUIC_PACKET_KEY_1_RTT
  /\ WriteKeys s QUIC_PACKET_KEY_1_RTT
       = Some {| KeyType := QUIC_PACKET_KEY_1_RTT |}.

(** [Buffer + k]: the memory seen from offset [k]. *)
Definition shift (m : mem) (k : Z) : mem := fun i => m (k + i).

(** The messages a role acts on in a state: the type byte it tests for,
    and for the ClientHandshake its success byte. *)
Definition acceptable {QUIC_CERT : Type} (c : QUIC_TLS QUIC_CERT) (B : mem)
    : bool :=
  match IsServer c, LastMessageType c with
  | true, QUIC_TLS_MESSAGE_INVALID =>
    load8 B Off.Type_ =? msg_code QUIC_TLS_MESSAGE_CLIENT_INITIAL
  | true, QUIC_TLS_MESSAGE_SERVER_HANDSHAKE =>
    (load8 B Off.Type_ =? msg_code QUIC_TLS_MESSAGE_CLIENT_HANDSHAKE)
    && negb (load8 B Off.Body =? 0)
  | false, QUIC_TLS_MESSAGE_INVALID => true
  | false, QUIC_TLS_MESSAGE_CLIENT_INITIAL =>
    (load8 B Off.Type_ =? msg_code QUIC_TLS_MESSAGE_SERVER_INITIAL)
    || (load8 B Off.Type_ =? msg_code QUIC_TLS_MESSAGE_SERVER_HANDSHAKE)
  | false, QUIC_TLS_MESSAGE_CLIENT_HANDSHAKE =>
    load8 B Off.Type_ =? msg_code QUIC_TLS_MESSAGE_TICKET
  | _, _ => false
  end.

(** Every key of the two tables is of the epoch of its slot. *)
Definition keys_match_slots (s : QUIC_TLS_PROCESS_STATE) : Prop :=
  forall k key,
    ReadKeys s k = Some key \/ WriteKeys s k = Some key -> KeyType key = k.


(** The count of references after the operations, from a count of [n],
    and that it is above zero after each of them. *)
Definition ref_delta (op : ref_op) : Z :=
  match op with OpAddRef => 1 | OpRelease => -1 end.

Fixpoint count_after (n : Z) (ops : list ref_op) : Z :=
  match ops with
  | [] => n
  | op :: rest => count_after (n + ref_delta op) rest
  end.

Fixpoint held_throughout (n : Z) (ops : list ref_op) : Prop :=
  match ops with
  | [] => True
  | op :: rest =>
    0 < n + ref_delta op /\ held_throughout (n + ref_delta op) rest
  end.

(** How often the rundown is released, the object is freed and the
    completion handler is called in a sequence of calls. *)
Definition is_release {QUIC_CERT : Type} (e : sec_call QUIC_CERT) : bool :=
  match e with QuicRundownRelease => true | _ => false end.

Definition is_free {QUIC_CERT : Type} (e : sec_call QUIC_CERT) : bool :=
  match e with QUIC_FREE => true | _ => false end.

Definition is_completion {QUIC_CERT : Type} (e : sec_call QUIC_CERT) : bool :=
  match e with CompletionHandler _ _ => true | _ => false end.

Definition times {A : Type} (p : A -> bool) (l : list A) : Z :=
  Z.of_nat (length (filter p l)).


(** The role-specific order of the last-message marker: the message a role
    sends next after the one it sent last. *)
Definition next_in_sequence (isServer : bool) (t : QUIC_FAKE_TLS_MESSAGE_TYPE)
    : option QUIC_FAKE_TLS_MESSAGE_TYPE :=
  match isServer, t with
  | true, QUIC_TLS_MESSAGE_INVALID => Some QUIC_TLS_MESSAGE_SERVER_HANDSHAKE
  | true, QUIC_TLS_MESSAGE_SERVER_HANDSHAKE => Some QUIC_TLS_MESSAGE_TICKET
  | false, QUIC_TLS_MESSAGE_INVALID => Some QUIC_TLS_MESSAGE_CLIENT_INITIAL
  | false, QUIC_TLS_MESSAGE_CLIENT_INITIAL => Some QUIC_TLS_MESSAGE_CLIENT_HANDSHAKE
  | _, _ => None
  end.

(** The marker stays, or moves to the next message of the role. *)
Definition advances (isServer : bool) (a b : QUIC_FAKE_TLS_MESSAGE_TYPE) : Prop :=
  a = b \/ next_in_sequence isServer a = Some b.

(** The operations on a handshake context that touch the marker. *)
Inductive operation : Type :=
| OpProcessData (B : mem) (InLength : Z)
| OpReset.

Definition is_reset (o : operation) : bool :=
  match o with OpReset => true | OpProcessData _ _ => false end.

Section Runs.

Context {QUIC_CERT : Type}.
Variable QuicCertSelect : option QUIC_CERT -> list Z -> bool.
Variable QuicCertParseChain : Z -> list Z -> option QUIC_CERT.
Variable QuicCertValidateChain : QUIC_CERT -> option (list Z) -> Z -> bool.
Variable QUIC_CERTIFICATE_FLAG_DISABLE_CERT_VALIDATION : Z.
Variable DBG : bool.

(** A context with its process state; [h_Responded] remembers whether some
    processing call has consumed bytes of the peer. *)
Record handshake : Type := {
  h_TlsContext : QUIC_TLS QUIC_CERT;
  h_State : QUIC_TLS_PROCESS_STATE;
  h_Responded : bool
}.

Definition apply_op (h : handshake) (o : operation) : outcome handshake :=
  match o with
  | OpProcessData B InLength =>
    do r <- QuicTlsProcessData QuicCertSelect QuicCertParseChain
              QuicCertValidateChain QUIC_CERTIFICATE_FLAG_DISABLE_CERT_VALIDATION
              DBG (h_TlsContext h) B InLength (h_State h);
    Done {| h_TlsContext := r_TlsContext r; h_State := r_State r;
            h_Responded := h_Responded h || negb (r_BufferLength r =? 0) |}
  | OpReset =>
    do c <- QuicTlsReset DBG (h_TlsContext h);
    Done {| h_TlsContext := c; h_State := h_State h;
            h_Responded := h_Responded h |}
  end.

(** [P] holds of every step of the run of [ops] from [h] (the run ends at
    the first call that does not return). *)
Fixpoint every_step (P : handshake -> operation -> handshake -> Prop)
    (h : handshake) (ops : list operation) : Prop :=
  match ops with
  | [] => True
  | o :: ops' =>
    match apply_op h o with
    | Done h' => P h o h' /\ every_step P h' ops'
    | Fault _ => True
    end
  end.

(** A step as the marker is said to move: it advances, or a client that has
    processed no server response yet is reset to its initial state. *)
Definition step_restricted (h : handshake) (o : operation) (h' : handshake) : Prop :=
  advances (IsServer (h_TlsContext h))
    (LastMessageType (h_TlsContext h)) (LastMessageType (h_TlsContext h'))
  \/ (is_reset o = true /\ IsServer (h_TlsContext h) = false
      /\ h_Responded h = false
      /\ LastMessageType (h_TlsContext h') = QUIC_TLS_MESSAGE_INVALID).

(** A step as the build lets the marker move: it advances, or the step is
    a reset, which puts the marker back to its initial value; a debug
    build resets a client only, any other build resets either role. *)
Definition step_as_built (h : handshake) (o : operation) (h' : handshake) : Prop :=
  advances (IsServer (h_TlsContext h))
    (LastMessageType (h_TlsContext h)) (LastMessageType (h_TlsContext h'))
  \/ (is_reset o = true
      /\ (DBG = true -> IsServer (h_TlsContext h) = false)
      /\ LastMessageType (h_TlsContext h') = QUIC_TLS_MESSAGE_INVALID).

End Runs.

Arguments handshake : clear implicits.

(** ** Concrete inputs *)

Module Scenario.

(** A platform whose certificate capability accepts everything. *)
Definition CertSelect : option unit -> list Z -> bool := fun _ _ => true.
Definition CertParseChain : Z -> list Z -> option unit := fun _ _ => Some tt.
Definition CertValidateChain : unit -> option (list Z) -> Z -> bool :=
  fun _ _ _ => true.
Definition DISABLE_CERT_VALIDATION : Z := 1.

(** The entry point on that platform, in a build without debug
    assertions. *)
Definition ProcessData :=
  QuicTlsProcessData CertSelect CertParseChain CertValidateChain
    DISABLE_CERT_VALIDATION false.

Definition zeros : mem := fun _ => 0.

(** "h3" and "a.test" *)
Definition h3 : list Z := [104; 51].
Definition a_test : list Z := [97; 46; 116; 101; 115; 116].

Definition config : QUIC_SEC_CONFIG unit :=
  Fresh.sec_config 0 (Some tt) (repeat 7 50%nat).

(** A client without server name, ALPN "h3", no transport parameters. *)
Definition client : QUIC_TLS unit := Fresh.context false h3 config None [].

Definition key_1rtt : QUIC_PACKET_KEY := {| KeyType := QUIC_PACKET_KEY_1_RTT |}.

(** A heap that holds a 1-RTT key at address 1, and one that holds a
    Handshake key there. *)
Definition heap_1rtt : key_heap := put_key (fun _ => None) 1 key_1rtt.
Definition key_handshake : QUIC_PACKET_KEY :=
  {| KeyType := QUIC_PACKET_KEY_HANDSHAKE |}.

Definition heap_handshake : key_heap :=
  put_key (fun _ => None) 1 key_handshake.


(** The ClientInitial of a client with server name "a.test" and ALPN
    "h3" and no transport parameters, with or without the SessionTicket
    extension; the random bytes are zero. *)
Definition a_test_initial (ticket : bool) : list Z :=
  [1; 0; 0; if ticket then 73 else 69]
  ++ [3; 2] ++ repeat 0 32%nat ++ [0; 0; 0; 1; 0]
  ++ [0; if ticket then 32 else 28]
  ++ [0; 0; 0; 11; 0; 9; 0; 0; 6] ++ a_test
  ++ [0; 16; 0; 5; 0; 3; 2] ++ h3
  ++ (if ticket then [0; 35; 0; 0] else [])
  ++ [255; 165; 0; 0].

Definition client_a_test : QUIC_TLS unit :=
  Fresh.context false h3 config (Some a_test) [].

(** A server with ten bytes of transport parameters and a 50-byte
    certificate chain. *)
Definition server : QUIC_TLS unit :=
  Fresh.context true h3 config None [1; 2; 3; 4; 5; 6; 7; 8; 9; 10].

(** A ClientInitial whose only extension has the unknown type 0x002b. *)
Definition unknown_extension_initial : list Z :=
  [1; 0; 0; 45]
  ++ [3; 2] ++ repeat 0 32%nat ++ [0; 0; 0; 1; 0]
  ++ [0; 4]
  ++ [0; 43; 0; 0].

(** A ClientInitial whose ALPN extension declares 5 bytes in a list that
    declares 8 in all. *)
Definition overrunning_extension_initial : list Z :=
  [1; 0; 0; 49]
  ++ [3; 2] ++ repeat 0 32%nat ++ [0; 0; 0; 1; 0]
  ++ [0; 8]
  ++ [0; 16; 0; 5; 0; 3; 2; 104].

(** The header of a Ticket record that declares a body of 70000 bytes
    (0x011170); the body is zeros. *)
Definition long_ticket : list Z := [5; 1; 17; 112].

(** A client that has sent its ClientHandshake. *)
Definition client_after_handshake : QUIC_TLS unit :=
  set_LastMessageType client QUIC_TLS_MESSAGE_CLIENT_HANDSHAKE.

(** A server that has sent its ticket. *)
Definition server_after_ticket : QUIC_TLS unit :=
  set_LastMessageType server QUIC_TLS_MESSAGE_TICKET.

(** The header of a ServerHandshake record of the minimal size, without
    transport parameters or certificate. *)
Definition bare_server_handshake : list Z := [4; 0; 1; 6].

(** A handshake that starts with a fresh client and a buffer of 4096
    bytes, and the operations: first flight, a ServerHandshake from the
    peer, a reset. *)
Definition fresh_client_handshake : handshake unit :=
  {| h_TlsContext := client; h_State := Fresh.state 4096 zeros;
     h_Responded := false |}.

Definition reset_after_response : list operation :=
  [OpProcessData zeros 0;
   OpProcessData (mem_of_list bare_server_handshake) 266;
   OpReset].

(** A handshake that starts with a fresh server and a buffer of 4096
    bytes, and the operations: the ClientInitial of "a.test" from the
    peer, a reset. *)
Definition fresh_server_handshake : handshake unit :=
  {| h_TlsContext := server; h_State := Fresh.state 4096 zeros;
     h_Responded := false |}.

Definition reset_of_server : list operation :=
  [OpProcessData (mem_of_list (a_test_initial true)) 77; OpReset].


(** A whole Ticket record. *)
Definition ticket_record : list Z := [5; 0; 0; 4; 1; 0; 0; 0].

(** A client with server name "a.test", ALPN "h3" and three bytes of
    transport parameters. *)
Definition client_with_tp : QUIC_TLS unit :=
  Fresh.context false h3 config (Some a_test) [1; 2; 3].


(** A client with server name "a.test" that has sent its ClientInitial. *)
Definition client_after_initial : QUIC_TLS unit :=
  set_LastMessageType client_a_test QUIC_TLS_MESSAGE_CLIENT_INITIAL.

(** What a call returned, for a call that returns. *)
Definition returned_by (o : outcome (PROCESS_RESULT unit))
    : PROCESS_RESULT unit :=
  match o with
  | Done r => r
  | Fault _ =>
    {| r_TlsContext := server; r_ResultFlags := 0;
       r_State := Fresh.state 0 zeros; r_BufferLength := 0 |}
  end.

(** What the server returns for the ClientInitial of "a.test". *)
Definition flight_of_server : PROCESS_RESULT unit :=
  returned_by
    (ProcessData server (mem_of_list (a_test_initial true)) 77
       (Fresh.state 4096 zeros)).

(** What the client returns for the ServerHandshake of that flight. *)
Definition finish_of_client : PROCESS_RESULT unit :=
  returned_by
    (ProcessData client_after_initial
       (shift (Buffer (r_State flight_of_server)) 8) 316
       (Fresh.state 4096 zeros)).

(** Seven bytes with the type of a ClientInitial and a body of three. *)
Definition short_initial : list Z := [1; 0; 0; 3; 0; 0; 0].

(** A count of 32 bits, and a configuration that holds a rundown. *)
Definition long32 (x : Z) : Z := (x + 2 ^ 31) mod 2 ^ 32 - 2 ^ 31.

Definition shared_config : SEC_CONFIG_OBJECT unit :=
  {| CleanupRundown := true; Config := config |}.

(** The value of the flag in msquic.h. *)
Definition CERTIFICATE_CONTEXT : Z := 4.


(** A buffer of 4096 bytes of which 62 are used, and one of 4 bytes. *)
Definition half_full : QUIC_TLS_PROCESS_STATE :=
  set_Lengths (Fresh.state 4096 zeros) 62 62 0 0.

Definition cramped : QUIC_TLS_PROCESS_STATE := Fresh.state 4 zeros.

End Scenario.

(** * Properties *)

(** ** Machine integers and result flags *)

Lemma u8_range x : 0 <= u8 x < 256.
Proof. unfold u8. apply Z.mod_pos_bound. lia. Qed.

Lemma u16_range x : 0 <= u16 x < 65536.
Proof. unfold u16. apply Z.mod_pos_bound. lia. Qed.

Lemma u16_small x : 0 <= x < 65536 -> u16 x = x.
Proof. intros. unfold u16. apply Z.mod_small. assumption. Qed.

Lemma u8_small x : 0 <= x < 256 -> u8 x = x.
Proof. intros. unfold u8. apply Z.mod_small. assumption. Qed.

Lemma u32_small x : 0 <= x < 4294967296 -> u32 x = x.
Proof. intros. unfold u32. apply Z.mod_small. assumption. Qed.

Lemma u16_le x : 0 <= x -> u16 x <= x.
Proof. intros. unfold u16. apply Z.mod_le; lia. Qed.

Lemma load8_range m a : 0 <= load8 m a < 256.
Proof. apply u8_range. Qed.

Lemma has_flag_lor a b f :
  has_flag (Z.lor a b) f = has_flag a f || has_flag b f.
Proof.
  unfold has_flag. rewrite Z.land_lor_distr_l.
  destruct (Z.land a f =? 0) eqn:Ha, (Z.land b f =? 0) eqn:Hb; simpl;
    rewrite ?Z.eqb_eq, ?Z.eqb_neq in *.
  - rewrite Ha, Hb. reflexivity.
  - rewrite Ha, Z.lor_0_l. apply Bool.negb_true_iff, Z.eqb_neq. assumption.
  - rewrite Hb, Z.lor_0_r. apply Bool.negb_true_iff, Z.eqb_neq. assumption.
  - apply Bool.negb_true_iff, Z.eqb_neq. intro H.
    apply Z.lor_eq_0_iff in H. tauto.
Qed.

(** ** The packet key update *)

(** C9. QuicPacketKeyUpdate, with an allocator that hands out NULL or
    memory that is not in use.  It fails with InvalidState, leaves
    [*NewKey] as it was and allocates nothing when the old key is absent
    (NULL) or not of the 1-RTT epoch.  For an old key of the 1-RTT epoch,
    when the allocator has memory, it succeeds and [*NewKey] is a new key
    handle: it is not NULL, it is not the old handle, it referred to no
    key before the call, after the call it refers to a key of the 1-RTT
    epoch, and every key that was there, the old one included, is as it
    was.  When the allocator has no memory the call does not return. *)
Theorem QuicPacketKeyUpdate_only_1_RTT :
  forall (allocated : Z) (DBG : bool)
         (heap : key_heap) (OldKey NewKey : Z),
    (allocated <> 0 -> heap allocated = None) ->
    ((OldKey = 0
      \/ exists k, heap OldKey = Some k
                   /\ KeyType k <> QUIC_PACKET_KEY_1_RTT) ->
     Heap.QuicPacketKeyUpdate allocated DBG heap OldKey NewKey
       = Done (QUIC_STATUS_INVALID_STATE, NewKey, heap))
    /\
    (forall k,
       OldKey <> 0 -> heap OldKey = Some k ->
       KeyType k = QUIC_PACKET_KEY_1_RTT ->
       (allocated <> 0 ->
        exists new heap',
          Heap.QuicPacketKeyUpdate allocated DBG heap OldKey NewKey
            = Done (QUIC_STATUS_SUCCESS, new, heap')
          /\ new <> 0
          /\ new <> OldKey
          /\ heap new = None
          /\ heap' new = Some {| KeyType := QUIC_PACKET_KEY_1_RTT |}
          /\ heap' OldKey = Some k
          /\ forall a, a <> new -> heap' a = heap a)
       /\ (allocated = 0 ->
           exists f,
             Heap.QuicPacketKeyUpdate allocated DBG heap OldKey NewKey
               = Fault f)).
Proof.
  intros allocated DBG heap OldKey NewKey Hfresh. split.
  - intros [-> | (k & Hk & Ht)]; [reflexivity |].
    unfold Heap.QuicPacketKeyUpdate.
    destruct (OldKey =? 0); [reflexivity |]. rewrite Hk.
    destruct (KeyType k); try reflexivity. contradiction.
  - intros k Hold Hk Ht. apply Z.eqb_neq in Hold.
    unfold Heap.QuicPacketKeyUpdate, Heap.QuicStubAllocKey, bind,
      QUIC_DBG_ASSERT.
    rewrite Hold, Hk, Ht. cbn [key_type_eqb negb]. split.
    + intros Hmem. pose proof (Hfresh Hmem) as Hnew.
      apply Z.eqb_neq in Hmem. rewrite Hmem. cbn [negb].
      exists allocated, (put_key heap allocated
                           {| KeyType := QUIC_PACKET_KEY_1_RTT |}).
      apply Z.eqb_neq in Hmem, Hold.
      assert (Hne : allocated <> OldKey) by congruence.
      split; [destruct DBG; reflexivity |].
      split; [assumption |]. split; [assumption |]. split; [assumption |].
      unfold put_key. rewrite Z.eqb_refl. split; [reflexivity |].
      split.
      * destruct (Z.eqb_spec OldKey allocated); [congruence | assumption].
      * intros a Ha. destruct (Z.eqb_spec a allocated);
          [contradiction | reflexivity].
    + intros ->. cbn [Z.eqb negb].
      destruct DBG; eexists; reflexivity.
Qed.

(** The two readings of QuicPacketKeyUpdate agree: what the call on the
    heap returns, seen through the pointers, is what the call on the key
    values returns. *)
Lemma QuicPacketKeyUpdate_on_the_heap_and_on_values :
  forall (allocated : Z) (DBG : bool)
         (heap heap' : key_heap) (OldKey NewKey new : Z) (Status : QUIC_STATUS),
    Heap.QuicPacketKeyUpdate allocated DBG heap OldKey NewKey
      = Done (Status, new, heap') ->
    QuicPacketKeyUpdate (key_at heap OldKey) (key_at heap NewKey)
      = (Status, key_at heap' new).
Proof.
  intros allocated DBG heap heap' OldKey NewKey new Status.
  unfold Heap.QuicPacketKeyUpdate, Heap.QuicStubAllocKey, QuicPacketKeyUpdate,
    QuicStubAllocKey, key_at, bind, QUIC_DBG_ASSERT.
  destruct (OldKey =? 0).
  - intros H. injection H as <- <- <-. reflexivity.
  - destruct (heap OldKey) as [k |]; [| discriminate].
    destruct (negb (key_type_eqb (KeyType k) QUIC_PACKET_KEY_1_RTT)).
    + intros H. injection H as <- <- <-. reflexivity.
    + destruct (allocated =? 0) eqn:E;
        [destruct DBG; discriminate |].
      intros H.
      assert (H' : (QUIC_STATUS_SUCCESS, allocated,
                    put_key heap allocated
                      {| KeyType := QUIC_PACKET_KEY_1_RTT |})
                   = (Status, new, heap'))
        by (destruct DBG; injection H as <- <- <-; reflexivity).
      injection H' as <- <- <-. rewrite E. unfold put_key.
      rewrite Z.eqb_refl. reflexivity.
Qed.

Lemma QuicPacketKeyUpdate_only_1_RTT_witness :
  Heap.QuicPacketKeyUpdate 2 true Scenario.heap_handshake 1 0
    = Done (QUIC_STATUS_INVALID_STATE, 0, Scenario.heap_handshake)
  /\ exists heap',
       Heap.QuicPacketKeyUpdate 2 true Scenario.heap_1rtt 1 0
         = Done (QUIC_STATUS_SUCCESS, 2, heap')
       /\ Scenario.heap_1rtt 2 = None
       /\ heap' 2 = Some {| KeyType := QUIC_PACKET_KEY_1_RTT |}
       /\ heap' 1 = Some Scenario.key_1rtt.
Proof.
  split.
  - apply (proj1 (QuicPacketKeyUpdate_only_1_RTT 2 true
                    Scenario.heap_handshake 1 0 (fun _ => eq_refl))).
    right. exists Scenario.key_handshake. split; [reflexivity | discriminate].
  - destruct (proj2 (QuicPacketKeyUpdate_only_1_RTT 2 true
                       Scenario.heap_1rtt 1 0 (fun _ => eq_refl))
                Scenario.key_1rtt) as [H _];
      [discriminate | reflexivity | reflexivity |].
    destruct H as (new & heap' & E & _ & _ & Hn & Hk & Ho & _);
      [discriminate |].
    assert (E2 : Done (QUIC_STATUS_SUCCESS, 2,
                       put_key Scenario.heap_1rtt 2
                         {| KeyType := QUIC_PACKET_KEY_1_RTT |})
                 = Done (QUIC_STATUS_SUCCESS, new, heap'))
      by exact E.
    injection E2 as <- <-.
    eexists. split; [reflexivity |]. repeat split; assumption.
Defined.

Lemma no_error_DATA : has_flag QUIC_TLS_RESULT_DATA QUIC_TLS_RESULT_ERROR = false.
Proof. reflexivity. Qed.
Lemma no_error_READ_KEY_UPDATED :
  has_flag QUIC_TLS_RESULT_READ_KEY_UPDATED QUIC_TLS_RESULT_ERROR = false.
Proof. reflexivity. Qed.
Lemma no_error_WRITE_KEY_UPDATED :
  has_flag QUIC_TLS_RESULT_WRITE_KEY_UPDATED QUIC_TLS_RESULT_ERROR = false.
Proof. reflexivity. Qed.
Lemma no_error_EARLY_DATA_ACCEPT :
  has_flag QUIC_TLS_RESULT_EARLY_DATA_ACCEPT QUIC_TLS_RESULT_ERROR = false.
Proof. reflexivity. Qed.
Lemma no_error_EARLY_DATA_REJECT :
  has_flag QUIC_TLS_RESULT_EARLY_DATA_REJECT QUIC_TLS_RESULT_ERROR = false.
Proof. reflexivity. Qed.
Lemma no_error_COMPLETE :
  has_flag QUIC_TLS_RESULT_COMPLETE QUIC_TLS_RESULT_ERROR = false.
Proof. reflexivity. Qed.
Lemma no_error_TICKET :
  has_flag QUIC_TLS_RESULT_TICKET QUIC_TLS_RESULT_ERROR = false.
Proof. reflexivity. Qed.

Create Rewrite HintDb flags.
#[export] Hint Rewrite has_flag_lor no_error_DATA no_error_READ_KEY_UPDATED
  no_error_WRITE_KEY_UPDATED no_error_EARLY_DATA_ACCEPT
  no_error_EARLY_DATA_REJECT no_error_COMPLETE no_error_TICKET
  Bool.orb_false_r Bool.orb_false_l : flags.

(** Case analysis on the next test of a call whose result is [H]. *)
Ltac break_in H :=
  match type of H with
  | context [if ?b then _ else _] => destruct b eqn:?
  | context [match ?x with _ => _ end] => destruct x eqn:?
  end.

(** Reduce the projections of the records, and nothing else. *)
Ltac fields :=
  cbn [r_TlsContext r_ResultFlags r_State r_BufferLength
       IsServer TicketReady LastMessageType TlsSession SecConfig ReceivedTP
       SNI LocalTPBuffer LocalTPLength
       RefCount Flags Certificate FormatLength FormatBuffer
       HandshakeComplete EarlyDataAttempted EarlyDataAccepted
       BufferAllocLength BufferTotalLength BufferLength BufferOffsetHandshake
       BufferOffset1Rtt Buffer ReadKey WriteKey ReadKeys WriteKeys
       set_LastMessageType set_TicketReady set_SecConfig set_SNI
       ReceiveTPCallback set_EarlyData set_HandshakeComplete set_Buffer
       set_Lengths install_ReadKey store_ReadKey install_WriteKey
       fst snd] in *.

(** A call that returned: name what it returned. *)
Lemma Done_inj {A : Type} (a b : A) : Done a = Done b -> a = b.
Proof. intros H. inversion H. reflexivity. Qed.

Ltac returned H :=
  unfold returns in H; apply Done_inj in H; rewrite <- H in *; clear H; fields.

(** The server found without a config: only a build without debug
    assertions goes on, and it returns only when the buffer has no room. *)
Ltac without_config H :=
  match type of H with
  | (if ?b then _ else _) = Done _ => destruct b; [discriminate H |]
  end;
  match type of H with
  | (if ?b then _ else _) = Done _ => destruct b eqn:?; [| discriminate H]
  end.

(** ** Loads after stores *)

Lemma u8_u8 x : u8 (u8 x) = u8 x.
Proof. unfold u8. apply Z.mod_mod. lia. Qed.

Lemma load8_store8_same m a v : load8 (store8 m a v) a = u8 v.
Proof. unfold load8, store8. rewrite Z.eqb_refl. apply u8_u8. Qed.

Lemma load8_store8_other m a v b :
  b <> a -> load8 (store8 m a v) b = load8 m b.
Proof.
  intros H. unfold load8, store8.
  destruct (b =? a) eqn:E; [apply Z.eqb_eq in E; contradiction | reflexivity].
Qed.

Lemma load8_memcpy_out m d src n b :
  b < d \/ d + n <= b -> load8 (memcpy m d src n) b = load8 m b.
Proof.
  intros H. unfold load8, memcpy.
  destruct (d <=? b) eqn:E1, (b <? d + n) eqn:E2; simpl; try reflexivity.
  apply Z.leb_le in E1. apply Z.ltb_lt in E2. lia.
Qed.

Lemma load8_memcpy_in m d src n b :
  d <= b < d + n ->
  load8 (memcpy m d src n) b = u8 (nth (Z.to_nat (b - d)) src 0).
Proof.
  intros [H1 H2]. unfold load8, memcpy.
  apply Z.leb_le in H1. apply Z.ltb_lt in H2. rewrite H1, H2. simpl.
  apply u8_u8.
Qed.

Lemma load8_TlsWriteUint16_other m a v b :
  b < a \/ a + 2 <= b -> load8 (TlsWriteUint16 m a v) b = load8 m b.
Proof.
  intros H. unfold TlsWriteUint16.
  rewrite !load8_store8_other by lia. reflexivity.
Qed.

Lemma load8_TlsWriteUint24_other m a v b :
  b < a \/ a + 3 <= b -> load8 (TlsWriteUint24 m a v) b = load8 m b.
Proof.
  intros H. unfold TlsWriteUint24.
  rewrite !load8_store8_other by lia. reflexivity.
Qed.

Lemma shiftr8_u16 v : u8 (Z.shiftr (u16 v) 8) = Z.shiftr (u16 v) 8.
Proof.
  apply u8_small. pose proof (u16_range v).
  rewrite Z.shiftr_div_pow2 by lia. change (2 ^ 8) with 256.
  split; [apply Z.div_pos; lia | apply Z.div_lt_upper_bound; lia].
Qed.

Lemma TlsReadUint16_TlsWriteUint16_same m a v :
  TlsReadUint16 (TlsWriteUint16 m a v) a = u16 v.
Proof.
  unfold TlsReadUint16, TlsWriteUint16.
  rewrite load8_store8_same.
  rewrite load8_store8_other by lia. rewrite load8_store8_same.
  rewrite shiftr8_u16.
  pose proof (u16_range v) as Hr.
  rewrite Z.shiftl_mul_pow2, Z.shiftr_div_pow2 by lia.
  change (2 ^ 8) with 256. unfold u8.
  assert (E : u16 v / 256 * 256 + u16 v mod 256 = u16 v)
    by (pose proof (Z.div_mod (u16 v) 256); lia).
  rewrite E. apply u16_small. assumption.
Qed.

Lemma split_u24 v :
  0 <= v ->
  256 * 256 * (v / 65536 mod 256) + 256 * (v / 256 mod 256) + v mod 256
    = v mod 16777216.
Proof.
  intros Hv.
  pose proof (Z.div_mod v 256 ltac:(lia)) as E0.
  pose proof (Z.mod_pos_bound v 256 ltac:(lia)) as B0.
  pose proof (Z.div_mod (v / 256) 256 ltac:(lia)) as E1.
  pose proof (Z.mod_pos_bound (v / 256) 256 ltac:(lia)) as B1.
  pose proof (Z.div_mod (v / 256 / 256) 256 ltac:(lia)) as E2.
  pose proof (Z.mod_pos_bound (v / 256 / 256) 256 ltac:(lia)) as B2.
  replace (v / 65536) with (v / 256 / 256)
    by (rewrite Z.div_div by lia; reflexivity).
  apply Z.mod_unique with (q := v / 256 / 256 / 256); lia.
Qed.

Lemma TlsReadUint24_TlsWriteUint24_same m a v :
  TlsReadUint24 (TlsWriteUint24 m a v) a = v mod 16777216.
Proof.
  unfold TlsReadUint24, TlsWriteUint24.
  rewrite load8_store8_other by lia. rewrite load8_store8_other by lia.
  rewrite load8_store8_same.
  rewrite load8_store8_other by lia. rewrite load8_store8_same.
  replace (a + 2) with (a + 1 + 1) at 1 by lia.
  replace (a + 1 + 1) with (a + 2) by lia. rewrite load8_store8_same.
  pose proof (Z.mod_pos_bound v 4294967296 ltac:(lia)) as Hv.
  fold (u32 v) in Hv.
  rewrite !Z.shiftl_mul_pow2, !Z.shiftr_div_pow2 by lia.
  change (2 ^ 16) with 65536. change (2 ^ 8) with 256. unfold u8.
  pose proof (split_u24 (u32 v) ltac:(lia)) as E.
  pose proof (Z.mod_pos_bound (u32 v) 16777216 ltac:(lia)).
  replace (u32 v / 65536 mod 256 * 65536 + u32 v / 256 mod 256 * 256
           + u32 v mod 256) with (u32 v mod 16777216) by lia.
  rewrite u32_small by lia.
  unfold u32.
  change 4294967296 with (16777216 * 256).
  rewrite Z.rem_mul_r by lia.
  rewrite Z.mul_comm, Z.mod_add by lia. apply Z.mod_mod. lia.
Qed.

Lemma TlsReadUint16_store8_other m a v b :
  a < b \/ b + 2 <= a ->
  TlsReadUint16 (store8 m a v) b = TlsReadUint16 m b.
Proof.
  intros H. unfold TlsReadUint16.
  rewrite !load8_store8_other by lia. reflexivity.
Qed.

Lemma TlsReadUint16_TlsWriteUint16_other m a v b :
  a + 2 <= b \/ b + 2 <= a ->
  TlsReadUint16 (TlsWriteUint16 m a v) b = TlsReadUint16 m b.
Proof.
  intros H. unfold TlsReadUint16.
  rewrite !load8_TlsWriteUint16_other by lia. reflexivity.
Qed.

Lemma TlsReadUint16_TlsWriteUint24_other m a v b :
  a + 3 <= b \/ b + 2 <= a ->
  TlsReadUint16 (TlsWriteUint24 m a v) b = TlsReadUint16 m b.
Proof.
  intros H. unfold TlsReadUint16.
  rewrite !load8_TlsWriteUint24_other by lia. reflexivity.
Qed.

Lemma TlsReadUint16_memcpy_other m d src n b :
  b + 2 <= d \/ d + n <= b ->
  TlsReadUint16 (memcpy m d src n) b = TlsReadUint16 m b.
Proof.
  intros H. unfold TlsReadUint16.
  rewrite !load8_memcpy_out by lia. reflexivity.
Qed.

Lemma peek_ext m m' a n :
  (forall b, a <= b < a + n -> load8 m' b = load8 m b) ->
  peek m' a n = peek m a n.
Proof.
  intros H. unfold peek. apply map_ext_in. intros k Hk.
  apply in_seq in Hk. apply H. lia.
Qed.

Lemma peek_length m a n : length (peek m a n) = Z.to_nat n.
Proof. unfold peek. rewrite length_map, length_seq. reflexivity. Qed.

Lemma nth_map_seq (f : nat -> Z) n k :
  (k < n)%nat -> nth k (map f (seq 0 n)) 0 = f k.
Proof.
  intros Hk.
  rewrite nth_indep with (d' := f 0%nat)
    by (rewrite length_map, length_seq; assumption).
  rewrite map_nth, seq_nth by assumption. reflexivity.
Qed.

Lemma peek_nth m a n k :
  (k < Z.to_nat n)%nat -> nth k (peek m a n) 0 = load8 m (a + Z.of_nat k).
Proof. intros Hk. unfold peek. rewrite nth_map_seq by assumption. reflexivity. Qed.

Lemma peek_memcpy_same m d src :
  Forall (fun b => 0 <= b < 256) src ->
  peek (memcpy m d src (Z.of_nat (length src))) d (Z.of_nat (length src)) = src.
Proof.
  intros Hb. apply nth_ext with (d := 0) (d' := 0).
  - rewrite peek_length. apply Nat2Z.id.
  - intros k Hk. rewrite peek_length in Hk.
    rewrite peek_nth by assumption.
    rewrite load8_memcpy_in by lia.
    replace (Z.to_nat (d + Z.of_nat k - d)) with k by lia.
    apply u8_small. rewrite Forall_forall in Hb. apply Hb. apply nth_In. lia.
Qed.

(** ** The serializer only writes at and after [ExtList] *)

Ltac offsets :=
  cbv [Off.Type_ Off.Length Off.Body Off.Version Off.Random
       Off.SessionIdLength Off.CipherSuiteLength Off.CompressionMethodLength
       Off.CompressionMethod Off.ExtListLength Off.ExtList Off.QuicTPLength
       Off.QuicTP Off.CertificateLength Off.Certificate Off.ExtType Off.ExtLen
       Off.SniListLen Off.SniNameType Off.SniNameLength Off.SniName
       Off.AlpnListLength Off.AlpnLength Off.Alpn Off.Ticket Off.TP] in *.

Ltac u16_facts :=
  repeat match goal with
         | |- context [u16 ?x] =>
           lazymatch goal with
           | _ : 0 <= u16 x < 65536 |- _ => fail
           | _ => pose proof (u16_range x)
           end
         end.

Ltac side := u16_facts; lia.

Lemma WriteExtList_frame {QUIC_CERT : Type} (c : QUIC_TLS QUIC_CERT) e m ExtList b :
  b < ExtList ->
  load8 (fst (WriteExtList c e m ExtList)) b = load8 m b.
Proof.
  intros Hb. unfold WriteExtList. offsets.
  destruct (SNI c), e; cbn [fst];
    repeat first
      [ rewrite load8_TlsWriteUint16_other by side
      | rewrite load8_store8_other by side
      | rewrite load8_memcpy_out by side ];
    reflexivity.
Qed.

(** ** Reads through the layers of stores *)

Lemma TlsReadUint16_TlsWriteUint16_eq m a v b :
  b = a -> TlsReadUint16 (TlsWriteUint16 m a v) b = u16 v.
Proof. intros ->. apply TlsReadUint16_TlsWriteUint16_same. Qed.

Lemma peek_store8_other m a v b n :
  a < b \/ b + n <= a -> peek (store8 m a v) b n = peek m b n.
Proof. intros H. apply peek_ext. intros. apply load8_store8_other. lia. Qed.

Lemma peek_TlsWriteUint16_other m a v b n :
  a + 2 <= b \/ b + n <= a -> peek (TlsWriteUint16 m a v) b n = peek m b n.
Proof.
  intros H. apply peek_ext. intros. apply load8_TlsWriteUint16_other. lia.
Qed.

Lemma peek_memcpy_other m d src k b n :
  d + k <= b \/ b + n <= d -> peek (memcpy m d src k) b n = peek m b n.
Proof. intros H. apply peek_ext. intros. apply load8_memcpy_out. lia. Qed.

Lemma peek_memcpy_eq m d src rest k b n :
  Forall (fun x => 0 <= x < 256) src ->
  b = d -> k = Z.of_nat (length src) -> n = Z.of_nat (length src) ->
  peek (memcpy m d (src ++ rest) k) b n = src.
Proof.
  intros Hb -> -> ->. apply nth_ext with (d := 0) (d' := 0).
  - rewrite peek_length. apply Nat2Z.id.
  - intros i Hi. rewrite peek_length in Hi.
    rewrite peek_nth by assumption.
    rewrite load8_memcpy_in by lia.
    replace (Z.to_nat (d + Z.of_nat i - d)) with i by lia.
    rewrite app_nth1 by lia.
    apply u8_small. rewrite Forall_forall in Hb. apply Hb. apply nth_In. lia.
Qed.

Lemma peek_memcpy_all m d src k b n :
  Forall (fun x => 0 <= x < 256) src ->
  b = d -> k = Z.of_nat (length src) -> n = Z.of_nat (length src) ->
  peek (memcpy m d src k) b n = src.
Proof.
  intros. rewrite <- (app_nil_r src) at 1. apply peek_memcpy_eq; assumption.
Qed.

(** Solve [TlsReadUint16 M a = v] and [peek M a n = l] for a memory [M]
    built by the stores of the serializer. *)
Ltac read_through :=
  offsets;
  repeat first
    [ rewrite TlsReadUint16_TlsWriteUint16_eq by lia
    | rewrite TlsReadUint16_TlsWriteUint16_other by lia
    | rewrite TlsReadUint16_store8_other by lia
    | rewrite TlsReadUint16_memcpy_other by lia
    | rewrite peek_TlsWriteUint16_other by lia
    | rewrite peek_store8_other by lia
    | rewrite peek_memcpy_other by lia ];
  first [ reflexivity | apply u16_small; lia | idtac ].

Ltac u16_simpl :=
  repeat match goal with
         | |- context [u16 ?x] => rewrite (u16_small x) by lia
         end.

Section Properties.

Context {QUIC_CERT : Type}.
Variable QuicCertSelect : option QUIC_CERT -> list Z -> bool.
Variable QuicCertParseChain : Z -> list Z -> option QUIC_CERT.
Variable QuicCertValidateChain : QUIC_CERT -> option (list Z) -> Z -> bool.
Variable QUIC_CERTIFICATE_FLAG_DISABLE_CERT_VALIDATION : Z.

(** The build of the program: debug or not. *)
Variable DBG : bool.

Local Abbreviation ServerProcess := (QuicTlsServerProcess QuicCertSelect DBG).
Local Abbreviation ClientProcess :=
  (QuicTlsClientProcess QuicCertParseChain QuicCertValidateChain
     QUIC_CERTIFICATE_FLAG_DISABLE_CERT_VALIDATION).
Local Abbreviation ProcessData :=
  (QuicTlsProcessData QuicCertSelect QuicCertParseChain QuicCertValidateChain
     QUIC_CERTIFICATE_FLAG_DISABLE_CERT_VALIDATION DBG).

(** ** Errors consume nothing *)

Lemma ServerFirstFlight_error_drains_nothing c F s B cfg off max r :
  has_flag F QUIC_TLS_RESULT_ERROR = false ->
  ServerFirstFlight QuicCertSelect c F s B cfg off max = Done r ->
  has_flag (r_ResultFlags r) QUIC_TLS_RESULT_ERROR = true ->
  r_BufferLength r = 0.
Proof.
  intros HF H. unfold ServerFirstFlight in H.
  repeat (break_in H; try discriminate);
    returned H; intros HE; try reflexivity;
    autorewrite with flags in HE; congruence.
Qed.

Lemma ServerProcess_error_drains_nothing c F s n B r :
  has_flag F QUIC_TLS_RESULT_ERROR = false ->
  ServerProcess c F s n B = Done r ->
  has_flag (r_ResultFlags r) QUIC_TLS_RESULT_ERROR = true ->
  r_BufferLength r = 0.
Proof.
  intros HF H. unfold QuicTlsServerProcess, bind, QUIC_DBG_ASSERT, QUIC_FRE_ASSERT in H.
  destruct (BufferLength s <? BufferAllocLength s); [| discriminate].
  destruct (LastMessageType c).
  - destruct (load8 B Off.Type_ =? _); [| discriminate].
    destruct (ParseExtList _ _ _ _ _ _) as [[c' s'] |]; [| discriminate].
    destruct (SecConfig c');
      [| without_config H; returned H; reflexivity].
    eapply ServerFirstFlight_error_drains_nothing; eassumption.
  - returned H; reflexivity.
  - returned H; reflexivity.
  - returned H; reflexivity.
  - repeat (break_in H; try discriminate);
      returned H; intros HE; try reflexivity;
      autorewrite with flags in HE; congruence.
  - returned H; reflexivity.
  - returned H; reflexivity.
Qed.

Lemma ClientProcess_error_drains_nothing c F s n B r :
  has_flag F QUIC_TLS_RESULT_ERROR = false ->
  ClientProcess c F s n B = Done r ->
  has_flag (r_ResultFlags r) QUIC_TLS_RESULT_ERROR = true ->
  r_BufferLength r = 0.
Proof.
  intros HF H.
  unfold QuicTlsClientProcess, ClientFirstFlight, bind, QUIC_DBG_ASSERT in H.
  destruct (BufferLength s <? BufferAllocLength s); [| discriminate].
  destruct (LastMessageType c);
    repeat (break_in H; try discriminate);
    returned H; intros HE; try reflexivity;
    autorewrite with flags in HE; congruence.
Qed.

(** C10. Whenever a processing call returns with the Error flag among its
    result flags, it reports zero bytes consumed. *)
Theorem error_consumes_nothing :
  forall (c : QUIC_TLS QUIC_CERT) (B : mem) (InLength : Z)
         (s : QUIC_TLS_PROCESS_STATE) (r : PROCESS_RESULT QUIC_CERT),
    ProcessData c B InLength s = Done r ->
    has_flag (r_ResultFlags r) QUIC_TLS_RESULT_ERROR = true ->
    r_BufferLength r = 0.
Proof.
  intros c B InLength s r H. unfold QuicTlsProcessData in H.
  destruct (QuicTlsHasValidMessageToProcess c InLength B).
  - destruct (IsServer c).
    + eapply (ServerProcess_error_drains_nothing _ 0); [reflexivity | eassumption].
    + eapply (ClientProcess_error_drains_nothing _ 0); [reflexivity | eassumption].
  - returned H. reflexivity.
Qed.

(** ** The validity gate *)

Lemma TlsReadUint24_range B a : 0 <= TlsReadUint24 B a < 16777216.
Proof.
  unfold TlsReadUint24.
  pose proof (load8_range B a). pose proof (load8_range B (a + 1)).
  pose proof (load8_range B (a + 2)).
  rewrite !Z.shiftl_mul_pow2 by lia.
  change (2 ^ 16) with 65536. change (2 ^ 8) with 256.
  rewrite u32_small; lia.
Qed.

Lemma gate_rejects c InLength B :
  InLength < 7 \/ InLength < TlsReadUint24 B Off.Length + 4 ->
  ~ (IsServer c = false
     /\ LastMessageType c = QUIC_TLS_MESSAGE_INVALID /\ InLength = 0) ->
  QuicTlsHasValidMessageToProcess (QUIC_CERT := QUIC_CERT) c InLength B = false.
Proof.
  intros Hshort Hnot. unfold QuicTlsHasValidMessageToProcess.
  destruct (negb (IsServer c) && is_INVALID (LastMessageType c)
            && (InLength =? 0)) eqn:E.
  - exfalso. apply Hnot.
    apply Bool.andb_true_iff in E as [E E3].
    apply Bool.andb_true_iff in E as [E1 E2].
    apply Bool.negb_true_iff in E1. apply Z.eqb_eq in E3.
    destruct (LastMessageType c); try discriminate. auto.
  - destruct (InLength <? 7) eqn:E7; [reflexivity |].
    apply Z.ltb_ge in E7.
    pose proof (TlsReadUint24_range B Off.Length).
    rewrite u32_small by lia.
    destruct Hshort as [? | Hlt]; [lia |].
    apply Z.ltb_lt in Hlt. rewrite Hlt. reflexivity.
Qed.

(** ** The first flight of the client *)

(** C7. A client in state None without server name, with session ALPN "h3"
    and no local transport parameters, writing into an empty buffer: one
    call emits a ClientInitial of 62 bytes whose extension list is 17
    bytes long and holds the ALPN, the empty SessionTicket and the empty
    QuicTransportParameters extension and nothing else; the result flags
    are Data alone, so WriteKeyUpdated is not raised, although the 0-RTT
    write key is installed and made the active write key. *)
Theorem first_flight_of_h3_client :
  forall (c : QUIC_TLS QUIC_CERT) (s : QUIC_TLS_PROCESS_STATE) (B : mem),
    IsServer c = false ->
    LastMessageType c = QUIC_TLS_MESSAGE_INVALID ->
    SNI c = None ->
    TlsSession c = Fresh.session Scenario.h3 ->
    LocalTPLength c = 0 ->
    BufferLength s = 0 ->
    0 < BufferAllocLength s ->
    exists r,
      ProcessData c B 0 s = Done r
      /\ load8 (Buffer (r_State r)) Off.Type_ = TlsHandshake_ClientHello
      /\ TlsReadUint24 (Buffer (r_State r)) Off.Length + 4 = 62
      /\ BufferLength (r_State r) = 62
      /\ TlsReadUint16 (Buffer (r_State r)) Off.ExtListLength = 17
      /\ peek (Buffer (r_State r)) Off.ExtList 17
           = [0; 16; 0; 5; 0; 3; 2; 104; 51;
              0; 35; 0; 0;
              255; 165; 0; 0]
      /\ r_ResultFlags r = QUIC_TLS_RESULT_DATA
      /\ has_flag (r_ResultFlags r) QUIC_TLS_RESULT_WRITE_KEY_UPDATED = false
      /\ WriteKey (r_State r) = QUIC_PACKET_KEY_0_RTT
      /\ WriteKeys (r_State r) QUIC_PACKET_KEY_0_RTT
           = Some {| KeyType := QUIC_PACKET_KEY_0_RTT |}
      /\ LastMessageType (r_TlsContext r) = QUIC_TLS_MESSAGE_CLIENT_INITIAL
      /\ r_BufferLength r = 0.
Proof.
  intros c s B Hrole Hlast Hsni Halpn Htp Hlen Hroom.
  destruct c, s. cbn in Hrole, Hlast, Hsni, Halpn, Htp, Hlen, Hroom. subst.
  unfold QuicTlsProcessData, QuicTlsHasValidMessageToProcess.
  cbn [IsServer LastMessageType negb is_INVALID andb Z.eqb].
  unfold QuicTlsClientProcess, bind, QUIC_DBG_ASSERT.
  cbn [BufferLength BufferAllocLength LastMessageType].
  apply Z.ltb_lt in Hroom. rewrite Hroom.
  eexists. split; [reflexivity |].
  vm_compute. repeat split; reflexivity.
Qed.

(** ** What the extension loop leaves alone *)

Lemma ParseExtList_preserves fuel :
  forall (c : QUIC_TLS QUIC_CERT) s B ExtList ExtListLength c' s',
    ParseExtList fuel c s B ExtList ExtListLength = Done (c', s') ->
    (IsServer c' = IsServer c
     /\ LastMessageType c' = LastMessageType c
     /\ SecConfig c' = SecConfig c
     /\ TicketReady c' = TicketReady c)
    /\ (BufferLength s' = BufferLength s
        /\ BufferAllocLength s' = BufferAllocLength s
        /\ BufferTotalLength s' = BufferTotalLength s
        /\ Buffer s' = Buffer s).
Proof.
  induction fuel as [| fuel IH]; intros c s B ExtList ExtListLength c' s' H;
    simpl in H; destruct (ExtListLength >? 0); try discriminate;
    try (injection H as <- <-; tauto).
  unfold bind, QUIC_FRE_ASSERT in H.
  destruct (_ <=? ExtListLength); [| discriminate].
  repeat (break_in H; try discriminate);
    apply IH in H; cbn in H; tauto.
Qed.

Lemma TlsReadUint16_range B a : 0 <= TlsReadUint16 B a < 65536.
Proof. apply u16_range. Qed.

(** The loop never runs out of the turns it is given. *)
Lemma ParseExtList_enough_fuel fuel :
  forall (c : QUIC_TLS QUIC_CERT) s B ExtList ExtListLength,
    (Z.to_nat ExtListLength <= fuel)%nat ->
    ParseExtList fuel c s B ExtList ExtListLength <> Fault OutOfFuel.
Proof.
  induction fuel as [| fuel IH]; intros c s B ExtList ExtListLength Hf;
    simpl; destruct (ExtListLength >? 0) eqn:Hpos; try discriminate.
  - apply Z.gtb_lt in Hpos. lia.
  - apply Z.gtb_lt in Hpos.
    unfold bind, QUIC_FRE_ASSERT.
    destruct (_ <=? ExtListLength) eqn:Hfit; [| discriminate].
    apply Z.leb_le in Hfit.
    assert (Hnext : (Z.to_nat (u16 (ExtListLength
                       - (TlsReadUint16 B (ExtList + 2) + 4))) <= fuel)%nat).
    { pose proof (TlsReadUint16_range B (ExtList + 2)).
      pose proof (u16_le (ExtListLength
                          - (TlsReadUint16 B (ExtList + 2) + 4))).
      lia. }
    repeat (match goal with
            | |- context [if ?b then _ else _] => destruct b
            end); try discriminate; apply IH; assumption.
Qed.

(** ** The drain length *)

Lemma DrainLengthOf_le B : DrainLengthOf B <= TlsReadUint24 B Off.Length + 4.
Proof.
  unfold DrainLengthOf. pose proof (TlsReadUint24_range B Off.Length).
  pose proof (u16_le (TlsReadUint24 B Off.Length)).
  pose proof (u16_range (TlsReadUint24 B Off.Length)).
  pose proof (u16_le (u16 (TlsReadUint24 B Off.Length) + 4)). lia.
Qed.

Lemma DrainLengthOf_exact B :
  TlsReadUint24 B Off.Length + 4 < 65536 ->
  DrainLengthOf B = TlsReadUint24 B Off.Length + 4.
Proof.
  intros H. unfold DrainLengthOf. pose proof (TlsReadUint24_range B Off.Length).
  rewrite (u16_small (TlsReadUint24 _ _)) by lia. apply u16_small. lia.
Qed.

Lemma ServerProcess_drain c F s n B r :
  ServerProcess c F s n B = Done r ->
  r_BufferLength r = 0 \/ r_BufferLength r = DrainLengthOf B.
Proof.
  intros H.
  unfold QuicTlsServerProcess, ServerFirstFlight, bind, QUIC_DBG_ASSERT,
    QUIC_FRE_ASSERT in H.
  repeat (break_in H; try discriminate); returned H; auto.
Qed.

Lemma ClientProcess_drain c F s n B r :
  ClientProcess c F s n B = Done r ->
  (r_BufferLength r = 0
   \/ (LastMessageType c <> QUIC_TLS_MESSAGE_INVALID
       /\ r_BufferLength r = DrainLengthOf B)).
Proof.
  intros H.
  unfold QuicTlsClientProcess, ClientFirstFlight, bind, QUIC_DBG_ASSERT in H.
  destruct (BufferLength s <? BufferAllocLength s); [| discriminate].
  destruct (LastMessageType c);
    repeat (break_in H; try discriminate); returned H; auto;
    (right; split; [discriminate | reflexivity]).
Qed.

(** A call never reports more bytes consumed than it was given, and what it
    reports is the declared length plus 4 as far as 16 bits can hold it. *)
Lemma consumed_within_input c B InLength s r :
  0 <= InLength ->
  ProcessData c B InLength s = Done r ->
  r_BufferLength r <= InLength
  /\ (r_BufferLength r = 0 \/ r_BufferLength r = DrainLengthOf B).
Proof.
  intros Hn H. unfold QuicTlsProcessData in H.
  destruct (QuicTlsHasValidMessageToProcess c InLength B) eqn:G.
  - assert (D : r_BufferLength r = 0
                \/ ((IsServer c = true
                     \/ LastMessageType c <> QUIC_TLS_MESSAGE_INVALID)
                    /\ r_BufferLength r = DrainLengthOf B)).
    { destruct (IsServer c).
      - apply ServerProcess_drain in H. intuition.
      - apply ClientProcess_drain in H. intuition. }
    destruct D as [D | [Hrole D]]; [rewrite D; auto |].
    split; [| auto]. rewrite D.
    unfold QuicTlsHasValidMessageToProcess in G.
    assert (E : negb (IsServer c) && is_INVALID (LastMessageType c)
                && (InLength =? 0) = false).
    { destruct (IsServer c); [reflexivity |].
      destruct (LastMessageType c); try reflexivity.
      destruct Hrole; [discriminate | contradiction]. }
    rewrite E in G.
    destruct (InLength <? 7); [discriminate |].
    pose proof (TlsReadUint24_range B Off.Length).
    rewrite u32_small in G by lia.
    destruct (InLength <? _) eqn:L; [discriminate |].
    apply Z.ltb_ge in L. pose proof (DrainLengthOf_le B). lia.
  - returned H. lia.
Qed.

(** ** The capacity bound on the paths that check it *)

Lemma u16_cases x :
  0 <= u16 x < 65536 /\ (0 <= x -> u16 x <= x) /\ (0 <= x < 65536 -> u16 x = x).
Proof.
  split; [apply u16_range |]. split; [apply u16_le | apply u16_small].
Qed.

(** Arithmetic over 16-bit values: what is known of every [u16 x]. *)
Ltac u16_arith :=
  repeat match goal with
         | H : (_ <? _) = true |- _ => apply Z.ltb_lt in H
         | H : (_ <? _) = false |- _ => apply Z.ltb_ge in H
         end;
  cbn [MinMessageLengths] in *; unfold MAX_PARAM_LENGTH in *;
  repeat match goal with
         | |- context [u16 ?x] =>
           lazymatch goal with
           | _ : 0 <= u16 x < 65536 /\ _ |- _ => fail
           | _ => pose proof (u16_cases x)
           end
         | _ : context [u16 ?x] |- _ =>
           lazymatch goal with
           | _ : 0 <= u16 x < 65536 /\ _ |- _ => fail
           | _ => pose proof (u16_cases x)
           end
         end;
  lia.

Lemma ServerFirstFlight_keeps_bound c F s B cfg r :
  0 <= BufferLength s < BufferAllocLength s ->
  BufferAllocLength s < 65536 ->
  0 <= FormatLength cfg ->
  ServerFirstFlight QuicCertSelect c F s B cfg (BufferLength s)
    (u16 (BufferAllocLength s - BufferLength s)) = Done r ->
  BufferLength (r_State r) <= BufferAllocLength (r_State r).
Proof.
  intros Hlen Halloc Hfmt H. unfold ServerFirstFlight in H. fields.
  repeat (break_in H; try discriminate); returned H; u16_arith.
Qed.

Lemma ServerProcess_keeps_bound c F s n B r :
  0 <= BufferLength s ->
  BufferAllocLength s < 65536 ->
  (forall cfg, SecConfig c = Some cfg -> 0 <= FormatLength cfg) ->
  ServerProcess c F s n B = Done r ->
  BufferLength (r_State r) <= BufferAllocLength (r_State r).
Proof.
  intros Hlen Halloc Hfmt H.
  unfold QuicTlsServerProcess, bind, QUIC_DBG_ASSERT, QUIC_FRE_ASSERT in H.
  destruct (BufferLength s <? BufferAllocLength s) eqn:Hroom; [| discriminate].
  apply Z.ltb_lt in Hroom.
  destruct (LastMessageType c); try (returned H; lia).
  - destruct (load8 B Off.Type_ =? _); [| discriminate].
    destruct (ParseExtList _ _ _ _ _ _) as [[c' s'] |] eqn:P; [| discriminate].
    apply ParseExtList_preserves in P.
    destruct P as [(_ & _ & Hcfg & _) (Hl & Ha & _ & _)]. fields.
    destruct (SecConfig c') as [cfg |] eqn:Ecfg;
      [| without_config H; returned H; lia].
    rewrite <- Hl, <- Ha in H.
    eapply ServerFirstFlight_keeps_bound; [ | | | exact H].
    + lia.
    + lia.
    + apply Hfmt. congruence.
  - repeat (break_in H; try discriminate); returned H; u16_arith.
Qed.

Lemma ClientProcess_keeps_bound c F s n B r :
  0 <= BufferLength s ->
  BufferAllocLength s < 65536 ->
  LastMessageType c <> QUIC_TLS_MESSAGE_INVALID ->
  ClientProcess c F s n B = Done r ->
  BufferLength (r_State r) <= BufferAllocLength (r_State r).
Proof.
  intros Hlen Halloc Hlast H.
  unfold QuicTlsClientProcess, bind, QUIC_DBG_ASSERT in H.
  destruct (BufferLength s <? BufferAllocLength s) eqn:Hroom; [| discriminate].
  apply Z.ltb_lt in Hroom.
  destruct (LastMessageType c); try contradiction;
    repeat (break_in H; try discriminate); returned H; u16_arith.
Qed.

(** Every call but the first flight of the client keeps the used length of
    the buffer within its capacity. *)
Lemma bound_kept_but_for_first_flight c B InLength s r :
  0 <= BufferLength s <= BufferAllocLength s ->
  BufferAllocLength s < 65536 ->
  (forall cfg, SecConfig c = Some cfg -> 0 <= FormatLength cfg) ->
  IsServer c = true \/ LastMessageType c <> QUIC_TLS_MESSAGE_INVALID ->
  ProcessData c B InLength s = Done r ->
  BufferLength (r_State r) <= BufferAllocLength (r_State r).
Proof.
  intros Hlen Halloc Hfmt Hrole H. unfold QuicTlsProcessData in H.
  destruct (QuicTlsHasValidMessageToProcess c InLength B).
  - destruct (IsServer c) eqn:R.
    + eapply ServerProcess_keeps_bound; [ | | | exact H]; auto; lia.
    + destruct Hrole; [discriminate |].
      eapply ClientProcess_keeps_bound; [ | | | exact H]; auto; lia.
  - returned H. lia.
Qed.

(** ** The last-message marker *)

Lemma ServerProcess_advances c F s n B r :
  IsServer c = true ->
  ServerProcess c F s n B = Done r ->
  IsServer (r_TlsContext r) = IsServer c
  /\ advances true (LastMessageType c) (LastMessageType (r_TlsContext r)).
Proof.
  intros Hrole H.
  unfold QuicTlsServerProcess, bind, QUIC_DBG_ASSERT, QUIC_FRE_ASSERT in H.
  destruct (BufferLength s <? BufferAllocLength s); [| discriminate].
  destruct (LastMessageType c) eqn:Hlast;
    try (returned H; split; [reflexivity | left; symmetry; assumption]).
  - destruct (load8 B Off.Type_ =? _); [| discriminate].
    destruct (ParseExtList _ _ _ _ _ _) as [[c' s'] |] eqn:P; [| discriminate].
    apply ParseExtList_preserves in P.
    destruct P as [(Hr & Hl & _ & _) _].
    destruct (SecConfig c');
      [| without_config H; returned H; split; [assumption |];
         rewrite ?Hl, ?Hlast; left; reflexivity].
    unfold ServerFirstFlight in H.
    repeat (break_in H; try discriminate); returned H;
      (split; [assumption |]); rewrite ?Hl, ?Hlast;
      first [left; reflexivity | right; reflexivity].
  - repeat (break_in H; try discriminate); returned H;
      (split; [reflexivity |]); rewrite ?Hlast;
      first [left; reflexivity | right; reflexivity].
Qed.

Lemma ClientProcess_advances c F s n B r :
  IsServer c = false ->
  ClientProcess c F s n B = Done r ->
  IsServer (r_TlsContext r) = IsServer c
  /\ advances false (LastMessageType c) (LastMessageType (r_TlsContext r)).
Proof.
  intros Hrole H.
  unfold QuicTlsClientProcess, ClientFirstFlight, bind, QUIC_DBG_ASSERT in H.
  destruct (BufferLength s <? BufferAllocLength s); [| discriminate].
  destruct (LastMessageType c) eqn:Hlast;
    repeat (break_in H; try discriminate); returned H;
    (split; [reflexivity |]); rewrite ?Hlast;
    first [left; reflexivity | right; reflexivity].
Qed.

(** A processing call keeps the role, and leaves the marker where it is or
    moves it to the next message of the role. *)
Lemma ProcessData_advances c B InLength s r :
  ProcessData c B InLength s = Done r ->
  IsServer (r_TlsContext r) = IsServer c
  /\ advances (IsServer c) (LastMessageType c)
       (LastMessageType (r_TlsContext r)).
Proof.
  intros H. unfold QuicTlsProcessData in H.
  destruct (QuicTlsHasValidMessageToProcess c InLength B).
  - destruct (IsServer c) eqn:R.
    + rewrite <- R at 1. apply ServerProcess_advances with (1 := R) (2 := H).
    + rewrite <- R at 1. apply ClientProcess_advances with (1 := R) (2 := H).
  - returned H. split; [reflexivity | left; reflexivity].
Qed.

(** C8, as the code has it.  Along every sequence of processing calls and
    resets on a handshake context, in either build, each step leaves the
    last-message marker where it is or advances it to the next message of
    the role; the only steps that take it back are resets, which put it
    back to its initial value whatever the context has processed before.
    Nothing restricts the reset by state.  By role it is restricted in a
    debug build only, where the reset of a server stops at the assertion;
    in any other build a server is reset as a client is. *)
Theorem marker_advances_or_is_reset :
  forall (ops : list operation) (h : handshake QUIC_CERT),
    every_step QuicCertSelect QuicCertParseChain QuicCertValidateChain
      QUIC_CERTIFICATE_FLAG_DISABLE_CERT_VALIDATION DBG
      (fun h o h' =>
         step_as_built DBG h o h'
         /\ (is_reset o = true ->
             LastMessageType (h_TlsContext h') = QUIC_TLS_MESSAGE_INVALID))
      h ops.
Proof.
  induction ops as [| o ops IH]; intros h; simpl; [exact I |].
  destruct (apply_op _ _ _ _ _ h o) as [h' |] eqn:E; [| exact I].
  split; [| apply IH].
  unfold step_as_built. destruct o as [B InLength |]; simpl in E.
  - unfold bind in E.
    destruct (ProcessData _ _ _ _) as [r |] eqn:P; [| discriminate].
    apply Done_inj in E. rewrite <- E. cbn [h_TlsContext].
    split; [| discriminate].
    left. apply (ProcessData_advances _ _ _ _ _ P).
  - unfold QuicTlsReset, bind, QUIC_DBG_ASSERT in E.
    destruct DBG.
    + destruct (IsServer (h_TlsContext h)) eqn:R; [discriminate |].
      simpl in E. apply Done_inj in E. rewrite <- E.
      split; [right |]; repeat split; reflexivity.
    + apply Done_inj in E. rewrite <- E.
      split; [right |]; repeat split; try reflexivity. discriminate.
Qed.

(** ** Offending extensions *)

Lemma ParseExtList_offends B ExtList ExtListLength :
  ExtListOffends B ExtList ExtListLength ->
  forall fuel (c : QUIC_TLS QUIC_CERT) s,
    (Z.to_nat ExtListLength <= fuel)%nat ->
    ExtListLength < 65536 ->
    ParseExtList fuel c s B ExtList ExtListLength = Fault FreAssert.
Proof.
  unfold recognized.
  induction 1 as [ExtList len Hpos Htype | ExtList len Hpos Hlong
                 | ExtList len Hpos Htype Hfit Hrest IH];
    intros fuel c s Hfuel Hlen;
    (destruct fuel as [| fuel]; [lia |]);
    cbn [ParseExtList]; apply Z.gtb_lt in Hpos; rewrite Hpos;
    unfold bind, QUIC_FRE_ASSERT.
  - destruct (_ <=? len); [| reflexivity].
    repeat (apply Bool.orb_false_iff in Htype as [Htype ?]).
    repeat match goal with E : (_ =? _) = false |- _ => rewrite E; clear E end.
    reflexivity.
  - apply Z.leb_gt in Hlong. rewrite Hlong. reflexivity.
  - apply Z.gtb_lt in Hpos.
    pose proof (TlsReadUint16_range B (ExtList + 2)).
    assert (Hnext : u16 (len - (TlsReadUint16 B (ExtList + 2) + 4))
                    = len - (TlsReadUint16 B (ExtList + 2) + 4))
      by (apply u16_small; lia).
    apply Z.leb_le in Hfit. rewrite Hfit.
    repeat match goal with
           | |- context [if ?b then _ else _] =>
             destruct b eqn:?
           end;
      try discriminate; cbn [fst snd]; try reflexivity;
      rewrite Hnext; apply IH; lia.
Qed.

(** C2, as the code has it.  When the server, in state None, processes a
    ClientInitial whose extension list holds an extension of a type outside
    the closed set, or one whose declared length plus 4 exceeds the
    declared length that is left, the call does not return: the release
    assertion fails and aborts the process, so no result flag is reported
    at all. *)
Theorem offending_extension_aborts :
  forall (c : QUIC_TLS QUIC_CERT) (s : QUIC_TLS_PROCESS_STATE)
         (B : mem) (InLength : Z),
    IsServer c = true ->
    LastMessageType c = QUIC_TLS_MESSAGE_INVALID ->
    QuicTlsHasValidMessageToProcess c InLength B = true ->
    BufferLength s < BufferAllocLength s ->
    load8 B Off.Type_ = msg_code QUIC_TLS_MESSAGE_CLIENT_INITIAL ->
    ExtListOffends B Off.ExtList (TlsReadUint16 B Off.ExtListLength) ->
    ProcessData c B InLength s = Fault FreAssert.
Proof.
  intros c s B InLength Hrole Hlast Hgate Hroom Htype Hbad.
  unfold QuicTlsProcessData. rewrite Hgate, Hrole.
  unfold QuicTlsServerProcess, bind, QUIC_DBG_ASSERT, QUIC_FRE_ASSERT.
  apply Z.ltb_lt in Hroom. rewrite Hroom, Hlast, Htype, Z.eqb_refl.
  rewrite (ParseExtList_offends _ _ _ Hbad); [reflexivity | lia |].
  apply TlsReadUint16_range.
Qed.

(** ** The extension round trip *)

Lemma strlen_terminated (n : list Z) :
  Forall (fun b => 0 < b < 256) n ->
  strlen (n ++ [0]) = Z.of_nat (length n).
Proof.
  induction 1 as [| b n Hb Hn IH]; [reflexivity |].
  cbn [strlen app length]. rewrite u8_small by lia.
  destruct (b =? 0) eqn:E; [apply Z.eqb_eq in E; lia |].
  rewrite IH. lia.
Qed.

Lemma ParseExtList_end fuel (c : QUIC_TLS QUIC_CERT) s B ExtList :
  ParseExtList fuel c s B ExtList 0 = Done (c, s).
Proof. destruct fuel; reflexivity. Qed.

Lemma ParseExtList_turn fuel (c : QUIC_TLS QUIC_CERT) s B ExtList ExtListLength :
  0 < ExtListLength ->
  TlsReadUint16 B (ExtList + 2) + 4 <= ExtListLength ->
  ParseExtList (S fuel) c s B ExtList ExtListLength =
    let ExtType := TlsReadUint16 B ExtList in
    let ExtLength := TlsReadUint16 B (ExtList + 2) in
    do cs <-
      (if ExtType =? TlsExt_ServerName then
         Done (set_SNI c
                 (Some (peek B (ExtList + Off.SniName)
                          (TlsReadUint16 B (ExtList + Off.SniNameLength))
                        ++ [0])), s)
       else if ExtType =? TlsExt_AppProtocolNegotiation then Done (c, s)
       else if ExtType =? TlsExt_SessionTicket then
         Done (c, set_EarlyData s true true)
       else if ExtType =? TlsExt_QuicTransportParameters then
         Done (ReceiveTPCallback c ExtLength
                 (peek B (ExtList + Off.TP) ExtLength), s)
       else Fault FreAssert);
    ParseExtList fuel (fst cs) (snd cs) B
      (ExtList + (ExtLength + 4)) (u16 (ExtListLength - (ExtLength + 4))).
Proof.
  intros Hpos Hfit. cbn [ParseExtList].
  apply Z.gtb_lt in Hpos. rewrite Hpos.
  apply Z.leb_le in Hfit. unfold QUIC_FRE_ASSERT. rewrite Hfit.
  reflexivity.
Qed.

Lemma ParseExtList_nonpos fuel (c : QUIC_TLS QUIC_CERT) s B ExtList ExtListLength :
  ExtListLength <= 0 ->
  ParseExtList fuel c s B ExtList ExtListLength = Done (c, s).
Proof.
  intros H. destruct fuel; cbn [ParseExtList];
    destruct (Z.gtb_spec ExtListLength 0); try lia; reflexivity.
Qed.

Lemma ParseExtList_fuel f1 :
  forall f2 (c : QUIC_TLS QUIC_CERT) s B ExtList ExtListLength,
    (Z.to_nat ExtListLength <= f1)%nat ->
    (Z.to_nat ExtListLength <= f2)%nat ->
    ParseExtList f1 c s B ExtList ExtListLength
      = ParseExtList f2 c s B ExtList ExtListLength.
Proof.
  induction f1 as [| f1 IH]; intros f2 c s B ExtList len H1 H2.
  - rewrite !ParseExtList_nonpos by lia. reflexivity.
  - destruct (Z.ltb_spec 0 len) as [Hpos | Hneg].
    + destruct f2 as [| f2]; [lia |].
      cbn [ParseExtList]. destruct (len >? 0); [| reflexivity].
      unfold bind, QUIC_FRE_ASSERT.
      destruct (_ <=? len) eqn:Hfit; [| reflexivity].
      apply Z.leb_le in Hfit.
      pose proof (TlsReadUint16_range B (ExtList + 2)).
      pose proof (u16_le (len - (TlsReadUint16 B (ExtList + 2) + 4))).
      repeat match goal with
             | |- context [if ?b then _ else _] => destruct b
             end; try reflexivity; apply IH; lia.
    + rewrite !ParseExtList_nonpos by lia. reflexivity.
Qed.

Lemma turn_ServerName fuel (c : QUIC_TLS QUIC_CERT) s B ExtList ExtListLength L :
  0 < ExtListLength ->
  TlsReadUint16 B ExtList = TlsExt_ServerName ->
  TlsReadUint16 B (ExtList + 2) = L ->
  L + 4 <= ExtListLength ->
  ParseExtList (S fuel) c s B ExtList ExtListLength =
    ParseExtList fuel
      (set_SNI c (Some (peek B (ExtList + Off.SniName)
                          (TlsReadUint16 B (ExtList + Off.SniNameLength))
                        ++ [0])))
      s B (ExtList + (L + 4)) (u16 (ExtListLength - (L + 4))).
Proof.
  intros Hpos Ht Hl Hfit. rewrite ParseExtList_turn by lia.
  cbv zeta. rewrite Ht, Hl. reflexivity.
Qed.

Lemma turn_ALPN fuel (c : QUIC_TLS QUIC_CERT) s B ExtList ExtListLength L :
  0 < ExtListLength ->
  TlsReadUint16 B ExtList = TlsExt_AppProtocolNegotiation ->
  TlsReadUint16 B (ExtList + 2) = L ->
  L + 4 <= ExtListLength ->
  ParseExtList (S fuel) c s B ExtList ExtListLength =
    ParseExtList fuel c s B (ExtList + (L + 4)) (u16 (ExtListLength - (L + 4))).
Proof.
  intros Hpos Ht Hl Hfit. rewrite ParseExtList_turn by lia.
  cbv zeta. rewrite Ht, Hl. reflexivity.
Qed.

Lemma turn_SessionTicket fuel (c : QUIC_TLS QUIC_CERT) s B ExtList ExtListLength L :
  0 < ExtListLength ->
  TlsReadUint16 B ExtList = TlsExt_SessionTicket ->
  TlsReadUint16 B (ExtList + 2) = L ->
  L + 4 <= ExtListLength ->
  ParseExtList (S fuel) c s B ExtList ExtListLength =
    ParseExtList fuel c (set_EarlyData s true true) B
      (ExtList + (L + 4)) (u16 (ExtListLength - (L + 4))).
Proof.
  intros Hpos Ht Hl Hfit. rewrite ParseExtList_turn by lia.
  cbv zeta. rewrite Ht, Hl. reflexivity.
Qed.

Lemma turn_QuicTransportParameters fuel (c : QUIC_TLS QUIC_CERT) s B
    ExtList ExtListLength L :
  0 < ExtListLength ->
  TlsReadUint16 B ExtList = TlsExt_QuicTransportParameters ->
  TlsReadUint16 B (ExtList + 2) = L ->
  L + 4 <= ExtListLength ->
  ParseExtList (S fuel) c s B ExtList ExtListLength =
    ParseExtList fuel
      (ReceiveTPCallback c L (peek B (ExtList + Off.TP) L))
      s B (ExtList + (L + 4)) (u16 (ExtListLength - (L + 4))).
Proof.
  intros Hpos Ht Hl Hfit. rewrite ParseExtList_turn by lia.
  cbv zeta. rewrite Ht, Hl. reflexivity.
Qed.

(** One turn of the loop over the memory [M] the serializer produced. *)
Ltac turn lem len :=
  erewrite lem with (L := len);
  [ | lia
    | match goal with M := _ : mem |- _ => unfold M end; read_through
    | match goal with M := _ : mem |- _ => unfold M end; read_through
    | lia ];
  u16_simpl.

Ltac name_memory :=
  match goal with
  | |- context [ParseExtList _ _ _ ?m _ _] => set (M := m)
  end.

(** C6. For a server name (if any) without NUL, an ALPN value, an
    early-data flag and transport parameters whose extension list fits the
    16-bit length field, the list the client writes is of the size the
    extensions add up to, the server's loop over it returns, and after it
    the server holds the client's server name (its own when the client has
    none), the state holds the same early-data-attempted flag, and the
    callback was handed the transport parameters once, byte for byte. *)
Theorem extensions_round_trip :
  forall (client server : QUIC_TLS QUIC_CERT) (s : QUIC_TLS_PROCESS_STATE)
         (m : mem) (ExtList : Z) (early : bool)
         (name : option (list Z)) (alpn tp : list Z),
    SNI client = option_map (fun n => n ++ [0]) name ->
    (forall n, name = Some n -> Forall (fun b => 0 < b < 256) n) ->
    TlsSession client = Fresh.session alpn ->
    LocalTPBuffer client = tp ->
    LocalTPLength client = Z.of_nat (length tp) ->
    Forall (fun b => 0 <= b < 256) tp ->
    ext_list_size name alpn early tp <= 65535 ->
    let W := WriteExtList client early m ExtList in
    snd W = ext_list_size name alpn early tp
    /\ exists server' s',
         ParseExtList (Z.to_nat (snd W)) server (set_EarlyData s false false)
           (fst W) ExtList (snd W) = Done (server', s')
         /\ SNI server'
              = match name with Some _ => SNI client | None => SNI server end
         /\ EarlyDataAttempted s' = early
         /\ ReceivedTP server'
              = ReceivedTP server ++ [(Z.of_nat (length tp), tp)].
Proof.
  intros client server s m ExtList early name alpn tp
         Hsni Hname Halpn Htpb Htpl Htp Hsize W.
  subst W. unfold WriteExtList.
  rewrite Hsni, Halpn, Htpb, Htpl. unfold ext_list_size in *.
  cbn [Fresh.session AlpnLength Alpn].
  set (A := Z.of_nat (length alpn)) in *.
  set (T := Z.of_nat (length tp)) in *.
  assert (HA : 0 <= A) by (subst A; lia).
  assert (HT : 0 <= T) by (subst T; lia).
  destruct name as [n |]; cbn [option_map].
  - rewrite strlen_terminated by (apply Hname; reflexivity).
    assert (Hn : Forall (fun b => 0 <= b < 256) n).
    { eapply Forall_impl; [| apply Hname; reflexivity]. cbv beta. lia. }
    set (N := Z.of_nat (length n)) in *.
    assert (HN : 0 <= N) by (subst N; lia).
    destruct early; u16_simpl; cbn [fst snd]; (split; [lia |]);
      name_memory;
      match goal with
      | |- context [ParseExtList (Z.to_nat ?l)] =>
        rewrite (ParseExtList_fuel _ (4 + Z.to_nat l)) by lia
      end; cbn [Nat.add].
    + turn turn_ServerName (5 + N).
      turn turn_ALPN (3 + A).
      turn turn_SessionTicket 0.
      turn turn_QuicTransportParameters T.
      rewrite ParseExtList_nonpos by lia.
      eexists _, _. split; [reflexivity |]. fields.
      split; [| split; [reflexivity |]].
      * replace (TlsReadUint16 M _) with N
          by (symmetry; unfold M; read_through).
        do 2 f_equal. unfold M. read_through.
        apply peek_memcpy_eq; [assumption | lia | reflexivity | reflexivity].
      * repeat f_equal. unfold M. read_through.
        apply peek_memcpy_all; [assumption | lia | reflexivity | reflexivity].
    + turn turn_ServerName (5 + N).
      turn turn_ALPN (3 + A).
      turn turn_QuicTransportParameters T.
      rewrite ParseExtList_nonpos by lia.
      eexists _, _. split; [reflexivity |]. fields.
      split; [| split; [reflexivity |]].
      * replace (TlsReadUint16 M _) with N
          by (symmetry; unfold M; read_through).
        do 2 f_equal. unfold M. read_through.
        apply peek_memcpy_eq; [assumption | lia | reflexivity | reflexivity].
      * repeat f_equal. unfold M. read_through.
        apply peek_memcpy_all; [assumption | lia | reflexivity | reflexivity].
  - destruct early; u16_simpl; cbn [fst snd]; (split; [lia |]);
      name_memory;
      match goal with
      | |- context [ParseExtList (Z.to_nat ?l)] =>
        rewrite (ParseExtList_fuel _ (4 + Z.to_nat l)) by lia
      end; cbn [Nat.add].
    + turn turn_ALPN (3 + A).
      turn turn_SessionTicket 0.
      turn turn_QuicTransportParameters T.
      rewrite ParseExtList_nonpos by lia.
      eexists _, _. split; [reflexivity |]. fields.
      split; [reflexivity | split; [reflexivity |]].
      repeat f_equal. unfold M. read_through.
      apply peek_memcpy_all; [assumption | lia | reflexivity | reflexivity].
    + turn turn_ALPN (3 + A).
      turn turn_QuicTransportParameters T.
      rewrite ParseExtList_nonpos by lia.
      eexists _, _. split; [reflexivity |]. fields.
      split; [reflexivity | split; [reflexivity |]].
      repeat f_equal. unfold M. read_through.
      apply peek_memcpy_all; [assumption | lia | reflexivity | reflexivity].
Qed.

(** ** The first flight of the server *)

(** Decide a comparison of 16-bit quantities that stands in the goal. *)
Ltac decide_ltb :=
  match goal with
  | |- context [?x <? ?y] =>
    first
      [ replace (x <? y) with false by (symmetry; apply Z.ltb_ge; u16_arith)
      | replace (x <? y) with true by (symmetry; apply Z.ltb_lt; u16_arith) ]
  end.

(** C4, as the code has it.  A server in state None with a 50-byte
    certificate chain and ten bytes of transport parameters, writing into
    an empty buffer that has room for the flight, receives the ClientInitial
    with server name "a.test" and ALPN "h3".  It emits a ServerInitial
    record of 8 bytes and behind it a ServerHandshake record of 316 bytes:
    the record has the fixed size of 266 bytes, which holds the 256-byte
    transport parameter array whatever the parameters' length, plus the 50
    bytes of the chain.  ReadKeyUpdated, WriteKeyUpdated and Data are
    signalled, the Handshake keys and the 1-RTT write key are installed,
    and the bytes consumed are the framed length of the ClientInitial. *)
Theorem first_flight_of_server :
  forall (c : QUIC_TLS QUIC_CERT) (cfg : QUIC_SEC_CONFIG QUIC_CERT)
         (s : QUIC_TLS_PROCESS_STATE) (ticket : bool),
    IsServer c = true ->
    LastMessageType c = QUIC_TLS_MESSAGE_INVALID ->
    SecConfig c = Some cfg ->
    FormatLength cfg = 50 ->
    LocalTPLength c = 10 ->
    QuicCertSelect (Certificate cfg) [0x0804] = true ->
    BufferLength s = 0 ->
    324 <= BufferAllocLength s < 65536 ->
    let Initial := Scenario.a_test_initial ticket in
    exists r,
      ProcessData c (mem_of_list Initial) (Z.of_nat (length Initial)) s = Done r
      /\ emitted_first_flight (r_State r) 8 316
      /\ load8 (Buffer (r_State r)) (8 + Off.QuicTPLength) = 10
      /\ load_u16_host (Buffer (r_State r)) (8 + Off.CertificateLength) = 50
      /\ signalled_first_flight (r_ResultFlags r) (r_State r)
      /\ r_BufferLength r = Z.of_nat (length Initial)
      /\ SNI (r_TlsContext r) = Some (Scenario.a_test ++ [0])
      /\ LastMessageType (r_TlsContext r) = QUIC_TLS_MESSAGE_SERVER_HANDSHAKE.
Proof.
  intros c cfg s ticket Hrole Hlast Hcfg Hfmt Htp Hsel Hlen Hroom Initial.
  subst Initial.
  destruct c, s, cfg. cbn in Hrole, Hlast, Hcfg, Hfmt, Htp, Hsel, Hlen, Hroom.
  subst.
  unfold QuicTlsProcessData.
  replace (QuicTlsHasValidMessageToProcess _ _ _) with true
    by (destruct ticket; vm_compute; reflexivity).
  cbn [IsServer].
  unfold QuicTlsServerProcess, bind, QUIC_DBG_ASSERT, QUIC_FRE_ASSERT.
  cbn [BufferLength BufferAllocLength LastMessageType].
  replace (0 <? BufferAllocLength0) with true by (symmetry; apply Z.ltb_lt; lia).
  replace (load8 _ Off.Type_ =? _) with true
    by (destruct ticket; vm_compute; reflexivity).
  match goal with
  | |- context [ParseExtList ?f ?c ?s ?B ?a ?n] =>
    set (P := ParseExtList f c s B a n)
  end.
  destruct ticket; vm_compute in P; subst P; cbv iota beta;
    cbn [SecConfig]; unfold ServerFirstFlight; fields;
    rewrite Hsel; cbn [negb];
    do 2 decide_ltb;
    (eexists; split; [reflexivity |]);
    unfold emitted_first_flight, signalled_first_flight;
    vm_compute; repeat split; reflexivity.
Qed.

(** ** The first flight of the client and the capacity of the buffer *)

(** C1, where the code departs from it.  The first flight of a client
    (state None, no server name, ALPN "h3", no transport parameters) into
    an empty buffer of a capacity below 62 bytes: the call is entered with
    the used length below the capacity, it returns with the Data flag, and
    it leaves the used length at 62, above the capacity, which it never
    compares the ClientInitial with. *)
Theorem first_flight_exceeds_capacity :
  forall (c : QUIC_TLS QUIC_CERT) (s : QUIC_TLS_PROCESS_STATE) (B : mem),
    IsServer c = false ->
    LastMessageType c = QUIC_TLS_MESSAGE_INVALID ->
    SNI c = None ->
    TlsSession c = Fresh.session Scenario.h3 ->
    LocalTPLength c = 0 ->
    BufferLength s = 0 ->
    0 < BufferAllocLength s < 62 ->
    exists r,
      ProcessData c B 0 s = Done r
      /\ has_flag (r_ResultFlags r) QUIC_TLS_RESULT_ERROR = false
      /\ BufferAllocLength (r_State r) = BufferAllocLength s
      /\ BufferLength (r_State r) = 62
      /\ BufferAllocLength (r_State r) < BufferLength (r_State r).
Proof.
  intros c s B Hrole Hlast Hsni Halpn Htp Hlen Hroom.
  destruct c, s. cbn in Hrole, Hlast, Hsni, Halpn, Htp, Hlen, Hroom. subst.
  unfold QuicTlsProcessData, QuicTlsHasValidMessageToProcess.
  cbn [IsServer LastMessageType negb is_INVALID andb Z.eqb].
  unfold QuicTlsClientProcess, bind, QUIC_DBG_ASSERT.
  cbn [BufferLength BufferAllocLength LastMessageType].
  replace (0 <? BufferAllocLength0) with true by (symmetry; apply Z.ltb_lt; lia).
  eexists. split; [reflexivity |].
  match goal with
  | |- _ /\ ?A = ?a /\ ?L = 62 /\ _ =>
    assert (EA : A = a) by (vm_compute; reflexivity);
    assert (EL : L = 62) by (vm_compute; reflexivity)
  end.
  rewrite EA, EL.
  repeat split; try (vm_compute; reflexivity); lia.
Qed.

(** ** The loop reads from [ExtList] upwards only *)

Lemma ParseExtList_ext fuel :
  forall (c : QUIC_TLS QUIC_CERT) s B B' ExtList ExtListLength,
    (forall a, ExtList <= a -> load8 B' a = load8 B a) ->
    ParseExtList fuel c s B' ExtList ExtListLength
      = ParseExtList fuel c s B ExtList ExtListLength.
Proof.
  induction fuel as [| fuel IH]; intros c s B B' ExtList len H;
    cbn [ParseExtList]; [reflexivity |].
  destruct (len >? 0); [| reflexivity].
  assert (R16 : forall a, ExtList <= a ->
                TlsReadUint16 B' a = TlsReadUint16 B a)
    by (intros a Ha; unfold TlsReadUint16; rewrite !H by lia; reflexivity).
  rewrite !R16 by (offsets; lia).
  pose proof (TlsReadUint16_range B (ExtList + 2)) as Hr.
  rewrite !(peek_ext B B') by (intros; apply H; offsets; lia).
  unfold bind, QUIC_FRE_ASSERT.
  destruct (_ <=? len); [| reflexivity].
  repeat match goal with
         | |- context [if ?b then _ else _] => destruct b
         end; try reflexivity; apply IH; intros; apply H; lia.
Qed.

(** The list the client writes, read by the loop of the server out of any
    memory that holds it. *)
Lemma written_list_is_read_back :
  forall (client server : QUIC_TLS QUIC_CERT) (s : QUIC_TLS_PROCESS_STATE)
         (m B : mem) (ExtList : Z) (early : bool)
         (name : option (list Z)) (alpn tp : list Z),
    SNI client = option_map (fun n => n ++ [0]) name ->
    (forall n, name = Some n -> Forall (fun b => 0 < b < 256) n) ->
    TlsSession client = Fresh.session alpn ->
    LocalTPBuffer client = tp ->
    LocalTPLength client = Z.of_nat (length tp) ->
    Forall (fun b => 0 <= b < 256) tp ->
    ext_list_size name alpn early tp <= 65535 ->
    let W := WriteExtList client early m ExtList in
    (forall a, ExtList <= a -> load8 B a = load8 (fst W) a) ->
    snd W = ext_list_size name alpn early tp
    /\ exists server' s',
         ParseExtList (Z.to_nat (snd W)) server (set_EarlyData s false false)
           B ExtList (snd W) = Done (server', s')
         /\ SNI server'
              = match name with Some _ => SNI client | None => SNI server end
         /\ EarlyDataAttempted s' = early
         /\ EarlyDataAccepted s' = early
         /\ ReceivedTP server'
              = ReceivedTP server ++ [(Z.of_nat (length tp), tp)].
Proof.
  intros client server s m B ExtList early name alpn tp
         Hsni Hname Halpn Htpb Htpl Htp Hsize W HB.
  rewrite (ParseExtList_ext _ _ _ (fst W) B) by assumption. clear HB.
  subst W. unfold WriteExtList.
  rewrite Hsni, Halpn, Htpb, Htpl. unfold ext_list_size in *.
  cbn [Fresh.session AlpnLength Alpn].
  set (A := Z.of_nat (length alpn)) in *.
  set (T := Z.of_nat (length tp)) in *.
  assert (HA : 0 <= A) by (subst A; lia).
  assert (HT : 0 <= T) by (subst T; lia).
  destruct name as [n |]; cbn [option_map].
  - rewrite strlen_terminated by (apply Hname; reflexivity).
    assert (Hn : Forall (fun b => 0 <= b < 256) n).
    { eapply Forall_impl; [| apply Hname; reflexivity]. cbv beta. lia. }
    set (N := Z.of_nat (length n)) in *.
    assert (HN : 0 <= N) by (subst N; lia).
    destruct early; u16_simpl; cbn [fst snd]; (split; [lia |]);
      name_memory;
      match goal with
      | |- context [ParseExtList (Z.to_nat ?l)] =>
        rewrite (ParseExtList_fuel _ (4 + Z.to_nat l)) by lia
      end; cbn [Nat.add].
    + turn turn_ServerName (5 + N).
      turn turn_ALPN (3 + A).
      turn turn_SessionTicket 0.
      turn turn_QuicTransportParameters T.
      rewrite ParseExtList_nonpos by lia.
      eexists _, _. split; [reflexivity |]. fields.
      split; [| split; [reflexivity | split; [reflexivity |]]].
      * replace (TlsReadUint16 M _) with N
          by (symmetry; unfold M; read_through).
        do 2 f_equal. unfold M. read_through.
        apply peek_memcpy_eq; [assumption | lia | reflexivity | reflexivity].
      * repeat f_equal. unfold M. read_through.
        apply peek_memcpy_all; [assumption | lia | reflexivity | reflexivity].
    + turn turn_ServerName (5 + N).
      turn turn_ALPN (3 + A).
      turn turn_QuicTransportParameters T.
      rewrite ParseExtList_nonpos by lia.
      eexists _, _. split; [reflexivity |]. fields.
      split; [| split; [reflexivity | split; [reflexivity |]]].
      * replace (TlsReadUint16 M _) with N
          by (symmetry; unfold M; read_through).
        do 2 f_equal. unfold M. read_through.
        apply peek_memcpy_eq; [assumption | lia | reflexivity | reflexivity].
      * repeat f_equal. unfold M. read_through.
        apply peek_memcpy_all; [assumption | lia | reflexivity | reflexivity].
  - destruct early; u16_simpl; cbn [fst snd]; (split; [lia |]);
      name_memory;
      match goal with
      | |- context [ParseExtList (Z.to_nat ?l)] =>
        rewrite (ParseExtList_fuel _ (4 + Z.to_nat l)) by lia
      end; cbn [Nat.add].
    + turn turn_ALPN (3 + A).
      turn turn_SessionTicket 0.
      turn turn_QuicTransportParameters T.
      rewrite ParseExtList_nonpos by lia.
      eexists _, _. split; [reflexivity |]. fields.
      split; [reflexivity | split; [reflexivity | split; [reflexivity |]]].
      repeat f_equal. unfold M. read_through.
      apply peek_memcpy_all; [assumption | lia | reflexivity | reflexivity].
    + turn turn_ALPN (3 + A).
      turn turn_QuicTransportParameters T.
      rewrite ParseExtList_nonpos by lia.
      eexists _, _. split; [reflexivity |]. fields.
      split; [reflexivity | split; [reflexivity | split; [reflexivity |]]].
      repeat f_equal. unfold M. read_through.
      apply peek_memcpy_all; [assumption | lia | reflexivity | reflexivity].
Qed.


(** ** The bytes of the list the client writes *)

Lemma map_seq_from (f : nat -> Z) (c len : nat) :
  forall s, map f (seq (s + c) len) = map (fun i => f (i + c)%nat) (seq s len).
Proof.
  induction len as [| len IH]; intros s; [reflexivity |].
  cbn [seq map]. f_equal. apply (IH (S s)).
Qed.

Lemma peek_chunk m a n k l1 l2 :
  0 <= k <= n ->
  peek m a k = l1 -> peek m (a + k) (n - k) = l2 ->
  peek m a n = l1 ++ l2.
Proof.
  intros Hk <- <-. unfold peek.
  replace (Z.to_nat n) with (Z.to_nat k + Z.to_nat (n - k))%nat by lia.
  rewrite seq_app, map_app. f_equal.
  rewrite (map_seq_from _ (Z.to_nat k) _ 0%nat).
  apply map_ext. intros i. f_equal. lia.
Qed.

Lemma peek_TlsWriteUint16_same m a v b :
  b = a -> 0 <= v < 65536 -> peek (TlsWriteUint16 m a v) b 2 = be16 v.
Proof.
  intros -> Hv. unfold peek, be16. change (Z.to_nat 2) with 2%nat.
  cbn [seq map]. change (Z.of_nat 0) with 0. change (Z.of_nat 1) with 1.
  unfold TlsWriteUint16. cbv zeta.
  rewrite u16_small by lia. rewrite Z.shiftr_div_pow2 by lia.
  change (2 ^ 8) with 256.
  rewrite load8_store8_other by lia.
  replace (a + 0) with a by lia.
  rewrite !load8_store8_same. unfold u8.
  rewrite (Z.mod_small (v / 256)); [reflexivity |].
  split; [apply Z.div_pos; lia | apply Z.div_lt_upper_bound; lia].
Qed.

Lemma peek_store8_same m a v b :
  b = a -> peek (store8 m a v) b 1 = [u8 v].
Proof.
  intros ->. unfold peek. change (Z.to_nat 1) with 1%nat.
  cbn [seq map]. change (Z.of_nat 0) with 0.
  replace (a + 0) with a by lia. rewrite load8_store8_same. reflexivity.
Qed.

Lemma ext_list_bytes_length name alpn early tp :
  Z.of_nat (length (ext_list_bytes name alpn early tp))
    = ext_list_size name alpn early tp.
Proof.
  unfold ext_list_bytes, ext_list_size, be16.
  destruct name, early; repeat rewrite length_app; cbn [length]; lia.
Qed.

Ltac constants :=
  cbv [TlsExt_ServerName TlsExt_AppProtocolNegotiation TlsExt_SessionTicket
       TlsExt_QuicTransportParameters TlsExt_Sni_NameType_HostName].

(** Cut the next [k] bytes off a [peek] and read them through the stores
    made after them. *)
Ltac chunk k :=
  apply (peek_chunk _ _ _ k);
  [ lia
  | read_through;
    first [ apply peek_TlsWriteUint16_same; lia
          | rewrite peek_store8_same by lia; reflexivity
          | idtac ]
  | ].

(** A byte read behind everything the serializer wrote. *)
Ltac written_below :=
  repeat first
    [ rewrite load8_TlsWriteUint24_other by lia
    | rewrite load8_TlsWriteUint16_other by lia
    | rewrite load8_store8_other by lia
    | rewrite load8_memcpy_out by lia ];
  try reflexivity.

(** The list the client writes has the size and the bytes of the wire
    format, and nothing behind it is written. *)
Lemma WriteExtList_bytes :
  forall (client : QUIC_TLS QUIC_CERT) (m : mem) (ExtList : Z) (early : bool)
         (name : option (list Z)) (alpn tp : list Z),
    SNI client = option_map (fun n => n ++ [0]) name ->
    (forall n, name = Some n -> Forall (fun b => 0 < b < 256) n) ->
    TlsSession client = Fresh.session alpn ->
    Forall (fun b => 0 <= b < 256) alpn ->
    LocalTPBuffer client = tp ->
    LocalTPLength client = Z.of_nat (length tp) ->
    Forall (fun b => 0 <= b < 256) tp ->
    ext_list_size name alpn early tp <= 65535 ->
    let W := WriteExtList client early m ExtList in
    snd W = ext_list_size name alpn early tp
    /\ peek (fst W) ExtList (ext_list_size name alpn early tp)
         = ext_list_bytes name alpn early tp
    /\ (forall b, ExtList + ext_list_size name alpn early tp <= b ->
        load8 (fst W) b = load8 m b).
Proof.
  intros client m ExtList early name alpn tp
         Hsni Hname Halpn Ha Htpb Htpl Htp Hsize W.
  subst W. unfold WriteExtList.
  rewrite Hsni, Halpn, Htpb, Htpl. unfold ext_list_size, ext_list_bytes in *.
  cbn [Fresh.session AlpnLength Alpn].
  set (A := Z.of_nat (length alpn)) in *.
  set (T := Z.of_nat (length tp)) in *.
  assert (HA : 0 <= A) by (subst A; lia).
  assert (HT : 0 <= T) by (subst T; lia).
  destruct name as [n |]; cbn [option_map].
  - rewrite strlen_terminated by (apply Hname; reflexivity).
    assert (Hn : Forall (fun b => 0 <= b < 256) n).
    { eapply Forall_impl; [| apply Hname; reflexivity]. cbv beta. lia. }
    set (N := Z.of_nat (length n)) in *.
    assert (HN : 0 <= N) by (subst N; lia).
    destruct early; u16_simpl; cbn [fst snd]; (split; [lia |]);
      (split; [| intros b Hb; offsets; written_below]);
      repeat rewrite <- app_assoc; rewrite ?app_nil_l; offsets; constants.
    + chunk 2. chunk 2. chunk 2. chunk 1. chunk 2. chunk N.
      { apply peek_memcpy_eq; [assumption | lia | reflexivity | reflexivity]. }
      chunk 2. chunk 2. chunk 2. chunk 1. chunk A.
      { apply peek_memcpy_all; [assumption | lia | reflexivity | reflexivity]. }
      chunk 2. chunk 2. chunk 2. chunk 2.
      read_through.
      apply peek_memcpy_all; [assumption | lia | reflexivity | subst T; lia].
    + chunk 2. chunk 2. chunk 2. chunk 1. chunk 2. chunk N.
      { apply peek_memcpy_eq; [assumption | lia | reflexivity | reflexivity]. }
      chunk 2. chunk 2. chunk 2. chunk 1. chunk A.
      { apply peek_memcpy_all; [assumption | lia | reflexivity | reflexivity]. }
      chunk 2. chunk 2.
      read_through.
      apply peek_memcpy_all; [assumption | lia | reflexivity | subst T; lia].
  - destruct early; u16_simpl; cbn [fst snd]; (split; [lia |]);
      (split; [| intros b Hb; offsets; written_below]);
      repeat rewrite <- app_assoc; rewrite ?app_nil_l; offsets; constants.
    + chunk 2. chunk 2. chunk 2. chunk 1. chunk A.
      { apply peek_memcpy_all; [assumption | lia | reflexivity | reflexivity]. }
      chunk 2. chunk 2. chunk 2. chunk 2.
      read_through.
      apply peek_memcpy_all; [assumption | lia | reflexivity | subst T; lia].
    + chunk 2. chunk 2. chunk 2. chunk 1. chunk A.
      { apply peek_memcpy_all; [assumption | lia | reflexivity | reflexivity]. }
      chunk 2. chunk 2.
      read_through.
      apply peek_memcpy_all; [assumption | lia | reflexivity | subst T; lia].
Qed.

(** A 16-bit field of the header, read out of the memory the list was
    written to. *)
Ltac header_field :=
  match goal with
  | |- u16 (Z.shiftl (load8 ?m0 ?a) 8 + load8 ?m0 (?a + 1)) = ?v =>
    change (TlsReadUint16 m0 a = v)
  end;
  read_through.

(** C5. A call whose input has fewer than 7 bytes, or fewer bytes than the
    declared 24-bit length plus 4, returns no result flag, reports zero
    bytes consumed and leaves the context and the process state as they
    were; the one exception is a client in state None given zero bytes,
    whose call is the first flight.  That call returns the Data flag alone
    and reports zero bytes consumed; the context is the one it was given
    with the marker at ClientInitial; early data is attempted and not
    accepted, the 0-RTT write key is installed and made the active one and
    nothing else of the state but the buffer and its two lengths changes.
    For a context holding a server name (if any) without NUL, an ALPN
    value and transport parameters whose record fits 16 bits, a
    ClientInitial with exactly these lies at the old used length of the
    buffer, the used and the total length are the size of that record, and
    outside the fields of the record the buffer is as it was. *)
Theorem short_input_is_left_alone :
  forall (c : QUIC_TLS QUIC_CERT) (B : mem) (InLength : Z)
         (s : QUIC_TLS_PROCESS_STATE),
    InLength < 7 \/ InLength < TlsReadUint24 B Off.Length + 4 ->
    (~ (IsServer c = false
        /\ LastMessageType c = QUIC_TLS_MESSAGE_INVALID /\ InLength = 0) ->
     ProcessData c B InLength s
       = Done {| r_TlsContext := c; r_ResultFlags := 0;
                 r_State := s; r_BufferLength := 0 |})
    /\
    (IsServer c = false ->
     LastMessageType c = QUIC_TLS_MESSAGE_INVALID -> InLength = 0 ->
     BufferLength s < BufferAllocLength s ->
     exists r,
       ProcessData c B InLength s = Done r
       /\ r_ResultFlags r = QUIC_TLS_RESULT_DATA
       /\ r_BufferLength r = 0
       /\ r_TlsContext r
            = set_LastMessageType c QUIC_TLS_MESSAGE_CLIENT_INITIAL
       /\ (EarlyDataAttempted (r_State r) = true
           /\ EarlyDataAccepted (r_State r) = false
           /\ WriteKey (r_State r) = QUIC_PACKET_KEY_0_RTT
           /\ WriteKeys (r_State r) QUIC_PACKET_KEY_0_RTT
                = Some {| KeyType := QUIC_PACKET_KEY_0_RTT |}
           /\ (forall k, k <> QUIC_PACKET_KEY_0_RTT ->
               WriteKeys (r_State r) k = WriteKeys s k)
           /\ ReadKey (r_State r) = ReadKey s
           /\ ReadKeys (r_State r) = ReadKeys s
           /\ HandshakeComplete (r_State r) = HandshakeComplete s
           /\ BufferAllocLength (r_State r) = BufferAllocLength s
           /\ BufferOffsetHandshake (r_State r) = BufferOffsetHandshake s
           /\ BufferOffset1Rtt (r_State r) = BufferOffset1Rtt s)
       /\ (forall (name : option (list Z)) (alpn tp : list Z),
             SNI c = option_map (fun n => n ++ [0]) name ->
             (forall n, name = Some n -> Forall (fun b => 0 < b < 256) n) ->
             TlsSession c = Fresh.session alpn ->
             Forall (fun b => 0 <= b < 256) alpn ->
             LocalTPBuffer c = tp ->
             LocalTPLength c = Z.of_nat (length tp) ->
             Forall (fun b => 0 <= b < 256) tp ->
             let size := ext_list_size name alpn true tp in
             let MessageLength := sizeof_QUIC_TLS_CLIENT_HELLO + size + 4 in
             MessageLength <= 65535 ->
             ClientInitial_at (Buffer (r_State r)) (BufferLength s)
               name alpn tp
             /\ BufferLength (r_State r) = MessageLength
             /\ BufferTotalLength (r_State r) = MessageLength
             /\ (forall a,
                   a < BufferLength s
                   \/ BufferLength s + MessageLength <= a
                   \/ BufferLength s + Off.Random <= a
                        < BufferLength s + Off.SessionIdLength
                   \/ a = BufferLength s + Off.CompressionMethod ->
                   load8 (Buffer (r_State r)) a = load8 (Buffer s) a))).
Proof.
  intros c B InLength s Hshort. split.
  - intros Hnot. unfold QuicTlsProcessData.
    rewrite gate_rejects by assumption. reflexivity.
  - intros Hrole Hlast -> Hroom.
    unfold QuicTlsProcessData, QuicTlsHasValidMessageToProcess.
    rewrite Hrole, Hlast. cbn [negb is_INVALID andb Z.eqb].
    unfold QuicTlsClientProcess, bind, QUIC_DBG_ASSERT.
    apply Z.ltb_lt in Hroom. rewrite Hroom, Hlast.
    unfold ClientFirstFlight. fields.
    match goal with
    | |- context [WriteExtList c true ?m0 ?E] =>
      pose proof (WriteExtList_bytes c m0 E true) as Hlist;
      pose proof (fun b => WriteExtList_frame c true m0 E b) as Hframe;
      destruct (WriteExtList c true m0 E) as [m len] eqn:Ew
    end.
    cbv zeta in Hlist.
    cbn [fst snd] in Hlist, Hframe.
    eexists. split; [reflexivity |].
    unfold returns. fields.
    split; [reflexivity |]. split; [reflexivity |]. split; [reflexivity |].
    split.
    { unfold QuicStubAllocKey, set_key.
      repeat split; try reflexivity.
      intros k Hk. destruct k; try reflexivity. congruence. }
    intros name alpn tp Hsni Hname Halpn Ha Htpb Htpl Htp. cbv zeta.
    set (size := ext_list_size name alpn true tp).
    unfold sizeof_QUIC_TLS_CLIENT_HELLO in *. intros Hfit.
    assert (Hsize : 0 <= size).
    { subst size. unfold ext_list_size. destruct name; lia. }
    destruct (Hlist name alpn tp) as (-> & Hbytes & Hafter);
      try assumption; [subst size; lia |].
    fold size in Hbytes, Hafter |- *.
    rewrite (u16_small (41 + size + 4)) by lia.
    split; [| split; [reflexivity | split; [reflexivity |]]].
    + unfold ClientInitial_at, sizeof_QUIC_TLS_CLIENT_HELLO. fold size.
      offsets.
      repeat split.
      * written_below. rewrite Hframe by lia. written_below.
        replace (BufferLength s + 0) with (BufferLength s) by lia.
        apply load8_store8_same.
      * rewrite TlsReadUint24_TlsWriteUint24_same.
        rewrite Z.mod_small by lia. lia.
      * rewrite TlsReadUint16_TlsWriteUint24_other by lia.
        rewrite TlsReadUint16_TlsWriteUint16_other by lia.
        unfold TlsReadUint16 at 1. rewrite !Hframe by lia. header_field.
      * written_below. rewrite Hframe by lia. written_below.
        apply load8_store8_same.
      * rewrite TlsReadUint16_TlsWriteUint24_other by lia.
        rewrite TlsReadUint16_TlsWriteUint16_other by lia.
        unfold TlsReadUint16 at 1. rewrite !Hframe by lia. header_field.
      * written_below. rewrite Hframe by lia.
        apply load8_store8_same.
      * rewrite TlsReadUint16_TlsWriteUint24_other by lia.
        rewrite TlsReadUint16_TlsWriteUint16_same. apply u16_small. lia.
      * rewrite <- Hbytes. apply peek_ext. intros b Hb. written_below.
    + intros a Ha'. offsets. written_below.
      destruct (Z.ltb_spec a (BufferLength s + 45)) as [Hlow | Hhigh].
      * rewrite Hframe by lia. written_below.
      * rewrite Hafter by lia. written_below.
Qed.

End Properties.

(** * The properties at concrete inputs *)

Lemma short_input_is_left_alone_witness :
  Scenario.ProcessData Scenario.server Scenario.zeros 5
      (Fresh.state 4096 Scenario.zeros)
    = Done {| r_TlsContext := Scenario.server; r_ResultFlags := 0;
              r_State := Fresh.state 4096 Scenario.zeros;
              r_BufferLength := 0 |}
  /\ exists r,
       Scenario.ProcessData Scenario.client_a_test Scenario.zeros 0
           (Fresh.state 4096 Scenario.zeros) = Done r
       /\ r_ResultFlags r = QUIC_TLS_RESULT_DATA
       /\ ClientInitial_at (Buffer (r_State r)) 0
            (Some Scenario.a_test) Scenario.h3 []
       /\ BufferLength (r_State r) = 77.
Proof.
  split.
  - apply (short_input_is_left_alone Scenario.CertSelect
             Scenario.CertParseChain Scenario.CertValidateChain
             Scenario.DISABLE_CERT_VALIDATION false
             Scenario.server Scenario.zeros 5 (Fresh.state 4096 Scenario.zeros)).
    + left. lia.
    + intros [H _]. discriminate H.
  - pose proof (short_input_is_left_alone Scenario.CertSelect
                  Scenario.CertParseChain Scenario.CertValidateChain
                  Scenario.DISABLE_CERT_VALIDATION false
                  Scenario.client_a_test Scenario.zeros 0
                  (Fresh.state 4096 Scenario.zeros)) as H.
    destruct H as [_ H]; [left; lia |].
    destruct H as [r (H & Hd & _ & _ & _ & Hrec)]; try reflexivity.
    exists r.
    assert (Hn : forall n, Some Scenario.a_test = Some n ->
                           Forall (fun b => 0 < b < 256) n).
    { intros n E. injection E as <-.
      unfold Scenario.a_test. repeat (constructor; [lia |]). constructor. }
    assert (Ha : Forall (fun b => 0 <= b < 256) Scenario.h3).
    { unfold Scenario.h3. repeat (constructor; [lia |]). constructor. }
    specialize (Hrec (Some Scenario.a_test) Scenario.h3 []
                  eq_refl Hn eq_refl Ha eq_refl eq_refl (Forall_nil _)).
    cbv zeta in Hrec.
    destruct Hrec as (Hat & Hlen & _); [vm_compute; discriminate |].
    split; [exact H |]. split; [exact Hd |]. split; [exact Hat |].
    exact Hlen.
Defined.

Lemma error_consumes_nothing_witness :
  exists r,
    Scenario.ProcessData Scenario.server_after_ticket
        (mem_of_list Scenario.ticket_record) 8
        (Fresh.state 4096 Scenario.zeros) = Done r
    /\ has_flag (r_ResultFlags r) QUIC_TLS_RESULT_ERROR = true
    /\ r_BufferLength r = 0.
Proof.
  eexists. split; [reflexivity |]. split; [reflexivity |].
  eapply (error_consumes_nothing Scenario.CertSelect
            Scenario.CertParseChain Scenario.CertValidateChain
            Scenario.DISABLE_CERT_VALIDATION false
            Scenario.server_after_ticket
            (mem_of_list Scenario.ticket_record) 8
            (Fresh.state 4096 Scenario.zeros)); reflexivity.
Defined.

Lemma first_flight_of_h3_client_witness :
  exists r,
    Scenario.ProcessData Scenario.client Scenario.zeros 0
        (Fresh.state 4096 Scenario.zeros) = Done r
    /\ BufferLength (r_State r) = 62
    /\ TlsReadUint16 (Buffer (r_State r)) Off.ExtListLength = 17
    /\ r_ResultFlags r = QUIC_TLS_RESULT_DATA
    /\ WriteKeys (r_State r) QUIC_PACKET_KEY_0_RTT
         = Some {| KeyType := QUIC_PACKET_KEY_0_RTT |}.
Proof.
  destruct (first_flight_of_h3_client Scenario.CertSelect
              Scenario.CertParseChain Scenario.CertValidateChain
              Scenario.DISABLE_CERT_VALIDATION false
              Scenario.client (Fresh.state 4096 Scenario.zeros) Scenario.zeros)
    as [r (H & _ & _ & Hl & He & _ & Hf & _ & _ & Hk & _)];
    try reflexivity.
  exists r. repeat split; assumption.
Defined.

Lemma first_flight_exceeds_capacity_witness :
  exists r,
    Scenario.ProcessData Scenario.client Scenario.zeros 0
        (Fresh.state 32 Scenario.zeros) = Done r
    /\ BufferLength (Fresh.state 32 Scenario.zeros)
         < BufferAllocLength (Fresh.state 32 Scenario.zeros)
    /\ BufferAllocLength (r_State r) = 32
    /\ BufferLength (r_State r) = 62.
Proof.
  destruct (first_flight_exceeds_capacity Scenario.CertSelect
              Scenario.CertParseChain Scenario.CertValidateChain
              Scenario.DISABLE_CERT_VALIDATION false
              Scenario.client (Fresh.state 32 Scenario.zeros) Scenario.zeros)
    as [r (H & _ & Ha & Hl & _)];
    try reflexivity.
  - unfold Fresh.state; cbn [BufferAllocLength]; lia.
  - exists r. repeat split; assumption.
Defined.

Lemma offending_extension_aborts_witness :
  ExtListOffends (mem_of_list Scenario.unknown_extension_initial)
    Off.ExtList
    (TlsReadUint16 (mem_of_list Scenario.unknown_extension_initial)
       Off.ExtListLength)
  /\ Scenario.ProcessData Scenario.server
       (mem_of_list Scenario.unknown_extension_initial) 49
       (Fresh.state 4096 Scenario.zeros) = Fault FreAssert
  /\ Scenario.ProcessData Scenario.server
       (mem_of_list Scenario.overrunning_extension_initial) 53
       (Fresh.state 4096 Scenario.zeros) = Fault FreAssert.
Proof.
  assert (Hunknown :
    ExtListOffends (mem_of_list Scenario.unknown_extension_initial)
      Off.ExtList
      (TlsReadUint16 (mem_of_list Scenario.unknown_extension_initial)
         Off.ExtListLength)).
  { apply offends_type; vm_compute; reflexivity. }
  split; [exact Hunknown |]. split.
  - apply (offending_extension_aborts Scenario.CertSelect
             Scenario.CertParseChain Scenario.CertValidateChain
             Scenario.DISABLE_CERT_VALIDATION false);
      try (vm_compute; reflexivity). exact Hunknown.
  - apply (offending_extension_aborts Scenario.CertSelect
             Scenario.CertParseChain Scenario.CertValidateChain
             Scenario.DISABLE_CERT_VALIDATION false);
      try (vm_compute; reflexivity).
    apply offends_length; vm_compute; reflexivity.
Defined.

(** C2, as stated, fails: the server in state None is handed a ClientInitial
    whose only extension is of the unknown type 0x002b; no result comes
    back that carries the Error flag. *)
Lemma unknown_extension_reports_no_error :
  ExtListOffends (mem_of_list Scenario.unknown_extension_initial)
    Off.ExtList
    (TlsReadUint16 (mem_of_list Scenario.unknown_extension_initial)
       Off.ExtListLength)
  /\ ~ exists r,
         Scenario.ProcessData Scenario.server
           (mem_of_list Scenario.unknown_extension_initial) 49
           (Fresh.state 4096 Scenario.zeros) = Done r
         /\ has_flag (r_ResultFlags r) QUIC_TLS_RESULT_ERROR = true
         /\ BufferLength (r_State r) = 0.
Proof.
  split.
  - apply offends_type; vm_compute; reflexivity.
  - intros [r [H _]]. vm_compute in H. discriminate H.
Qed.

(** C3, where the code departs from it.  A client that has sent its
    ClientHandshake is handed a Ticket record whose header declares 70000
    bytes, all 70004 bytes of it: the call succeeds with the Ticket flag
    and reports 4468 bytes consumed, which is 70004 cut to 16 bits. *)
Theorem long_message_is_drained_short :
  exists r,
    Scenario.ProcessData Scenario.client_after_handshake
        (mem_of_list Scenario.long_ticket) 70004
        (Fresh.state 4096 Scenario.zeros) = Done r
    /\ TlsReadUint24 (mem_of_list Scenario.long_ticket) Off.Length + 4 = 70004
    /\ has_flag (r_ResultFlags r) QUIC_TLS_RESULT_ERROR = false
    /\ has_flag (r_ResultFlags r) QUIC_TLS_RESULT_TICKET = true
    /\ r_BufferLength r = 4468
    /\ r_BufferLength r = 70004 mod 65536.
Proof.
  eexists. split; [reflexivity |]. vm_compute. repeat split; reflexivity.
Qed.

Lemma first_flight_of_server_witness :
  exists r,
    Scenario.ProcessData Scenario.server
        (mem_of_list (Scenario.a_test_initial true)) 77
        (Fresh.state 4096 Scenario.zeros) = Done r
    /\ emitted_first_flight (r_State r) 8 316
    /\ signalled_first_flight (r_ResultFlags r) (r_State r)
    /\ r_BufferLength r = 77.
Proof.
  destruct (first_flight_of_server Scenario.CertSelect
              Scenario.CertParseChain Scenario.CertValidateChain
              Scenario.DISABLE_CERT_VALIDATION false
              Scenario.server Scenario.config
              (Fresh.state 4096 Scenario.zeros) true)
    as [r (H & He & _ & _ & Hs & Hd & _)];
    try reflexivity.
  - unfold Fresh.state; cbn [BufferAllocLength]; lia.
  - exists r. repeat split; try assumption; apply He || apply Hs.
Defined.

(** C4, as stated, fails: in the scenario the ServerHandshake record that
    follows the 8-byte ServerInitial is not 67 bytes long. *)
Lemma server_handshake_is_not_67_bytes :
  ~ exists r,
      Scenario.ProcessData Scenario.server
        (mem_of_list (Scenario.a_test_initial true)) 77
        (Fresh.state 4096 Scenario.zeros) = Done r
      /\ emitted_first_flight (r_State r) 8 67.
Proof.
  intros [r [H He]].
  assert (E : exists r0,
             Scenario.ProcessData Scenario.server
               (mem_of_list (Scenario.a_test_initial true)) 77
               (Fresh.state 4096 Scenario.zeros) = Done r0
             /\ BufferLength (r_State r0) = 324).
  { eexists. split; [reflexivity |]. vm_compute. reflexivity. }
  destruct E as [r0 [H0 Hl]].
  rewrite H in H0. apply Done_inj in H0. subst r0.
  destruct He as (_ & _ & _ & _ & _ & Hb & _). lia.
Qed.

Lemma extensions_round_trip_witness :
  let W := WriteExtList Scenario.client_with_tp true Scenario.zeros Off.ExtList in
  snd W = 35
  /\ exists server' s',
       ParseExtList (Z.to_nat (snd W)) Scenario.server
         (set_EarlyData (Fresh.state 4096 Scenario.zeros) false false)
         (fst W) Off.ExtList (snd W) = Done (server', s')
       /\ SNI server' = Some (Scenario.a_test ++ [0])
       /\ EarlyDataAttempted s' = true
       /\ ReceivedTP server' = [(3, [1; 2; 3])].
Proof.
  assert (Hname : forall n, Some Scenario.a_test = Some n ->
                            Forall (fun b => 0 < b < 256) n).
  { intros n [= <-]. unfold Scenario.a_test. repeat constructor; lia. }
  assert (Htp : Forall (fun b => 0 <= b < 256) [1; 2; 3])
    by (repeat constructor; lia).
  assert (Hsize : ext_list_size (Some Scenario.a_test) Scenario.h3 true
                    [1; 2; 3] <= 65535)
    by (vm_compute; discriminate).
  exact (extensions_round_trip Scenario.client_with_tp Scenario.server
           (Fresh.state 4096 Scenario.zeros) Scenario.zeros Off.ExtList true
           (Some Scenario.a_test) Scenario.h3 [1; 2; 3]
           eq_refl Hname eq_refl eq_refl eq_refl Htp Hsize).
Defined.

(** C8, as stated, fails on both restrictions.  By state: a fresh client
    sends its first flight, processes a ServerHandshake of the peer, and is
    then reset; in either build the reset returns and takes the marker from
    ClientHandshake back to its initial value although a server response
    has been processed.  By role: a server answers a ClientInitial and is
    then reset; in a build without debug assertions the reset returns and
    takes the marker of the server from ServerHandshake back to its initial
    value. *)
Lemma reset_goes_back_unrestricted :
  (forall DBG,
     ~ every_step Scenario.CertSelect Scenario.CertParseChain
         Scenario.CertValidateChain Scenario.DISABLE_CERT_VALIDATION DBG
         (step_restricted (QUIC_CERT := unit))
         Scenario.fresh_client_handshake Scenario.reset_after_response)
  /\ ~ every_step Scenario.CertSelect Scenario.CertParseChain
         Scenario.CertValidateChain Scenario.DISABLE_CERT_VALIDATION false
         (step_restricted (QUIC_CERT := unit))
         Scenario.fresh_server_handshake Scenario.reset_of_server.
Proof.
  split.
  - intros DBG H. destruct DBG; vm_compute in H;
      destruct H as (_ & _ & [[H | H] | (_ & _ & H & _)] & _); discriminate H.
  - intros H. vm_compute in H.
    destruct H as (_ & [[H | H] | (_ & H & _)] & _); discriminate H.
Qed.

(** The ClientInitial of the server scenario is the one the client of this
    file emits for server name "a.test" and ALPN "h3" into a zeroed buffer. *)
Lemma a_test_initial_is_emitted_by_client :
  exists r,
    Scenario.ProcessData Scenario.client_a_test Scenario.zeros 0
        (Fresh.state 4096 Scenario.zeros) = Done r
    /\ BufferLength (r_State r) = 77
    /\ peek (Buffer (r_State r)) 0 77 = Scenario.a_test_initial true.
Proof.
  eexists. split; [reflexivity |]. vm_compute. split; reflexivity.
Qed.


(** * Further properties of the code *)

(** ** The wire codec *)

Lemma load8_store8_back m a b : load8 (store8 m a (load8 m a)) b = load8 m b.
Proof.
  destruct (Z.eq_dec b a) as [-> | Hne].
  - rewrite load8_store8_same. unfold load8. apply u8_u8.
  - apply load8_store8_other. assumption.
Qed.

Lemma bytes_of_u16 x y :
  0 <= x < 256 -> 0 <= y < 256 ->
  Z.shiftr (u16 (Z.shiftl x 8 + y)) 8 = x /\ u8 (u16 (Z.shiftl x 8 + y)) = y.
Proof.
  intros Hx Hy. rewrite Z.shiftl_mul_pow2 by lia. change (2 ^ 8) with 256.
  rewrite u16_small by lia. rewrite Z.shiftr_div_pow2 by lia.
  change (2 ^ 8) with 256. unfold u8. split.
  - symmetry. apply Z.div_unique with (r := y); lia.
  - symmetry. apply Z.mod_unique with (q := x); lia.
Qed.

(** X1. Reading a 16-bit field back after writing it yields the value cut
    to 16 bits, and reading a 24-bit field back yields the value cut to 24
    bits: the top byte of the 32-bit argument of TlsWriteUint24 is
    dropped. *)
Theorem codec_reads_back_what_was_written :
  forall (m : mem) (a v : Z),
    TlsReadUint16 (TlsWriteUint16 m a v) a = v mod 65536
    /\ TlsReadUint24 (TlsWriteUint24 m a v) a = v mod 16777216.
Proof.
  intros m a v. split.
  - apply TlsReadUint16_TlsWriteUint16_same.
  - apply TlsReadUint24_TlsWriteUint24_same.
Qed.

(** X2. The codec writes touch the two, respectively three, bytes of the
    field and no other byte, and writing back the value that was read
    leaves every byte as it was. *)
Theorem codec_writes_only_the_field :
  forall (m : mem) (a v b : Z),
    (b < a \/ a + 2 <= b -> load8 (TlsWriteUint16 m a v) b = load8 m b)
    /\ (b < a \/ a + 3 <= b -> load8 (TlsWriteUint24 m a v) b = load8 m b)
    /\ load8 (TlsWriteUint16 m a (TlsReadUint16 m a)) b = load8 m b
    /\ load8 (TlsWriteUint24 m a (TlsReadUint24 m a)) b = load8 m b.
Proof.
  intros m a v b.
  split; [apply load8_TlsWriteUint16_other |].
  split; [apply load8_TlsWriteUint24_other |].
  split.
  - unfold TlsWriteUint16, TlsReadUint16.
    pose proof (load8_range m a) as H0. pose proof (load8_range m (a + 1)) as H1.
    destruct (bytes_of_u16 _ _ H0 H1) as [E1 E2].
    rewrite u16_small by apply u16_range. rewrite E1.
    destruct (Z.eq_dec b (a + 1)) as [-> | Hb].
    + rewrite load8_store8_same. rewrite E2. reflexivity.
    + rewrite load8_store8_other by assumption. apply load8_store8_back.
  - unfold TlsWriteUint24.
    pose proof (TlsReadUint24_range m a) as Hr.
    rewrite u32_small by lia.
    assert (E : forall m' k x, load8 m' k = u8 x -> forall c,
                  load8 (store8 m' k x) c = load8 m' c).
    { intros m' k x Hk c. destruct (Z.eq_dec c k) as [-> | Hne].
      - rewrite load8_store8_same. symmetry. assumption.
      - apply load8_store8_other. assumption. }
    pose proof (load8_range m a) as H0. pose proof (load8_range m (a + 1)) as H1.
    pose proof (load8_range m (a + 2)) as H2.
    assert (V : TlsReadUint24 m a
                = 65536 * load8 m a + 256 * load8 m (a + 1) + load8 m (a + 2)).
    { unfold TlsReadUint24. rewrite !Z.shiftl_mul_pow2 by lia.
      change (2 ^ 16) with 65536. change (2 ^ 8) with 256.
      rewrite u32_small; lia. }
    assert (B0 : u8 (Z.shiftr (TlsReadUint24 m a) 16) = load8 m a).
    { rewrite Z.shiftr_div_pow2 by lia. change (2 ^ 16) with 65536.
      replace (TlsReadUint24 m a / 65536) with (load8 m a)
        by (apply Z.div_unique with (r := 256 * load8 m (a + 1) + load8 m (a + 2)); lia).
      apply u8_small. assumption. }
    assert (B1 : u8 (Z.shiftr (TlsReadUint24 m a) 8) = load8 m (a + 1)).
    { rewrite Z.shiftr_div_pow2 by lia. change (2 ^ 8) with 256.
      replace (TlsReadUint24 m a / 256) with (256 * load8 m a + load8 m (a + 1))
        by (apply Z.div_unique with (r := load8 m (a + 2)); lia).
      unfold u8. symmetry.
      apply Z.mod_unique with (q := load8 m a); lia. }
    assert (B2 : u8 (TlsReadUint24 m a) = load8 m (a + 2)).
    { unfold u8. symmetry.
      apply Z.mod_unique with (q := 256 * load8 m a + load8 m (a + 1)); lia. }
    rewrite E by (rewrite !load8_store8_other by lia; symmetry; exact B2).
    rewrite E by (rewrite load8_store8_other by lia; symmetry; exact B1).
    apply E. symmetry. exact B0.
Qed.


(** ** The stub AEAD *)

Lemma load8_store_u64_other m a v b :
  b < a \/ a + 8 <= b -> load8 (store_u64_host m a v) b = load8 m b.
Proof.
  intros H. unfold store_u64_host. cbn [fold_left seq].
  rewrite !load8_store8_other by lia. reflexivity.
Qed.

Lemma load8_store_u64_in m a v k :
  (k < 8)%nat ->
  load8 (store_u64_host m a v) (a + Z.of_nat k)
    = u8 (Z.shiftr v (8 * Z.of_nat k)).
Proof.
  intros Hk. unfold store_u64_host. cbn [fold_left seq].
  do 8 (destruct k as [| k];
        [ rewrite ?load8_store8_other by lia; apply load8_store8_same |]).
  lia.
Qed.

(** The sentinel as it lies in memory. *)
Lemma peek_sentinel m a :
  peek (store_u64_host m a MAGIC_NO_ENCRYPTION_VALUE) a 8
    = [0xF7; 0xF6; 0xF5; 0xF4; 0xF3; 0xF2; 0xF1; 0xF0].
Proof.
  unfold peek. change (Z.to_nat 8) with 8%nat. cbn [seq map].
  rewrite !load8_store_u64_in by lia. reflexivity.
Qed.

Lemma load_u64_host_bytes m a :
  load_u64_host m a = MAGIC_NO_ENCRYPTION_VALUE
  <-> peek m a 8 = [0xF7; 0xF6; 0xF5; 0xF4; 0xF3; 0xF2; 0xF1; 0xF0].
Proof.
  unfold load_u64_host, peek, MAGIC_NO_ENCRYPTION_VALUE.
  change (Z.to_nat 8) with 8%nat. cbn [seq map fold_right].
  generalize (load8_range m (a + Z.of_nat 0)), (load8_range m (a + Z.of_nat 1)),
    (load8_range m (a + Z.of_nat 2)), (load8_range m (a + Z.of_nat 3)),
    (load8_range m (a + Z.of_nat 4)), (load8_range m (a + Z.of_nat 5)),
    (load8_range m (a + Z.of_nat 6)), (load8_range m (a + Z.of_nat 7)).
  generalize (load8 m (a + Z.of_nat 0)), (load8 m (a + Z.of_nat 1)),
    (load8 m (a + Z.of_nat 2)), (load8 m (a + Z.of_nat 3)),
    (load8 m (a + Z.of_nat 4)), (load8 m (a + Z.of_nat 5)),
    (load8 m (a + Z.of_nat 6)), (load8 m (a + Z.of_nat 7)).
  intros b0 b1 b2 b3 b4 b5 b6 b7 H0 H1 H2 H3 H4 H5 H6 H7.
  split.
  - intros E. repeat f_equal; lia.
  - intros E.
    assert (b0 = 247 /\ b1 = 246 /\ b2 = 245 /\ b3 = 244
            /\ b4 = 243 /\ b5 = 242 /\ b6 = 241 /\ b7 = 240)
      as (-> & -> & -> & -> & -> & -> & -> & ->)
      by (repeat split; congruence).
    reflexivity.
Qed.

(** X3. Whatever QuicEncrypt has been applied to, QuicDecrypt of the same
    length accepts, and it does so under any key, IV and authenticated
    data, also other ones than those of the encryption. *)
Theorem decrypt_accepts_what_was_encrypted :
  forall (OVERHEAD : Z) (Key Key' : Z) (Iv Iv' : list Z)
         (AuthDataLength AuthDataLength' : Z) (AuthData AuthData' : list Z)
         (Length : Z) (B : mem),
    QuicDecrypt OVERHEAD Key' Iv' AuthDataLength' AuthData' Length
      (snd (QuicEncrypt OVERHEAD Key Iv AuthDataLength AuthData Length B))
    = QUIC_STATUS_SUCCESS.
Proof.
  intros. unfold QuicDecrypt, QuicEncrypt. cbn [snd].
  replace (load_u64_host _ _ =? _) with true; [reflexivity |].
  symmetry. apply Z.eqb_eq. apply load_u64_host_bytes. apply peek_sentinel.
Qed.

(** X4. QuicEncrypt always succeeds; it writes the eight bytes F7 F6 F5 F4
    F3 F2 F1 F0 at offset (BufferLength - overhead) mod 65536 and changes no
    other byte: the plaintext stays in the buffer as it was. *)
Theorem encrypt_writes_the_sentinel_only :
  forall (OVERHEAD : Z) (Key : Z) (Iv : list Z) (AuthDataLength : Z)
         (AuthData : list Z) (Length : Z) (B : mem),
    let p := (Length - OVERHEAD) mod 65536 in
    let r := QuicEncrypt OVERHEAD Key Iv AuthDataLength AuthData Length B in
    fst r = QUIC_STATUS_SUCCESS
    /\ peek (snd r) p 8 = [0xF7; 0xF6; 0xF5; 0xF4; 0xF3; 0xF2; 0xF1; 0xF0]
    /\ forall b, b < p \/ p + 8 <= b -> load8 (snd r) b = load8 B b.
Proof.
  intros. subst p r. unfold QuicEncrypt. cbn [fst snd]. fold (u16 (Length - OVERHEAD)).
  split; [reflexivity |]. split; [apply peek_sentinel |].
  intros b Hb. apply load8_store_u64_other. assumption.
Qed.

(** X5. QuicDecrypt succeeds exactly when the eight bytes at offset
    (BufferLength - overhead) mod 65536 are F7 F6 F5 F4 F3 F2 F1 F0, and
    fails with InvalidParameter otherwise; no other byte of the buffer and
    none of the other arguments has a say. *)
Theorem decrypt_checks_the_sentinel_only :
  forall (OVERHEAD : Z) (Key : Z) (Iv : list Z) (AuthDataLength : Z)
         (AuthData : list Z) (Length : Z) (B : mem),
    let p := (Length - OVERHEAD) mod 65536 in
    (QuicDecrypt OVERHEAD Key Iv AuthDataLength AuthData Length B
       = QUIC_STATUS_SUCCESS
     <-> peek B p 8 = [0xF7; 0xF6; 0xF5; 0xF4; 0xF3; 0xF2; 0xF1; 0xF0])
    /\ (QuicDecrypt OVERHEAD Key Iv AuthDataLength AuthData Length B
          = QUIC_STATUS_SUCCESS
        \/ QuicDecrypt OVERHEAD Key Iv AuthDataLength AuthData Length B
          = QUIC_STATUS_INVALID_PARAMETER).
Proof.
  intros. subst p. unfold QuicDecrypt. fold (u16 (Length - OVERHEAD)).
  rewrite <- load_u64_host_bytes.
  destruct (load_u64_host B _ =? _) eqn:E; cbn [negb].
  - apply Z.eqb_eq in E. split; [tauto | left; reflexivity].
  - apply Z.eqb_neq in E. split; [| right; reflexivity].
    split; [discriminate | contradiction].
Qed.

(** X6. A buffer shorter than the overhead: the 16-bit subtraction wraps,
    QuicEncrypt puts the sentinel at offset BufferLength + 65536 - overhead,
    behind the end of the buffer, and leaves the whole buffer as it was. *)
Theorem encrypt_of_short_buffer_writes_behind_it :
  forall (OVERHEAD : Z) (Key : Z) (Iv : list Z) (AuthDataLength : Z)
         (AuthData : list Z) (Length : Z) (B : mem),
    0 <= Length < OVERHEAD -> OVERHEAD <= 65536 ->
    let r := QuicEncrypt OVERHEAD Key Iv AuthDataLength AuthData Length B in
    fst r = QUIC_STATUS_SUCCESS
    /\ peek (snd r) (Length + 65536 - OVERHEAD) 8
         = [0xF7; 0xF6; 0xF5; 0xF4; 0xF3; 0xF2; 0xF1; 0xF0]
    /\ Length <= Length + 65536 - OVERHEAD
    /\ forall b, 0 <= b < Length -> load8 (snd r) b = load8 B b.
Proof.
  intros OVERHEAD Key Iv AuthDataLength AuthData Length B Hlen Hov r.
  subst r. unfold QuicEncrypt. cbn [fst snd].
  assert (E : u16 (Length - OVERHEAD) = Length + 65536 - OVERHEAD).
  { unfold u16. symmetry. apply Z.mod_unique with (q := -1); lia. }
  rewrite E. split; [reflexivity |]. split; [apply peek_sentinel |].
  split; [lia |]. intros b Hb. apply load8_store_u64_other. lia.
Qed.


(** ** Sessions and contexts as the API creates them *)

Lemma strlen_nonneg s : 0 <= strlen s.
Proof. induction s as [| c s IH]; cbn [strlen]; [lia |]. destruct (u8 c =? 0); lia. Qed.

Lemma strlen_of_terminated (n : list Z) :
  Forall (fun b => 0 < b < 256) n ->
  strlen (n ++ [0]) = Z.of_nat (length n).
Proof.
  induction 1 as [| b n Hb Hn IH]; [reflexivity |].
  cbn [strlen app length]. rewrite u8_small by lia.
  destruct (b =? 0) eqn:E; [apply Z.eqb_eq in E; lia |].
  rewrite IH. lia.
Qed.

Lemma firstn_of_terminated (n : list Z) (k : Z) :
  k = Z.of_nat (length n) -> firstn (Z.to_nat k) (n ++ [0]) = n.
Proof.
  intros ->. rewrite Nat2Z.id. rewrite firstn_app, Nat.sub_diag.
  cbn [firstn]. rewrite firstn_all, app_nil_r. reflexivity.
Qed.

(** X7. QuicTlsSessionInitialize never truncates: for a C string of at most
    65535 characters it yields the session that holds exactly these
    characters and their number, for a longer one it fails with
    InvalidParameter, and without memory it fails with OutOfMemory. *)
Theorem session_holds_the_whole_alpn :
  forall (alpn : list Z) (allocated : bool),
    Forall (fun b => 0 < b < 256) alpn ->
    (Z.of_nat (length alpn) <= 65535 ->
     QuicTlsSessionInitialize (alpn ++ [0]) allocated
       = if allocated then (QUIC_STATUS_SUCCESS, Some (Fresh.session alpn))
         else (QUIC_STATUS_OUT_OF_MEMORY, None))
    /\ (65535 < Z.of_nat (length alpn) ->
        QuicTlsSessionInitialize (alpn ++ [0]) allocated
          = (QUIC_STATUS_INVALID_PARAMETER, None)).
Proof.
  intros alpn allocated Hb. unfold QuicTlsSessionInitialize.
  rewrite strlen_of_terminated by assumption. split; intros Hlen.
  - destruct (Z.gtb_spec (Z.of_nat (length alpn)) 65535); [lia |].
    destruct allocated; cbn [negb]; [| reflexivity].
    rewrite firstn_of_terminated by reflexivity. reflexivity.
  - destruct (Z.gtb_spec (Z.of_nat (length alpn)) 65535); [reflexivity | lia].
Qed.

(** X8. QuicTlsInitialize on a shared configuration that is held (its
    count is positive and below the largest [long]).  With memory and a
    server name of at most QUIC_MAX_SNI_LENGTH characters (or none) it
    succeeds: the context is in state None, holds the role, session and
    transport parameters of the configuration and its own copy of the
    name, points to the shared configuration, and the count of that
    configuration is one higher than before.  A longer name is rejected
    with InvalidParameter, a name that cannot be copied or a context that
    cannot be allocated with OutOfMemory: then no context is handed out,
    the count is what it was and the configuration is not deleted. *)
Theorem initialize_copies_or_rejects_the_server_name :
  forall (QUIC_CERT : Type) (QUIC_SEC_CONFIG_FLAG_CERTIFICATE_CONTEXT : Z)
         (long : Z -> Z) (QUIC_MAX_SNI_LENGTH : Z) (isServer : bool)
         (alpn tp : list Z) (shared : SEC_CONFIG_OBJECT QUIC_CERT)
         (name : option (list Z)),
    (forall x, - 2 ^ 31 <= x < 2 ^ 31 -> long x = x) ->
    0 < RefCount (Config shared) < 2 ^ 31 - 1 ->
    0 <= QUIC_MAX_SNI_LENGTH ->
    (forall n, name = Some n -> Forall (fun b => 0 < b < 256) n) ->
    let Config_ :=
      {| cfg_IsServer := isServer; cfg_TlsSession := Fresh.session alpn;
         cfg_SecConfig := shared; cfg_LocalTPBuffer := tp;
         cfg_LocalTPLength := u32 (Z.of_nat (length tp));
         cfg_ServerName := option_map (fun n => n ++ [0]) name |} in
    let held := set_RefCount shared (RefCount (Config shared) + 1) in
    let QuicTlsInitialize :=
      QuicTlsInitialize QUIC_SEC_CONFIG_FLAG_CERTIFICATE_CONTEXT long
        QUIC_MAX_SNI_LENGTH in
    ((forall n, name = Some n -> Z.of_nat (length n) <= QUIC_MAX_SNI_LENGTH) ->
     QuicTlsInitialize Config_ true true
       = (QUIC_STATUS_SUCCESS,
          Some (Fresh.context isServer alpn (Config held) name tp),
          Some held, [])
     /\ (name <> None ->
         QuicTlsInitialize Config_ true false
           = (QUIC_STATUS_OUT_OF_MEMORY, None, Some shared, [])))
    /\ (forall n, name = Some n -> QUIC_MAX_SNI_LENGTH < Z.of_nat (length n) ->
        forall allocatedSNI,
          QuicTlsInitialize Config_ true allocatedSNI
            = (QUIC_STATUS_INVALID_PARAMETER, None, Some shared, []))
    /\ (forall allocatedSNI,
          QuicTlsInitialize Config_ false allocatedSNI
            = (QUIC_STATUS_OUT_OF_MEMORY, None, Some shared, [])).
Proof.
  intros QUIC_CERT CONTEXT long MAX isServer alpn tp shared name Hlong Hcount
    Hmax Hname Config_ held Initialize.
  assert (Hback : QuicTlsSecConfigRelease CONTEXT long
                    (QuicTlsSecConfigAddRef long shared)
                  = (Some shared, [])).
  { unfold QuicTlsSecConfigRelease, QuicTlsSecConfigAddRef,
      InterlockedIncrement, InterlockedDecrement.
    destruct shared as [rundown [count flags cert len buf]].
    cbn [set_RefCount Config RefCount CleanupRundown Flags Certificate
         FormatLength FormatBuffer] in *.
    rewrite (Hlong (count + 1)) by lia.
    rewrite (Hlong (count + 1 - 1)) by lia.
    destruct (Z.eqb_spec (count + 1 - 1) 0); [lia |].
    replace (count + 1 - 1) with count by lia. reflexivity. }
  assert (Hheld : QuicTlsSecConfigAddRef long shared = held).
  { unfold QuicTlsSecConfigAddRef, InterlockedIncrement. subst held.
    rewrite Hlong by lia. reflexivity. }
  subst Initialize Config_. unfold QuicTlsInitialize, strnlen.
  cbn [negb cfg_ServerName cfg_IsServer cfg_TlsSession cfg_SecConfig
       cfg_LocalTPBuffer cfg_LocalTPLength QUIC_FAILED].
  rewrite Hback, Hheld.
  destruct name as [n |]; cbn [option_map].
  - rewrite strlen_of_terminated by (apply Hname; reflexivity).
    split; [| split].
    + intros Hfit. specialize (Hfit n eq_refl).
      rewrite Z.min_l by lia.
      destruct (Z.eqb_spec (Z.of_nat (length n)) (MAX + 1)); [lia |].
      split; [| reflexivity].
      unfold Fresh.context, set_SNI. cbn [option_map]. repeat f_equal.
      replace (Z.to_nat (Z.of_nat (length n) + 1)) with (length (n ++ [0]))
        by (rewrite length_app; cbn [length]; lia).
      apply firstn_all.
    + intros n' [= <-] Hlong' allocatedSNI.
      rewrite Z.min_r by lia. rewrite Z.eqb_refl. reflexivity.
    + reflexivity.
  - split; [| split].
    + intros _. split; [reflexivity | congruence].
    + discriminate.
    + reflexivity.
Qed.

(** ** Packet keys *)

(** X9. QuicPacketKeyCreateInitial always succeeds and fills exactly the
    outputs that were asked for, each with a key of the Initial epoch; such
    a key is never accepted by QuicPacketKeyUpdate, which fails with
    InvalidState and leaves its output alone. *)
Theorem initial_keys_cannot_be_updated :
  forall (isServer : bool) (Salt : list Z) (CIDLength : Z) (CID : list Z)
         (ReadKey_ WriteKey_ : option (option QUIC_PACKET_KEY))
         (NewKey : option QUIC_PACKET_KEY),
    let r :=
      QuicPacketKeyCreateInitial isServer Salt CIDLength CID ReadKey_ WriteKey_ in
    fst (fst r) = QUIC_STATUS_SUCCESS
    /\ (snd (fst r) = None <-> ReadKey_ = None)
    /\ (snd r = None <-> WriteKey_ = None)
    /\ forall slot,
         snd (fst r) = Some slot \/ snd r = Some slot ->
         exists key,
           slot = Some key /\ KeyType key = QUIC_PACKET_KEY_INITIAL
           /\ QuicPacketKeyUpdate slot NewKey
                = (QUIC_STATUS_INVALID_STATE, NewKey).
Proof.
  intros. subst r. unfold QuicPacketKeyCreateInitial. cbn [fst snd].
  split; [reflexivity |].
  destruct ReadKey_, WriteKey_; (split; [split; congruence |]);
    (split; [split; congruence |]);
    intros slot [H | H]; try discriminate;
    injection H as <-; eexists; repeat split.
Qed.


(** ** Reads of the records of the handshake *)

Lemma load8_store_u16_host_other m a v b :
  b < a \/ a + 2 <= b -> load8 (store_u16_host m a v) b = load8 m b.
Proof.
  intros H. unfold store_u16_host. rewrite !load8_store8_other by lia.
  reflexivity.
Qed.

Lemma load_u16_host_store_u16_host m a v :
  load_u16_host (store_u16_host m a v) a = u16 v.
Proof.
  unfold load_u16_host, store_u16_host.
  rewrite load8_store8_other by lia. rewrite !load8_store8_same.
  pose proof (u16_range v) as Hr. rewrite shiftr8_u16.
  rewrite Z.shiftl_mul_pow2, Z.shiftr_div_pow2 by lia.
  change (2 ^ 8) with 256. unfold u8.
  pose proof (Z.div_mod (u16 v) 256 ltac:(lia)). lia.
Qed.

Lemma load8_store_EarlyDataAccepted_other m a v b :
  b <> a -> load8 (store_EarlyDataAccepted m a v) b = load8 m b.
Proof. intros H. apply load8_store8_other. assumption. Qed.

Lemma load_EarlyDataAccepted_store m a v :
  load_EarlyDataAccepted (store_EarlyDataAccepted m a v) a = v.
Proof.
  unfold load_EarlyDataAccepted, store_EarlyDataAccepted.
  rewrite load8_store8_same. unfold u8. change 256 with (2 ^ 8).
  rewrite Z.mod_pow2_bits_low by lia.
  rewrite Z.lor_spec, Z.land_spec.
  change (Z.testbit 253 1) with false. rewrite Bool.andb_false_r.
  destruct v; reflexivity.
Qed.

Lemma TlsReadUint24_ext m m' a :
  (forall b, a <= b < a + 3 -> load8 m' b = load8 m b) ->
  TlsReadUint24 m' a = TlsReadUint24 m a.
Proof. intros H. unfold TlsReadUint24. rewrite !H by lia. reflexivity. Qed.

Lemma TlsReadUint16_ext m m' a :
  (forall b, a <= b < a + 2 -> load8 m' b = load8 m b) ->
  TlsReadUint16 m' a = TlsReadUint16 m a.
Proof. intros H. unfold TlsReadUint16. rewrite !H by lia. reflexivity. Qed.

Lemma load_u16_host_ext m m' a :
  (forall b, a <= b < a + 2 -> load8 m' b = load8 m b) ->
  load_u16_host m' a = load_u16_host m a.
Proof. intros H. unfold load_u16_host. rewrite !H by lia. reflexivity. Qed.

Lemma load_EarlyDataAccepted_ext m m' a :
  load8 m' a = load8 m a ->
  load_EarlyDataAccepted m' a = load_EarlyDataAccepted m a.
Proof. intros H. unfold load_EarlyDataAccepted. rewrite H. reflexivity. Qed.

(** Strip the stores that do not touch the byte that is loaded. *)
Ltac strip_load8 :=
  repeat first
    [ rewrite load8_store8_other by lia
    | rewrite load8_memcpy_out by lia
    | rewrite load8_TlsWriteUint16_other by lia
    | rewrite load8_TlsWriteUint24_other by lia
    | rewrite load8_store_u16_host_other by lia
    | rewrite load8_store_EarlyDataAccepted_other by lia ].

(** Bring a read of several bytes down to the store that wrote them. *)
Ltac down_to_store :=
  first
    [ erewrite TlsReadUint24_ext; [| intros; strip_load8; reflexivity]
    | erewrite TlsReadUint16_ext; [| intros; strip_load8; reflexivity]
    | erewrite load_u16_host_ext; [| intros; strip_load8; reflexivity]
    | erewrite load_EarlyDataAccepted_ext; [| strip_load8; reflexivity]
    | erewrite peek_ext; [| intros; strip_load8; reflexivity] ].

Lemma load8_shift m k a : load8 (shift m k) a = load8 m (k + a).
Proof. reflexivity. Qed.

Lemma TlsReadUint24_shift m k a :
  TlsReadUint24 (shift m k) a = TlsReadUint24 m (k + a).
Proof.
  unfold TlsReadUint24. rewrite !load8_shift.
  replace (k + (a + 1)) with (k + a + 1) by lia.
  replace (k + (a + 2)) with (k + a + 2) by lia. reflexivity.
Qed.

Lemma load_u16_host_shift m k a :
  load_u16_host (shift m k) a = load_u16_host m (k + a).
Proof.
  unfold load_u16_host. rewrite !load8_shift.
  replace (k + (a + 1)) with (k + a + 1) by lia. reflexivity.
Qed.

Lemma peek_shift m k a n : peek (shift m k) a n = peek m (k + a) n.
Proof.
  unfold peek. apply map_ext. intros i. rewrite load8_shift.
  f_equal. lia.
Qed.



(** Linear arithmetic with what is known of every 16-bit cut. *)
Ltac u16_lia :=
  repeat match goal with
         | H : (_ <? _) = true |- _ => apply Z.ltb_lt in H
         | H : (_ <? _) = false |- _ => apply Z.ltb_ge in H
         end;
  cbn [MinMessageLengths] in *; unfold MAX_PARAM_LENGTH in *;
  repeat match goal with
         | |- context [u16 ?x] =>
           lazymatch goal with
           | _ : 0 <= u16 x < 65536 /\ _ |- _ => fail
           | _ => pose proof (u16_cases x)
           end
         | _ : context [u16 ?x] |- _ =>
           lazymatch goal with
           | _ : 0 <= u16 x < 65536 /\ _ |- _ => fail
           | _ => pose proof (u16_cases x)
           end
         end;
  lia.

(** Settle a comparison that stands in the goal. *)
Ltac settle_ltb :=
  match goal with
  | |- context [?x <? ?y] =>
    first
      [ replace (x <? y) with false by (symmetry; apply Z.ltb_ge; u16_lia)
      | replace (x <? y) with true by (symmetry; apply Z.ltb_lt; u16_lia) ]
  end.


Section Further.

Context {QUIC_CERT : Type}.
Variable QuicCertSelect : option QUIC_CERT -> list Z -> bool.
Variable QuicCertParseChain : Z -> list Z -> option QUIC_CERT.
Variable QuicCertValidateChain : QUIC_CERT -> option (list Z) -> Z -> bool.
Variable QUIC_CERTIFICATE_FLAG_DISABLE_CERT_VALIDATION : Z.

(** The build of the program: debug or not. *)
Variable DBG : bool.

Local Abbreviation ServerProcess := (QuicTlsServerProcess QuicCertSelect DBG).
Local Abbreviation ClientProcess :=
  (QuicTlsClientProcess QuicCertParseChain QuicCertValidateChain
     QUIC_CERTIFICATE_FLAG_DISABLE_CERT_VALIDATION).
Local Abbreviation ProcessData :=
  (QuicTlsProcessData QuicCertSelect QuicCertParseChain QuicCertValidateChain
     QUIC_CERTIFICATE_FLAG_DISABLE_CERT_VALIDATION DBG).
Local Abbreviation loop_preserves :=
  (ParseExtList_preserves QuicCertParseChain
     QUIC_CERTIFICATE_FLAG_DISABLE_CERT_VALIDATION).

(** ** The extension loop *)

Lemma ParseExtList_returns fuel :
  forall (c : QUIC_TLS QUIC_CERT) s B ExtList ExtListLength,
    (Z.to_nat ExtListLength <= fuel)%nat ->
    ExtListLength < 65536 ->
    ~ ExtListOffends B ExtList ExtListLength ->
    exists c' s', ParseExtList fuel c s B ExtList ExtListLength = Done (c', s').
Proof.
  induction fuel as [| fuel IH]; intros c s B ExtList len Hfuel Hlen Hok.
  - rewrite ParseExtList_nonpos by lia. eauto.
  - destruct (Z.ltb_spec 0 len) as [Hpos | Hneg];
      [| rewrite ParseExtList_nonpos by lia; eauto].
    pose proof (TlsReadUint16_range B (ExtList + 2)) as Hr.
    destruct (Z.leb_spec (TlsReadUint16 B (ExtList + 2) + 4) len) as [Hfit | Hlong];
      [| exfalso; apply Hok; apply offends_length; lia].
    destruct (recognized (TlsReadUint16 B ExtList)) eqn:Hrec;
      [| exfalso; apply Hok; apply offends_type; assumption].
    assert (Hrest : ~ ExtListOffends B
                        (ExtList + (TlsReadUint16 B (ExtList + 2) + 4))
                        (len - (TlsReadUint16 B (ExtList + 2) + 4))).
    { intros Hbad. apply Hok. apply offends_later; assumption. }
    rewrite ParseExtList_turn by lia. cbv zeta. unfold bind.
    rewrite (u16_small (len - _)) by lia.
    unfold recognized in Hrec.
    destruct (_ =? TlsExt_ServerName); [cbn [fst snd]; apply IH; lia || assumption |].
    destruct (_ =? TlsExt_AppProtocolNegotiation);
      [cbn [fst snd]; apply IH; lia || assumption |].
    destruct (_ =? TlsExt_SessionTicket);
      [cbn [fst snd]; apply IH; lia || assumption |].
    destruct (_ =? TlsExt_QuicTransportParameters);
      [cbn [fst snd]; apply IH; lia || assumption |].
    discriminate Hrec.
Qed.

Lemma ParseExtList_aborted fuel :
  forall (c : QUIC_TLS QUIC_CERT) s B ExtList ExtListLength,
    ExtListLength < 65536 ->
    ParseExtList fuel c s B ExtList ExtListLength = Fault FreAssert ->
    ExtListOffends B ExtList ExtListLength.
Proof.
  induction fuel as [| fuel IH]; intros c s B ExtList len Hlen H.
  - cbn [ParseExtList] in H. destruct (len >? 0); discriminate.
  - destruct (Z.ltb_spec 0 len) as [Hpos | Hneg];
      [| rewrite ParseExtList_nonpos in H by lia; discriminate].
    pose proof (TlsReadUint16_range B (ExtList + 2)) as Hr.
    destruct (Z.leb_spec (TlsReadUint16 B (ExtList + 2) + 4) len) as [Hfit | Hlong];
      [| apply offends_length; lia].
    destruct (recognized (TlsReadUint16 B ExtList)) eqn:Hrec;
      [| apply offends_type; assumption].
    apply offends_later; try assumption.
    rewrite ParseExtList_turn in H by lia. cbv zeta in H. unfold bind in H.
    rewrite (u16_small (len - _)) in H by lia.
    unfold recognized in Hrec.
    destruct (_ =? TlsExt_ServerName);
      [cbn [fst snd] in H; apply IH in H; [assumption | lia] |].
    destruct (_ =? TlsExt_AppProtocolNegotiation);
      [cbn [fst snd] in H; apply IH in H; [assumption | lia] |].
    destruct (_ =? TlsExt_SessionTicket);
      [cbn [fst snd] in H; apply IH in H; [assumption | lia] |].
    destruct (_ =? TlsExt_QuicTransportParameters);
      [cbn [fst snd] in H; apply IH in H; [assumption | lia] |].
    discriminate Hrec.
Qed.

(** X10. The extension loop of the server, over a declared list length
    below 65536, has two outcomes and no third: it returns when the walk by
    declared lengths meets recognized types only and each extension fits
    what is left, and it aborts on the release assertion exactly when the
    walk meets an offender. *)
Theorem extension_loop_returns_or_aborts :
  forall (c : QUIC_TLS QUIC_CERT) (s : QUIC_TLS_PROCESS_STATE) (B : mem)
         (ExtList ExtListLength : Z),
    ExtListLength < 65536 ->
    (ExtListOffends B ExtList ExtListLength
     <-> ParseExtList (Z.to_nat ExtListLength) c s B ExtList ExtListLength
           = Fault FreAssert)
    /\ (~ ExtListOffends B ExtList ExtListLength
        <-> exists c' s',
              ParseExtList (Z.to_nat ExtListLength) c s B ExtList ExtListLength
                = Done (c', s')).
Proof.
  intros c s B ExtList len Hlen.
  assert (Hbad : ExtListOffends B ExtList len ->
                 ParseExtList (Z.to_nat len) c s B ExtList len = Fault FreAssert)
    by (intros H; apply ParseExtList_offends; [assumption | lia | assumption]).
  split; split.
  - exact Hbad.
  - apply ParseExtList_aborted. assumption.
  - intros H. apply ParseExtList_returns; [lia | assumption | assumption].
  - intros (c' & s' & E) H. rewrite (Hbad H) in E. discriminate.
Qed.

(** ** Messages a state does not act on *)

(** X11. A message that passes the validity gate but is not one the role
    acts on in its state (a wrong type byte, a ClientHandshake whose
    success byte is zero, or any message once the role has left its
    sequence) is answered with the Error flag alone: nothing is consumed
    and context and process state stay as they were.  The one exception is
    the server in state None, which aborts on the release assertion. *)
Theorem unacceptable_message_is_an_error :
  forall (c : QUIC_TLS QUIC_CERT) (B : mem) (InLength : Z)
         (s : QUIC_TLS_PROCESS_STATE),
    QuicTlsHasValidMessageToProcess c InLength B = true ->
    BufferLength s < BufferAllocLength s ->
    acceptable c B = false ->
    if IsServer c && is_INVALID (LastMessageType c)
    then ProcessData c B InLength s = Fault FreAssert
    else ProcessData c B InLength s
           = Done {| r_TlsContext := c;
                     r_ResultFlags := QUIC_TLS_RESULT_ERROR;
                     r_State := s; r_BufferLength := 0 |}.
Proof.
  intros c B InLength s Hgate Hroom Hacc.
  unfold QuicTlsProcessData. rewrite Hgate.
  unfold QuicTlsServerProcess, QuicTlsClientProcess, bind, QUIC_DBG_ASSERT,
    QUIC_FRE_ASSERT.
  apply Z.ltb_lt in Hroom. rewrite Hroom.
  unfold acceptable in Hacc.
  destruct (IsServer c), (LastMessageType c); cbn [andb is_INVALID];
    try discriminate Hacc; try reflexivity.
  - rewrite Hacc. reflexivity.
  - destruct (load8 B Off.Type_ =? _); [| reflexivity].
    cbn [andb] in Hacc. apply Bool.negb_false_iff in Hacc. rewrite Hacc.
    reflexivity.
  - apply Bool.orb_false_iff in Hacc as [H1 H2]. rewrite H1, H2. reflexivity.
  - rewrite Hacc. reflexivity.
Qed.

(** ** Keys *)

(** The loop touches the two early-data flags of the state and nothing
    else of it. *)
Lemma ParseExtList_state fuel :
  forall (c : QUIC_TLS QUIC_CERT) s B ExtList ExtListLength c' s',
    ParseExtList fuel c s B ExtList ExtListLength = Done (c', s') ->
    s' = s \/ s' = set_EarlyData s true true.
Proof.
  induction fuel as [| fuel IH]; intros c s B ExtList ExtListLength c' s' H;
    cbn [ParseExtList] in H; destruct (ExtListLength >? 0); try discriminate;
    try (apply Done_inj in H; injection H as <- <-; left; reflexivity).
  unfold bind, QUIC_FRE_ASSERT in H.
  destruct (_ <=? ExtListLength); [| discriminate].
  repeat (break_in H; try discriminate); cbn [fst snd] in H;
    apply IH in H; try assumption.
  destruct H as [-> | ->]; right; reflexivity.
Qed.

Lemma set_key_matches t k key :
  (forall i v, t i = Some v -> KeyType v = i) ->
  KeyType key = k ->
  forall i v, set_key t k key i = Some v -> KeyType v = i.
Proof.
  intros Ht Hk i v. unfold set_key.
  destruct (key_type_eqb i k) eqn:E.
  - intros [= <-]. rewrite Hk. destruct i, k; try discriminate; reflexivity.
  - apply Ht.
Qed.

Lemma keys_match_slots_intro s :
  (forall i v, ReadKeys s i = Some v -> KeyType v = i) ->
  (forall i v, WriteKeys s i = Some v -> KeyType v = i) ->
  keys_match_slots s.
Proof. intros Hr Hw k key [H | H]; [apply Hr | apply Hw]; assumption. Qed.

Lemma keys_match_slots_elim s :
  keys_match_slots s ->
  (forall i v, ReadKeys s i = Some v -> KeyType v = i)
  /\ (forall i v, WriteKeys s i = Some v -> KeyType v = i).
Proof. intros H. split; intros i v E; apply H; auto. Qed.

(** Discharge [keys_match_slots] of a state built by the updates of a
    processing call from a state [s] that has it. *)
Ltac keys :=
  apply keys_match_slots_intro; fields;
  repeat first
    [ assumption
    | apply set_key_matches; [| reflexivity] ].

(** X12. Processing keeps the key tables sorted by epoch: if every key sits
    in the slot of its own epoch before a call, so it does after it.  Hence
    of the keys the handshake installs QuicPacketKeyUpdate accepts those in
    the 1-RTT slots and no other. *)
Theorem keys_stay_in_their_slots :
  forall (c : QUIC_TLS QUIC_CERT) (B : mem) (InLength : Z)
         (s : QUIC_TLS_PROCESS_STATE) (r : PROCESS_RESULT QUIC_CERT),
    keys_match_slots s ->
    ProcessData c B InLength s = Done r ->
    keys_match_slots (r_State r)
    /\ forall k key NewKey,
         ReadKeys (r_State r) k = Some key
         \/ WriteKeys (r_State r) k = Some key ->
         (k = QUIC_PACKET_KEY_1_RTT ->
          fst (QuicPacketKeyUpdate (Some key) NewKey) = QUIC_STATUS_SUCCESS)
         /\ (k <> QUIC_PACKET_KEY_1_RTT ->
             QuicPacketKeyUpdate (Some key) NewKey
               = (QUIC_STATUS_INVALID_STATE, NewKey)).
Proof.
  intros c B InLength s r Hs H.
  assert (Hr : keys_match_slots (r_State r)).
  { apply keys_match_slots_elim in Hs. destruct Hs as [HR HW].
    unfold QuicTlsProcessData in H.
    destruct (QuicTlsHasValidMessageToProcess c InLength B);
      [| returned H; keys].
    destruct (IsServer c).
    - unfold QuicTlsServerProcess, bind, QUIC_DBG_ASSERT, QUIC_FRE_ASSERT in H.
      destruct (BufferLength s <? BufferAllocLength s); [| discriminate].
      destruct (LastMessageType c); try (returned H; keys).
      + destruct (load8 B Off.Type_ =? _); [| discriminate].
        destruct (ParseExtList _ _ _ _ _ _) as [[c' s'] |] eqn:P; [| discriminate].
        apply ParseExtList_state in P.
        assert (HR' : forall i v, ReadKeys s' i = Some v -> KeyType v = i)
          by (destruct P as [-> | ->]; exact HR).
        assert (HW' : forall i v, WriteKeys s' i = Some v -> KeyType v = i)
          by (destruct P as [-> | ->]; exact HW).
        destruct (SecConfig c');
          unfold ServerFirstFlight in H;
          repeat (break_in H; try discriminate); returned H; keys.
      + repeat (break_in H; try discriminate); returned H; keys.
    - unfold QuicTlsClientProcess, ClientFirstFlight, bind, QUIC_DBG_ASSERT in H.
      destruct (BufferLength s <? BufferAllocLength s); [| discriminate].
      destruct (LastMessageType c);
        repeat (break_in H; try discriminate); returned H; keys. }
  split; [exact Hr |].
  intros k key NewKey Hk. apply Hr in Hk.
  unfold QuicPacketKeyUpdate. rewrite Hk. split.
  - intros ->. reflexivity.
  - intros Hne. destruct k; try reflexivity. contradiction.
Qed.

(** ** What the loop changes of the context *)

Lemma ParseExtList_context fuel :
  forall (c : QUIC_TLS QUIC_CERT) s B ExtList ExtListLength c' s',
    ParseExtList fuel c s B ExtList ExtListLength = Done (c', s') ->
    TlsSession c' = TlsSession c
    /\ LocalTPBuffer c' = LocalTPBuffer c
    /\ LocalTPLength c' = LocalTPLength c.
Proof.
  induction fuel as [| fuel IH]; intros c s B ExtList ExtListLength c' s' H;
    cbn [ParseExtList] in H; destruct (ExtListLength >? 0); try discriminate;
    try (apply Done_inj in H; injection H as <- <-; tauto).
  unfold bind, QUIC_FRE_ASSERT in H.
  destruct (_ <=? ExtListLength); [| discriminate].
  repeat (break_in H; try discriminate); cbn [fst snd] in H;
    apply IH in H; fields; tauto.
Qed.

(** ** The ticket *)

(** X13. The ticket becomes ready in one way only: a client that has sent
    its ClientHandshake processes a Ticket record, which is also the only
    call that reports the Ticket flag.  From then on QuicTlsReadTicket into
    any non-empty buffer succeeds with the single byte FF, while before it
    fails with InvalidState and leaves length and buffer alone. *)
Theorem ticket_is_ready_after_a_ticket_record :
  forall (c : QUIC_TLS QUIC_CERT) (B : mem) (InLength : Z)
         (s : QUIC_TLS_PROCESS_STATE) (r : PROCESS_RESULT QUIC_CERT),
    ProcessData c B InLength s = Done r ->
    (has_flag (r_ResultFlags r) QUIC_TLS_RESULT_TICKET = true ->
     IsServer c = false
     /\ LastMessageType c = QUIC_TLS_MESSAGE_CLIENT_HANDSHAKE
     /\ load8 B Off.Type_ = msg_code QUIC_TLS_MESSAGE_TICKET
     /\ forall len m, len <> 0 ->
          exists m',
            QuicTlsReadTicket (r_TlsContext r) len (Some m)
              = (QUIC_STATUS_SUCCESS, 1, Some m')
            /\ load8 m' 0 = 0xFF)
    /\ (has_flag (r_ResultFlags r) QUIC_TLS_RESULT_TICKET = false ->
        TicketReady (r_TlsContext r) = TicketReady c)
    /\ (TicketReady (r_TlsContext r) = false ->
        forall len buf,
          QuicTlsReadTicket (r_TlsContext r) len buf
            = (QUIC_STATUS_INVALID_STATE, len, buf)).
Proof.
  intros c B InLength s r H.
  assert (Hcases :
    (has_flag (r_ResultFlags r) QUIC_TLS_RESULT_TICKET = false
     /\ TicketReady (r_TlsContext r) = TicketReady c)
    \/ (has_flag (r_ResultFlags r) QUIC_TLS_RESULT_TICKET = true
        /\ TicketReady (r_TlsContext r) = true
        /\ IsServer c = false
        /\ LastMessageType c = QUIC_TLS_MESSAGE_CLIENT_HANDSHAKE
        /\ load8 B Off.Type_ = msg_code QUIC_TLS_MESSAGE_TICKET)).
  { unfold QuicTlsProcessData in H.
    destruct (QuicTlsHasValidMessageToProcess c InLength B);
      [| returned H; left; split; reflexivity].
    destruct (IsServer c) eqn:R.
    - left.
      unfold QuicTlsServerProcess, bind, QUIC_DBG_ASSERT, QUIC_FRE_ASSERT in H.
      destruct (BufferLength s <? BufferAllocLength s); [| discriminate].
      destruct (LastMessageType c);
        try (returned H; split; reflexivity).
      + destruct (load8 B Off.Type_ =? _); [| discriminate].
        destruct (ParseExtList _ _ _ _ _ _) as [[c' s'] |] eqn:P; [| discriminate].
        apply loop_preserves in P. destruct P as [(_ & _ & _ & Ht) _].
        destruct (SecConfig c');
          unfold ServerFirstFlight in H;
          repeat (break_in H; try discriminate); returned H;
          (split; [reflexivity | assumption]).
      + repeat (break_in H; try discriminate); returned H; split; reflexivity.
    - unfold QuicTlsClientProcess, ClientFirstFlight, bind, QUIC_DBG_ASSERT in H.
      destruct (BufferLength s <? BufferAllocLength s); [| discriminate].
      destruct (LastMessageType c) eqn:L;
        repeat (break_in H; try discriminate); returned H;
        try (left; split; reflexivity).
      right. repeat split; try reflexivity.
      match goal with
      | E : negb (_ =? _) = false |- _ =>
        apply Bool.negb_false_iff, Z.eqb_eq in E; exact E
      end. }
  split; [| split].
  - intros Hf. destruct Hcases as [[Hn _] | (_ & Ht & Hr & Hl & Hb)];
      [congruence |].
    repeat split; try assumption.
    intros len m Hlen. unfold QuicTlsReadTicket. rewrite Ht. cbn [negb].
    destruct (Z.eqb_spec len 0); [contradiction |].
    eexists. split; [reflexivity |]. apply load8_store8_same.
  - intros Hf. destruct Hcases as [[_ Ht] | (Hy & _)]; [assumption | congruence].
  - intros Ht len buf. unfold QuicTlsReadTicket. rewrite Ht. reflexivity.
Qed.

(** ** What no operation changes *)

Local Abbreviation run_step :=
  (apply_op QuicCertSelect QuicCertParseChain QuicCertValidateChain
     QUIC_CERTIFICATE_FLAG_DISABLE_CERT_VALIDATION DBG).
Local Abbreviation along :=
  (every_step QuicCertSelect QuicCertParseChain QuicCertValidateChain
     QUIC_CERTIFICATE_FLAG_DISABLE_CERT_VALIDATION DBG).

Lemma every_step_of_each (P : handshake QUIC_CERT -> operation
                              -> handshake QUIC_CERT -> Prop) :
  (forall h o h', run_step h o = Done h' -> P h o h') ->
  forall ops h, along P h ops.
Proof.
  intros HP. induction ops as [| o ops IH]; intros h; cbn [every_step];
    [exact I |].
  destruct (apply_op _ _ _ _ _ h o) as [h' |] eqn:E; [| exact I].
  split; [apply HP; assumption | apply IH].
Qed.

Lemma ProcessData_keeps c B InLength s r :
  ProcessData c B InLength s = Done r ->
  (IsServer (r_TlsContext r) = IsServer c
   /\ TlsSession (r_TlsContext r) = TlsSession c
   /\ LocalTPBuffer (r_TlsContext r) = LocalTPBuffer c
   /\ LocalTPLength (r_TlsContext r) = LocalTPLength c)
  /\ (TicketReady c = true -> TicketReady (r_TlsContext r) = true)
  /\ BufferAllocLength (r_State r) = BufferAllocLength s
  /\ (HandshakeComplete s = true -> HandshakeComplete (r_State r) = true)
  /\ (IsServer c = true -> HandshakeComplete (r_State r) = HandshakeComplete s).
Proof.
  intros H. unfold QuicTlsProcessData in H.
  destruct (QuicTlsHasValidMessageToProcess c InLength B);
    [| returned H; tauto].
  destruct (IsServer c) eqn:R.
  - unfold QuicTlsServerProcess, bind, QUIC_DBG_ASSERT, QUIC_FRE_ASSERT in H.
    destruct (BufferLength s <? BufferAllocLength s); [| discriminate].
    destruct (LastMessageType c); try (returned H; tauto).
    + destruct (load8 B Off.Type_ =? _); [| discriminate].
      destruct (ParseExtList _ _ _ _ _ _) as [[c' s'] |] eqn:P; [| discriminate].
      pose proof (loop_preserves _ _ _ _ _ _ _ _ P)
        as [(Hr & _ & _ & Ht) (_ & Ha & _ & _)].
      pose proof (ParseExtList_context _ _ _ _ _ _ _ _ P) as (Hs & Hb & Hl).
      assert (Hc : HandshakeComplete s' = HandshakeComplete s)
        by (apply ParseExtList_state in P; destruct P as [-> | ->]; reflexivity).
      fields.
      destruct (SecConfig c');
        unfold ServerFirstFlight in H;
        repeat (break_in H; try discriminate); returned H;
        rewrite ?Hr, ?Ht, ?Ha, ?Hs, ?Hb, ?Hl, ?Hc; tauto.
    + repeat (break_in H; try discriminate); returned H; tauto.
  - unfold QuicTlsClientProcess, ClientFirstFlight, bind, QUIC_DBG_ASSERT in H.
    destruct (BufferLength s <? BufferAllocLength s); [| discriminate].
    destruct (LastMessageType c);
      repeat (break_in H; try discriminate); returned H;
      repeat split; try reflexivity; try discriminate; auto.
Qed.

(** X14. Along every sequence of processing calls and resets, no step
    changes the role, the session, the local transport parameters or the
    capacity of the buffer; a ticket that is ready stays ready and a
    handshake marked complete stays complete (a reset clears neither); and
    no step of a server touches the handshake-complete mark of the process
    state, which only the client sets. *)
Theorem what_no_step_changes :
  forall (ops : list operation) (h : handshake QUIC_CERT),
    along
      (fun h o h' =>
         (IsServer (h_TlsContext h') = IsServer (h_TlsContext h)
          /\ TlsSession (h_TlsContext h') = TlsSession (h_TlsContext h)
          /\ LocalTPBuffer (h_TlsContext h') = LocalTPBuffer (h_TlsContext h)
          /\ LocalTPLength (h_TlsContext h') = LocalTPLength (h_TlsContext h))
         /\ (TicketReady (h_TlsContext h) = true ->
             TicketReady (h_TlsContext h') = true)
         /\ BufferAllocLength (h_State h') = BufferAllocLength (h_State h)
         /\ (HandshakeComplete (h_State h) = true ->
             HandshakeComplete (h_State h') = true)
         /\ (IsServer (h_TlsContext h) = true ->
             HandshakeComplete (h_State h')
               = HandshakeComplete (h_State h)))
      h ops.
Proof.
  apply every_step_of_each. intros h o h' E.
  destruct o as [B InLength |]; cbn [apply_op] in E; unfold bind in E.
  - destruct (QuicTlsProcessData _ _ _ _ _ _ _ _ _) as [r |] eqn:P;
      [| discriminate].
    apply Done_inj in E. rewrite <- E. cbn [h_TlsContext h_State].
    apply (ProcessData_keeps _ _ _ _ _ P).
  - unfold QuicTlsReset, bind, QUIC_DBG_ASSERT in E.
    destruct DBG;
      [destruct (negb (IsServer (h_TlsContext h))); [| discriminate] |];
      apply Done_inj in E; rewrite <- E; cbn [h_TlsContext h_State]; fields;
      tauto.
Qed.

(** ** The bytes consumed *)

Lemma success_consumes_the_record c B InLength s r :
  QuicTlsHasValidMessageToProcess c InLength B = true ->
  ProcessData c B InLength s = Done r ->
  has_flag (r_ResultFlags r) QUIC_TLS_RESULT_ERROR = false ->
  IsServer c = true \/ LastMessageType c <> QUIC_TLS_MESSAGE_INVALID ->
  r_BufferLength r = DrainLengthOf B.
Proof.
  intros G H. unfold QuicTlsProcessData in H. rewrite G in H.
  destruct (IsServer c) eqn:R.
  - intros HE _.
    unfold QuicTlsServerProcess, bind, QUIC_DBG_ASSERT, QUIC_FRE_ASSERT in H.
    destruct (BufferLength s <? BufferAllocLength s); [| discriminate].
    destruct (LastMessageType c);
      try (returned H; discriminate HE).
    + destruct (load8 B Off.Type_ =? _); [| discriminate].
      destruct (ParseExtList _ _ _ _ _ _) as [[c' s'] |]; [| discriminate].
      destruct (SecConfig c');
        unfold ServerFirstFlight in H;
        repeat (break_in H; try discriminate); returned H;
        first [reflexivity | discriminate HE].
    + repeat (break_in H; try discriminate); returned H;
        first [reflexivity | discriminate HE].
  - intros HE [Hs | Hl]; [discriminate |].
    unfold QuicTlsClientProcess, bind, QUIC_DBG_ASSERT in H.
    destruct (BufferLength s <? BufferAllocLength s); [| discriminate].
    destruct (LastMessageType c); try contradiction;
      repeat (break_in H; try discriminate); returned H;
      first [reflexivity | discriminate HE].
Qed.

(** X15. A call that passes the gate, consumes a message (any call but
    the first flight of the client) and reports no Error, on a message
    whose declared length plus 4 is below 65536, reports exactly that many
    bytes consumed, and they are within the input. *)
Theorem consumed_is_the_framed_length :
  forall (c : QUIC_TLS QUIC_CERT) (B : mem) (InLength : Z)
         (s : QUIC_TLS_PROCESS_STATE) (r : PROCESS_RESULT QUIC_CERT),
    QuicTlsHasValidMessageToProcess c InLength B = true ->
    ProcessData c B InLength s = Done r ->
    has_flag (r_ResultFlags r) QUIC_TLS_RESULT_ERROR = false ->
    IsServer c = true \/ LastMessageType c <> QUIC_TLS_MESSAGE_INVALID ->
    TlsReadUint24 B Off.Length + 4 < 65536 ->
    r_BufferLength r = TlsReadUint24 B Off.Length + 4
    /\ r_BufferLength r <= InLength.
Proof.
  intros c B InLength s r G H HE Hrole Hsmall.
  rewrite (success_consumes_the_record _ _ _ _ _ G H HE Hrole).
  rewrite DrainLengthOf_exact by assumption. split; [reflexivity |].
  unfold QuicTlsHasValidMessageToProcess in G.
  assert (E : negb (IsServer c) && is_INVALID (LastMessageType c)
              && (InLength =? 0) = false).
  { destruct (IsServer c); [reflexivity |].
    destruct (LastMessageType c); try reflexivity.
    destruct Hrole; [discriminate | contradiction]. }
  rewrite E in G. destruct (InLength <? 7); [discriminate |].
  pose proof (TlsReadUint24_range B Off.Length).
  rewrite u32_small in G by lia.
  destruct (Z.ltb_spec InLength (TlsReadUint24 B Off.Length + 4));
    [discriminate | assumption].
Qed.

(** ** Servers keep the bound *)

Lemma every_step_invariant (Inv : handshake QUIC_CERT -> Prop)
    (P : handshake QUIC_CERT -> operation -> handshake QUIC_CERT -> Prop) :
  (forall h o h', Inv h -> run_step h o = Done h' -> Inv h' /\ P h o h') ->
  forall ops h, Inv h -> along P h ops.
Proof.
  intros HP. induction ops as [| o ops IH]; intros h Hh; cbn [every_step];
    [exact I |].
  destruct (apply_op _ _ _ _ _ h o) as [h' |] eqn:E; [| exact I].
  destruct (HP h o h' Hh E) as [Hh' HP']. split; [assumption | apply IH; assumption].
Qed.

Lemma ProcessData_of_server c B InLength s r :
  IsServer c = true ->
  ProcessData c B InLength s = Done r ->
  (SecConfig (r_TlsContext r) = SecConfig c \/ SecConfig (r_TlsContext r) = None)
  /\ (0 <= BufferLength s -> 0 <= BufferLength (r_State r)).
Proof.
  intros R H. unfold QuicTlsProcessData in H. rewrite R in H.
  destruct (QuicTlsHasValidMessageToProcess c InLength B);
    [| returned H; tauto].
  unfold QuicTlsServerProcess, bind, QUIC_DBG_ASSERT, QUIC_FRE_ASSERT in H.
  destruct (BufferLength s <? BufferAllocLength s); [| discriminate].
  destruct (LastMessageType c); try (returned H; tauto).
  - destruct (load8 B Off.Type_ =? _); [| discriminate].
    destruct (ParseExtList _ _ _ _ _ _) as [[c' s'] |] eqn:P; [| discriminate].
    pose proof (loop_preserves _ _ _ _ _ _ _ _ P)
      as [(_ & _ & Hc & _) (Hl & _ & _ & _)]. fields.
    destruct (SecConfig c') eqn:Ec;
      unfold ServerFirstFlight in H;
      repeat (break_in H; try discriminate); returned H;
      (split; [left; congruence |]); intros;
      first [lia | apply u16_range].
  - repeat (break_in H; try discriminate); returned H;
      (split; [tauto |]); intros; first [lia | apply u16_range].
Qed.

(** X16. Along every sequence of operations on a server context that
    starts with the used length of the buffer within its capacity (16-bit
    quantities, a certificate chain of non-negative length), the used
    length stays within the capacity after every step. *)
Theorem servers_keep_the_bound :
  forall (ops : list operation) (h : handshake QUIC_CERT),
    IsServer (h_TlsContext h) = true ->
    0 <= BufferLength (h_State h) <= BufferAllocLength (h_State h) ->
    BufferAllocLength (h_State h) < 65536 ->
    (forall cfg, SecConfig (h_TlsContext h) = Some cfg -> 0 <= FormatLength cfg) ->
    along
      (fun _ _ h' =>
         0 <= BufferLength (h_State h') <= BufferAllocLength (h_State h'))
      h ops.
Proof.
  intros ops h R Hlen Halloc Hcfg.
  apply every_step_invariant with
    (Inv := fun h =>
       IsServer (h_TlsContext h) = true
       /\ 0 <= BufferLength (h_State h) <= BufferAllocLength (h_State h)
       /\ BufferAllocLength (h_State h) < 65536
       /\ (forall cfg, SecConfig (h_TlsContext h) = Some cfg ->
                       0 <= FormatLength cfg));
    [| tauto].
  clear. intros h o h' (R & Hlen & Halloc & Hcfg) E.
  destruct o as [B InLength |]; cbn [apply_op] in E; unfold bind in E.
  - destruct (QuicTlsProcessData _ _ _ _ _ _ _ _ _) as [r |] eqn:P;
      [| discriminate].
    apply Done_inj in E. rewrite <- E. cbn [h_TlsContext h_State].
    pose proof (ProcessData_keeps _ _ _ _ _ P) as ((Hr & _) & _ & Ha & _).
    pose proof (ProcessData_of_server _ _ _ _ _ R P) as (Hc & Hn).
    pose proof (bound_kept_but_for_first_flight QuicCertSelect
                  QuicCertParseChain QuicCertValidateChain
                  QUIC_CERTIFICATE_FLAG_DISABLE_CERT_VALIDATION DBG
                  _ _ _ _ _ Hlen Halloc Hcfg (or_introl R) P) as Hb.
    assert (Hc' : forall cfg, SecConfig (r_TlsContext r) = Some cfg ->
                              0 <= FormatLength cfg).
    { intros cfg Hs. destruct Hc as [Hc | Hc]; rewrite Hc in Hs;
        [apply Hcfg; assumption | discriminate]. }
    repeat split; try lia; try congruence; try assumption.
  - unfold QuicTlsReset, bind, QUIC_DBG_ASSERT in E. rewrite R in E.
    destruct DBG; [discriminate |].
    apply Done_inj in E. rewrite <- E. cbn [h_TlsContext h_State]. fields.
    repeat split; try lia; assumption.
Qed.

(** ** The first flight of the server, in general *)

Lemma server_flight c s B InLength cfg c' s' :
  IsServer c = true ->
  LastMessageType c = QUIC_TLS_MESSAGE_INVALID ->
  QuicTlsHasValidMessageToProcess c InLength B = true ->
  load8 B Off.Type_ = msg_code QUIC_TLS_MESSAGE_CLIENT_INITIAL ->
  ParseExtList (Z.to_nat (TlsReadUint16 B Off.ExtListLength)) c
    (set_EarlyData s false false) B Off.ExtList
    (TlsReadUint16 B Off.ExtListLength) = Done (c', s') ->
  SecConfig c = Some cfg ->
  QuicCertSelect (Certificate cfg) [0x0804] = true ->
  BufferLength s = 0 ->
  0 <= FormatLength cfg ->
  274 + FormatLength cfg <= BufferAllocLength s < 65536 ->
  exists r,
    ProcessData c B InLength s = Done r
    /\ r_TlsContext r = set_LastMessageType c' QUIC_TLS_MESSAGE_SERVER_HANDSHAKE
    /\ r_BufferLength r = DrainLengthOf B
    /\ r_ResultFlags r = (if EarlyDataAccepted s' then 0x3C else 0x1C)
    /\ emitted_first_flight (r_State r) 8 (266 + FormatLength cfg)
    /\ signalled_first_flight (r_ResultFlags r) (r_State r)
    /\ EarlyDataAccepted (r_State r) = EarlyDataAccepted s'
    /\ EarlyDataAttempted (r_State r) = EarlyDataAttempted s'
    /\ (EarlyDataAccepted s' = true ->
        ReadKeys (r_State r) QUIC_PACKET_KEY_0_RTT
          = Some {| KeyType := QUIC_PACKET_KEY_0_RTT |})
    /\ load_EarlyDataAccepted (Buffer (r_State r)) Off.Body
         = EarlyDataAccepted s'
    /\ load8 (Buffer (r_State r)) (8 + Off.QuicTPLength) = u8 (LocalTPLength c)
    /\ (LocalTPLength c = Z.of_nat (length (LocalTPBuffer c)) ->
        LocalTPLength c <= 256 ->
        Forall (fun x => 0 <= x < 256) (LocalTPBuffer c) ->
        peek (Buffer (r_State r)) (8 + Off.QuicTP) (LocalTPLength c)
          = LocalTPBuffer c)
    /\ load_u16_host (Buffer (r_State r)) (8 + Off.CertificateLength)
         = FormatLength cfg
    /\ (FormatLength cfg = Z.of_nat (length (FormatBuffer cfg)) ->
        Forall (fun x => 0 <= x < 256) (FormatBuffer cfg) ->
        peek (Buffer (r_State r)) (8 + Off.Certificate) (FormatLength cfg)
          = FormatBuffer cfg).
Proof.
  intros R L G T P Hcfg Hsel Hlen Hfl Hroom.
  pose proof (loop_preserves _ _ _ _ _ _ _ _ P)
    as [(_ & _ & Hc & _) (Hl & Ha & _ & _)].
  pose proof (ParseExtList_context _ _ _ _ _ _ _ _ P) as (_ & Hb & Htl).
  fields.
  unfold QuicTlsProcessData. rewrite G, R.
  unfold QuicTlsServerProcess, bind, QUIC_DBG_ASSERT, QUIC_FRE_ASSERT.
  rewrite L, T, Z.eqb_refl, P, Hc, Hcfg, Hlen.
  replace (0 <? BufferAllocLength s) with true by (symmetry; apply Z.ltb_lt; lia).
  unfold ServerFirstFlight. rewrite Hsel. cbn [negb]. fields.
  rewrite Ha. do 2 settle_ltb.
  rewrite Hb, Htl.
  assert (E266 : u16 (MinMessageLengths QUIC_TLS_MESSAGE_SERVER_HANDSHAKE
                      + FormatLength cfg) = 266 + FormatLength cfg)
    by (cbn [MinMessageLengths]; unfold MAX_PARAM_LENGTH; apply u16_small; lia).
  rewrite E266.
  change (u16 (MinMessageLengths QUIC_TLS_MESSAGE_SERVER_INITIAL)) with 8.
  destruct (EarlyDataAccepted s') eqn:Acc;
    (eexists; split; [reflexivity |]); unfold returns; fields.
  all: unfold emitted_first_flight, signalled_first_flight; fields; offsets.
  all: repeat match goal with |- _ /\ _ => split end.
  all: try reflexivity; try assumption; try (intros; discriminate).
  all: try (apply u16_small; lia); try (apply u32_small; lia).
  all: try (down_to_store; rewrite TlsReadUint24_TlsWriteUint24_same;
            rewrite Z.mod_small by lia; lia).
  all: try (down_to_store; apply load_EarlyDataAccepted_store).
  all: try (strip_load8; apply load8_store8_same).
  all: try (down_to_store; rewrite load_u16_host_store_u16_host;
            apply u16_small; lia).
  all: try (intros Hn Hbytes; apply peek_memcpy_all; auto).
  all: try (intros Hn Hsmall Hbytes; down_to_store;
            apply peek_memcpy_all; auto).
Qed.

(** X17. The first flight of the server, for any ClientInitial.  A server
    in state None with an empty output buffer of room for 274 bytes and the
    certificate chain, whose certificate is selected, is handed a message
    that passes the validity gate, has the ClientInitial type and an
    extension list without an offender.  It answers with the ServerInitial
    of 8 bytes and the ServerHandshake of 266 bytes and the chain: the
    handshake record carries the low byte of the length of the local
    transport parameters, the length of the chain and the chain itself.
    The Handshake keys and the 1-RTT write key are installed and signalled
    with Data and the marker is ServerHandshake.  The bytes consumed are
    the declared length of the input cut to 16 bits, plus 4, cut to 16 bits
    again: the framed length of the input when that is below 65536, and
    fewer bytes than the framed length otherwise. *)
Theorem server_answers_any_wellformed_initial :
  forall (c : QUIC_TLS QUIC_CERT) (s : QUIC_TLS_PROCESS_STATE) (B : mem)
         (InLength : Z) (cfg : QUIC_SEC_CONFIG QUIC_CERT),
    IsServer c = true ->
    LastMessageType c = QUIC_TLS_MESSAGE_INVALID ->
    QuicTlsHasValidMessageToProcess c InLength B = true ->
    load8 B Off.Type_ = msg_code QUIC_TLS_MESSAGE_CLIENT_INITIAL ->
    ~ ExtListOffends B Off.ExtList (TlsReadUint16 B Off.ExtListLength) ->
    SecConfig c = Some cfg ->
    QuicCertSelect (Certificate cfg) [0x0804] = true ->
    BufferLength s = 0 ->
    FormatLength cfg = Z.of_nat (length (FormatBuffer cfg)) ->
    Forall (fun x => 0 <= x < 256) (FormatBuffer cfg) ->
    274 + FormatLength cfg <= BufferAllocLength s < 65536 ->
    exists r,
      ProcessData c B InLength s = Done r
      /\ LastMessageType (r_TlsContext r) = QUIC_TLS_MESSAGE_SERVER_HANDSHAKE
      /\ r_BufferLength r = (TlsReadUint24 B Off.Length mod 65536 + 4) mod 65536
      /\ (TlsReadUint24 B Off.Length + 4 < 65536 ->
          r_BufferLength r = TlsReadUint24 B Off.Length + 4)
      /\ (65536 <= TlsReadUint24 B Off.Length + 4 ->
          r_BufferLength r < TlsReadUint24 B Off.Length + 4)
      /\ emitted_first_flight (r_State r) 8 (266 + FormatLength cfg)
      /\ signalled_first_flight (r_ResultFlags r) (r_State r)
      /\ load8 (Buffer (r_State r)) (8 + Off.QuicTPLength)
           = u8 (LocalTPLength c)
      /\ load_u16_host (Buffer (r_State r)) (8 + Off.CertificateLength)
           = FormatLength cfg
      /\ peek (Buffer (r_State r)) (8 + Off.Certificate) (FormatLength cfg)
           = FormatBuffer cfg.
Proof.
  intros c s B InLength cfg R L G T Hok Hcfg Hsel Hlen Hfl Hbytes Hroom.
  pose proof (TlsReadUint16_range B Off.ExtListLength) as Hr.
  destruct (ParseExtList_returns (Z.to_nat (TlsReadUint16 B Off.ExtListLength))
              c (set_EarlyData s false false) B Off.ExtList
              (TlsReadUint16 B Off.ExtListLength))
    as (c' & s' & P); [lia | lia | assumption |].
  destruct (server_flight c s B InLength cfg c' s')
    as (r & E & Hc & Hd & _ & He & Hs & _ & _ & _ & _ & Htl & _ & Hcl & Hch);
    try assumption; try lia.
  exists r. rewrite Hc. fields.
  pose proof (TlsReadUint24_range B Off.Length) as H24.
  assert (Hcut : DrainLengthOf B
                 = (TlsReadUint24 B Off.Length mod 65536 + 4) mod 65536)
    by reflexivity.
  pose proof (Z.mod_pos_bound (TlsReadUint24 B Off.Length) 65536
                ltac:(lia)) as Hm1.
  pose proof (Z.mod_pos_bound (TlsReadUint24 B Off.Length mod 65536 + 4) 65536
                ltac:(lia)) as Hm2.
  repeat match goal with |- _ /\ _ => split end;
    try assumption; try reflexivity; try congruence.
  - intros Hsmall. rewrite Hd, Hcut.
    rewrite (Z.mod_small (TlsReadUint24 B Off.Length)) by lia.
    apply Z.mod_small. lia.
  - intros Hbig. rewrite Hd, Hcut. lia.
  - apply Hch; assumption.
Qed.

(** X18. The first flight of the server into a buffer with room for the
    ServerInitial but not for the ServerHandshake.  The call reports the
    Error flag alone and consumes nothing, and the marker stays None; but
    the output buffer is not left as it was: the ServerInitial stands in
    it and the used length is 8. *)
Theorem server_flight_cut_short_leaves_the_initial :
  forall (c : QUIC_TLS QUIC_CERT) (s : QUIC_TLS_PROCESS_STATE) (B : mem)
         (InLength : Z) (cfg : QUIC_SEC_CONFIG QUIC_CERT),
    IsServer c = true ->
    LastMessageType c = QUIC_TLS_MESSAGE_INVALID ->
    QuicTlsHasValidMessageToProcess c InLength B = true ->
    load8 B Off.Type_ = msg_code QUIC_TLS_MESSAGE_CLIENT_INITIAL ->
    ~ ExtListOffends B Off.ExtList (TlsReadUint16 B Off.ExtListLength) ->
    SecConfig c = Some cfg ->
    QuicCertSelect (Certificate cfg) [0x0804] = true ->
    BufferLength s = 0 ->
    0 <= FormatLength cfg ->
    8 <= BufferAllocLength s < 274 + FormatLength cfg ->
    BufferAllocLength s < 65536 ->
    exists r,
      ProcessData c B InLength s = Done r
      /\ r_ResultFlags r = QUIC_TLS_RESULT_ERROR
      /\ r_BufferLength r = 0
      /\ LastMessageType (r_TlsContext r) = QUIC_TLS_MESSAGE_INVALID
      /\ BufferLength (r_State r) = 8
      /\ BufferTotalLength (r_State r) = 8
      /\ load8 (Buffer (r_State r)) Off.Type_
           = msg_code QUIC_TLS_MESSAGE_SERVER_INITIAL
      /\ TlsReadUint24 (Buffer (r_State r)) Off.Length + 4 = 8.
Proof.
  intros c s B InLength cfg R L G T Hok Hcfg Hsel Hlen Hfl Hroom Hcap.
  pose proof (TlsReadUint16_range B Off.ExtListLength) as Hr.
  destruct (ParseExtList_returns (Z.to_nat (TlsReadUint16 B Off.ExtListLength))
              c (set_EarlyData s false false) B Off.ExtList
              (TlsReadUint16 B Off.ExtListLength))
    as (c' & s' & P); [lia | lia | assumption |].
  pose proof (loop_preserves _ _ _ _ _ _ _ _ P)
    as [(_ & Hl' & Hc & _) (Hl & Ha & _ & _)].
  fields.
  unfold QuicTlsProcessData. rewrite G, R.
  unfold QuicTlsServerProcess, bind, QUIC_DBG_ASSERT, QUIC_FRE_ASSERT.
  rewrite L, T, Z.eqb_refl, P, Hc, Hcfg, Hlen.
  replace (0 <? BufferAllocLength s) with true by (symmetry; apply Z.ltb_lt; lia).
  unfold ServerFirstFlight. rewrite Hsel. cbn [negb]. fields.
  rewrite Ha. do 2 settle_ltb.
  eexists; split; [reflexivity |]. unfold returns; fields.
  rewrite Hl', L.
  repeat match goal with |- _ /\ _ => split end; reflexivity.
Qed.


(** ** The client reads the first flight of the server *)

(** X19. The two roles composed.  The server answers a well-formed
    ClientInitial as in X17, with local transport parameters of fewer than
    256 bytes.  A client that has sent its ClientInitial, holds a
    security configuration and has room for 8 bytes in its buffer is
    handed the output buffer of the server, and after the first call the
    rest of it.
    The first call consumes the 8 bytes of the ServerInitial without an
    error, and a client that attempted early data learns what the server
    wrote in its acceptance bit.  The second call delivers exactly the
    transport parameters of the server to the callback and hands the
    chain of the server's configuration to the certificate capability:
    the handshake is complete when validation is disabled in the client's
    flags or the chain parses and validates against the client's server
    name, and the call is an error otherwise.  On completion the two calls
    have consumed the whole flight and the marker is ClientHandshake. *)
Theorem client_reads_the_flight_of_the_server :
  forall (server client : QUIC_TLS QUIC_CERT)
         (s sc : QUIC_TLS_PROCESS_STATE) (B : mem) (InLength : Z)
         (cfg ccfg : QUIC_SEC_CONFIG QUIC_CERT) (r : PROCESS_RESULT QUIC_CERT),
    IsServer server = true ->
    LastMessageType server = QUIC_TLS_MESSAGE_INVALID ->
    QuicTlsHasValidMessageToProcess server InLength B = true ->
    load8 B Off.Type_ = msg_code QUIC_TLS_MESSAGE_CLIENT_INITIAL ->
    ~ ExtListOffends B Off.ExtList (TlsReadUint16 B Off.ExtListLength) ->
    SecConfig server = Some cfg ->
    QuicCertSelect (Certificate cfg) [0x0804] = true ->
    BufferLength s = 0 ->
    FormatLength cfg = Z.of_nat (length (FormatBuffer cfg)) ->
    Forall (fun x => 0 <= x < 256) (FormatBuffer cfg) ->
    LocalTPLength server = Z.of_nat (length (LocalTPBuffer server)) ->
    LocalTPLength server < 256 ->
    Forall (fun x => 0 <= x < 256) (LocalTPBuffer server) ->
    274 + FormatLength cfg <= BufferAllocLength s < 65536 ->
    ProcessData server B InLength s = Done r ->
    IsServer client = false ->
    LastMessageType client = QUIC_TLS_MESSAGE_CLIENT_INITIAL ->
    SecConfig client = Some ccfg ->
    0 <= BufferLength sc ->
    BufferLength sc + 8 <= BufferAllocLength sc < 65536 ->
    let M := Buffer (r_State r) in
    let n := BufferLength (r_State r) in
    let verdict :=
      if negb (Z.land (Flags ccfg)
                 QUIC_CERTIFICATE_FLAG_DISABLE_CERT_VALIDATION =? 0)
      then true
      else match QuicCertParseChain (FormatLength cfg) (FormatBuffer cfg) with
           | None => false
           | Some ServerCert =>
             QuicCertValidateChain ServerCert (SNI client) (Flags ccfg)
           end in
    exists r1 r2,
      ProcessData client M n sc = Done r1
      /\ r_BufferLength r1 = 8
      /\ has_flag (r_ResultFlags r1) QUIC_TLS_RESULT_ERROR = false
      /\ (EarlyDataAttempted sc = true ->
          EarlyDataAccepted (r_State r1) = EarlyDataAccepted (r_State r))
      /\ ProcessData (r_TlsContext r1) (shift M 8) (n - 8) (r_State r1)
           = Done r2
      /\ ReceivedTP (r_TlsContext r2)
           = ReceivedTP client
             ++ [(LocalTPLength server, LocalTPBuffer server)]
      /\ has_flag (r_ResultFlags r2) QUIC_TLS_RESULT_COMPLETE = verdict
      /\ has_flag (r_ResultFlags r2) QUIC_TLS_RESULT_ERROR = negb verdict
      /\ HandshakeComplete (r_State r2)
           = verdict || HandshakeComplete sc
      /\ (verdict = true ->
          r_BufferLength r1 + r_BufferLength r2 = n
          /\ LastMessageType (r_TlsContext r2)
               = QUIC_TLS_MESSAGE_CLIENT_HANDSHAKE)
      /\ (verdict = false ->
          r_BufferLength r2 = 0
          /\ LastMessageType (r_TlsContext r2)
               = QUIC_TLS_MESSAGE_CLIENT_INITIAL).
Proof.
  intros server client s sc B InLength cfg ccfg r R L G T Hok Hcfg Hsel Hlen
    Hfl Hbytes Htl Htp Htpb Hroom E Rc Lc Hccfg Hsc0 Hsc M n verdict.
  pose proof (TlsReadUint16_range B Off.ExtListLength) as Hr.
  destruct (ParseExtList_returns (Z.to_nat (TlsReadUint16 B Off.ExtListLength))
              server (set_EarlyData s false false) B Off.ExtList
              (TlsReadUint16 B Off.ExtListLength))
    as (c' & s' & P); [lia | lia | assumption |].
  destruct (server_flight server s B InLength cfg c' s')
    as (r' & E' & _ & _ & _ & He & _ & Hacc & _ & _ & Hbit & Hl8 & Hpk & Hcl
        & Hch);
    try assumption; try lia.
  rewrite E in E'. apply Done_inj in E'. subst r'.
  destruct He as (H0 & H1 & _ & H8 & H9 & Hn & _).
  fold M in H0, H1, H8, H9, Hbit, Hl8, Hpk, Hcl, Hch. fold n in Hn.
  specialize (Hpk Htl ltac:(lia) Htpb). specialize (Hch Hfl Hbytes).
  assert (Hfl0 : 0 <= FormatLength cfg) by lia.
  assert (Htp8 : u8 (LocalTPLength server) = LocalTPLength server)
    by (apply u8_small; lia).
  assert (E1 : exists r1,
             ProcessData client M n sc = Done r1
             /\ r_TlsContext r1 = client
             /\ r_BufferLength r1 = 8
             /\ has_flag (r_ResultFlags r1) QUIC_TLS_RESULT_ERROR = false
             /\ (EarlyDataAttempted sc = true ->
                 EarlyDataAccepted (r_State r1) = EarlyDataAccepted s')
             /\ BufferLength (r_State r1) = BufferLength sc
             /\ BufferAllocLength (r_State r1) = BufferAllocLength sc
             /\ HandshakeComplete (r_State r1) = HandshakeComplete sc).
  { unfold QuicTlsProcessData, QuicTlsHasValidMessageToProcess.
    rewrite Rc, Lc. cbn [negb andb is_INVALID].
    replace (TlsReadUint24 M Off.Length + 4) with 8 by lia.
    change (u32 8) with 8. do 2 settle_ltb.
    unfold QuicTlsClientProcess, bind, QUIC_DBG_ASSERT.
    settle_ltb. rewrite Lc, H0, Z.eqb_refl, Hbit.
    assert (Hd : DrainLengthOf M = 8)
      by (unfold DrainLengthOf;
          replace (TlsReadUint24 M Off.Length) with 4 by lia; reflexivity).
    rewrite Hd.
    destruct (EarlyDataAttempted sc), (EarlyDataAccepted s');
      (eexists; split; [reflexivity |]); unfold returns; fields;
      repeat match goal with |- _ /\ _ => split end;
      try reflexivity; intros; try discriminate. }
  destruct E1 as (r1 & E1 & Hc1 & Hd1 & Hf1 & Ha1 & Hl1 & Hal1 & Hh1).
  assert (Hd2 : DrainLengthOf (shift M 8) = 266 + FormatLength cfg).
  { unfold DrainLengthOf. rewrite TlsReadUint24_shift.
    replace (TlsReadUint24 M (8 + Off.Length)) with (262 + FormatLength cfg)
      by lia.
    rewrite (u16_small (262 + _)) by lia. rewrite u16_small by lia. lia. }
  assert (E2 : exists r2,
             ProcessData client (shift M 8) (n - 8) (r_State r1) = Done r2
             /\ ReceivedTP (r_TlsContext r2)
                  = ReceivedTP client
                    ++ [(LocalTPLength server, LocalTPBuffer server)]
             /\ has_flag (r_ResultFlags r2) QUIC_TLS_RESULT_COMPLETE = verdict
             /\ has_flag (r_ResultFlags r2) QUIC_TLS_RESULT_ERROR
                  = negb verdict
             /\ HandshakeComplete (r_State r2)
                  = verdict || HandshakeComplete sc
             /\ r_BufferLength r2
                  = (if verdict then 266 + FormatLength cfg else 0)
             /\ LastMessageType (r_TlsContext r2)
                  = (if verdict then QUIC_TLS_MESSAGE_CLIENT_HANDSHAKE
                     else QUIC_TLS_MESSAGE_CLIENT_INITIAL)).
  { unfold QuicTlsProcessData, QuicTlsHasValidMessageToProcess.
    rewrite Rc, Lc. cbn [negb andb is_INVALID].
    rewrite TlsReadUint24_shift.
    replace (TlsReadUint24 M (8 + Off.Length) + 4)
      with (266 + FormatLength cfg) by lia.
    rewrite (u32_small (266 + _)) by lia. do 2 settle_ltb.
    unfold QuicTlsClientProcess, bind, QUIC_DBG_ASSERT.
    rewrite Hl1, Hal1, Hd2. settle_ltb. rewrite Lc.
    rewrite !load8_shift, !peek_shift, load_u16_host_shift.
    rewrite H8, Hl8, Htp8, Hpk, Hcl, Hch.
    change (msg_code QUIC_TLS_MESSAGE_SERVER_HANDSHAKE
            =? msg_code QUIC_TLS_MESSAGE_SERVER_INITIAL) with false.
    rewrite Z.eqb_refl. cbv iota. fields. rewrite Hccfg.
    fold verdict.
    destruct verdict; cbn [negb orb]; try settle_ltb;
      (eexists; split; [reflexivity |]); unfold returns; fields;
      rewrite ?Hh1, ?Lc;
      repeat match goal with |- _ /\ _ => split end; reflexivity. }
  destruct E2 as (r2 & E2 & Ht2 & Hc2 & He2 & Hh2 & Hb2 & Hm2).
  exists r1, r2. rewrite Hc1, Hd1, Hb2, Hm2, Hacc.
  repeat match goal with |- _ /\ _ => split end;
    try assumption; try reflexivity; intros V; rewrite V; split;
    try reflexivity; lia.
Qed.

(** ** The end of the handshake *)

(** What a client that has sent its ClientInitial did when a call reports
    Complete without Error: it appended a ClientHandshake record of 8
    bytes whose success byte is 1, and its marker is ClientHandshake. *)
Lemma client_completion c s B InLength r :
  IsServer c = false ->
  LastMessageType c = QUIC_TLS_MESSAGE_CLIENT_INITIAL ->
  0 <= BufferLength s ->
  BufferAllocLength s < 65536 ->
  ProcessData c B InLength s = Done r ->
  has_flag (r_ResultFlags r) QUIC_TLS_RESULT_COMPLETE = true ->
  has_flag (r_ResultFlags r) QUIC_TLS_RESULT_ERROR = false ->
  BufferLength s + 8 <= BufferAllocLength s
  /\ BufferLength (r_State r) = BufferLength s + 8
  /\ IsServer (r_TlsContext r) = false
  /\ LastMessageType (r_TlsContext r) = QUIC_TLS_MESSAGE_CLIENT_HANDSHAKE
  /\ HandshakeComplete (r_State r) = true
  /\ Buffer (r_State r)
       = store8
           (store8
              (TlsWriteUint24 (Buffer s) (BufferLength s + Off.Length) 4)
              (BufferLength s + Off.Type_)
              (msg_code QUIC_TLS_MESSAGE_CLIENT_HANDSHAKE))
           (BufferLength s + Off.Body) 1.
Proof.
  intros R L H0 Hcap E Hc He.
  unfold QuicTlsProcessData in E. rewrite R in E.
  destruct (QuicTlsHasValidMessageToProcess c InLength B);
    [| returned E; discriminate Hc].
  unfold QuicTlsClientProcess, bind, QUIC_DBG_ASSERT in E.
  destruct (BufferLength s <? BufferAllocLength s) eqn:Hroom;
    [| discriminate E].
  rewrite L in E.
  destruct (load8 B Off.Type_ =? msg_code QUIC_TLS_MESSAGE_SERVER_INITIAL).
  { destruct (EarlyDataAttempted s), (load_EarlyDataAccepted B Off.Body);
      returned E; discriminate Hc. }
  destruct (load8 B Off.Type_ =? msg_code QUIC_TLS_MESSAGE_SERVER_HANDSHAKE);
    [| returned E; discriminate Hc].
  cbv zeta in E. fields.
  destruct (SecConfig c); [| discriminate E].
  destruct (negb _) in E; [returned E; discriminate Hc |].
  destruct (_ <? _) eqn:Hfit in E; [returned E; discriminate He |].
  returned E.
  assert (Hroom8 : BufferLength s + 8 <= BufferAllocLength s) by u16_lia.
  repeat match goal with |- _ /\ _ => split end;
    try reflexivity; try assumption.
  apply u16_small. change (u16 (MinMessageLengths _)) with 8. lia.
Qed.


(** X20. The end of the handshake, the two roles composed.  Whenever a
    call of a client that has sent its ClientInitial reports Complete
    without Error, the 8 bytes it appended to its output are a record that
    a server waiting after its ServerHandshake, with its security
    configuration and room for 8 bytes, acts on: the server reports
    Complete, Data and ReadKeyUpdated, installs the 1-RTT read key, drops
    its security configuration, consumes the 8 bytes and appends a Ticket
    record of 8 bytes.  The client, handed that record, reports Ticket,
    has its ticket ready, consumes the 8 bytes and leaves its process
    state as it was. *)
Theorem handshake_finishes_with_a_ticket :
  forall (client server : QUIC_TLS QUIC_CERT)
         (sc ss sc' : QUIC_TLS_PROCESS_STATE) (B : mem) (InLength : Z)
         (cfg : QUIC_SEC_CONFIG QUIC_CERT) (r : PROCESS_RESULT QUIC_CERT),
    IsServer client = false ->
    LastMessageType client = QUIC_TLS_MESSAGE_CLIENT_INITIAL ->
    0 <= BufferLength sc ->
    BufferAllocLength sc < 65536 ->
    ProcessData client B InLength sc = Done r ->
    has_flag (r_ResultFlags r) QUIC_TLS_RESULT_COMPLETE = true ->
    has_flag (r_ResultFlags r) QUIC_TLS_RESULT_ERROR = false ->
    IsServer server = true ->
    LastMessageType server = QUIC_TLS_MESSAGE_SERVER_HANDSHAKE ->
    SecConfig server = Some cfg ->
    0 <= BufferLength ss ->
    BufferLength ss + 8 <= BufferAllocLength ss < 65536 ->
    BufferLength sc' < BufferAllocLength sc' ->
    BufferLength (r_State r) = BufferLength sc + 8
    /\ exists r3 r4,
         ProcessData server
           (shift (Buffer (r_State r)) (BufferLength sc)) 8 ss = Done r3
         /\ r_ResultFlags r3
              = Z.lor (Z.lor QUIC_TLS_RESULT_COMPLETE QUIC_TLS_RESULT_DATA)
                  QUIC_TLS_RESULT_READ_KEY_UPDATED
         /\ ReadKey (r_State r3) = QUIC_PACKET_KEY_1_RTT
         /\ ReadKeys (r_State r3) QUIC_PACKET_KEY_1_RTT
              = Some {| KeyType := QUIC_PACKET_KEY_1_RTT |}
         /\ SecConfig (r_TlsContext r3) = None
         /\ LastMessageType (r_TlsContext r3) = QUIC_TLS_MESSAGE_TICKET
         /\ r_BufferLength r3 = 8
         /\ BufferLength (r_State r3) = BufferLength ss + 8
         /\ ProcessData (r_TlsContext r)
              (shift (Buffer (r_State r3)) (BufferLength ss)) 8 sc' = Done r4
         /\ r_ResultFlags r4 = QUIC_TLS_RESULT_TICKET
         /\ TicketReady (r_TlsContext r4) = true
         /\ r_BufferLength r4 = 8
         /\ r_State r4 = sc'.
Proof.
  intros client server sc ss sc' B InLength cfg r Rc Lc Hc0 Hcap E Hcompl Herr
    Rs Ls Hcfg Hs0 Hss Hsc'.
  destruct (client_completion client sc B InLength r)
    as (Hfit & Hlen & Rc' & Lc' & _ & Hbuf); try assumption.
  split; [assumption |].
  set (k := BufferLength sc) in *. set (j := BufferLength ss) in *.
  set (Mc := Buffer (r_State r)) in *.
  assert (Ht : load8 Mc (k + Off.Type_)
               = msg_code QUIC_TLS_MESSAGE_CLIENT_HANDSHAKE).
  { rewrite Hbuf. offsets. strip_load8. apply load8_store8_same. }
  assert (Hb : load8 Mc (k + Off.Body) = 1).
  { rewrite Hbuf. apply load8_store8_same. }
  assert (Hl : TlsReadUint24 Mc (k + Off.Length) = 4).
  { rewrite Hbuf. offsets. down_to_store.
    apply TlsReadUint24_TlsWriteUint24_same. }
  assert (E3 : exists r3,
             ProcessData server (shift Mc k) 8 ss = Done r3
             /\ r_ResultFlags r3
                  = Z.lor (Z.lor QUIC_TLS_RESULT_COMPLETE QUIC_TLS_RESULT_DATA)
                      QUIC_TLS_RESULT_READ_KEY_UPDATED
             /\ ReadKey (r_State r3) = QUIC_PACKET_KEY_1_RTT
             /\ ReadKeys (r_State r3) QUIC_PACKET_KEY_1_RTT
                  = Some {| KeyType := QUIC_PACKET_KEY_1_RTT |}
             /\ SecConfig (r_TlsContext r3) = None
             /\ LastMessageType (r_TlsContext r3) = QUIC_TLS_MESSAGE_TICKET
             /\ r_BufferLength r3 = 8
             /\ BufferLength (r_State r3) = j + 8
             /\ Buffer (r_State r3)
                  = store8
                      (store8 (TlsWriteUint24 (Buffer ss) (j + Off.Length) 4)
                         (j + Off.Type_) (msg_code QUIC_TLS_MESSAGE_TICKET))
                      (j + Off.Body) 1).
  { unfold QuicTlsProcessData, QuicTlsHasValidMessageToProcess.
    rewrite Rs. cbn [negb andb].
    rewrite TlsReadUint24_shift, Hl. change (u32 (4 + 4)) with 8.
    change (8 <? 7) with false. change (8 <? 8) with false. cbv iota.
    unfold QuicTlsServerProcess, bind, QUIC_DBG_ASSERT.
    fold j. settle_ltb. rewrite Ls.
    rewrite !load8_shift, Ht, Hb, Z.eqb_refl. change (1 =? 0) with false.
    cbv iota. rewrite Hcfg. settle_ltb.
    unfold DrainLengthOf. rewrite TlsReadUint24_shift, Hl.
    change (u16 (u16 4 + 4)) with 8.
    eexists; split; [reflexivity |]. unfold returns; fields.
    change (u16 (MinMessageLengths QUIC_TLS_MESSAGE_TICKET)) with 8.
    repeat match goal with |- _ /\ _ => split end; try reflexivity.
    apply u16_small. lia. }
  destruct E3 as (r3 & E3 & Hf3 & Hk3 & Hks3 & Hn3 & Hm3 & Hd3 & Hl3 & Hb3).
  exists r3.
  set (Ms := Buffer (r_State r3)) in *.
  assert (Ht4 : load8 Ms (j + Off.Type_) = msg_code QUIC_TLS_MESSAGE_TICKET).
  { rewrite Hb3. offsets. strip_load8. apply load8_store8_same. }
  assert (Hl4 : TlsReadUint24 Ms (j + Off.Length) = 4).
  { rewrite Hb3. offsets. down_to_store.
    apply TlsReadUint24_TlsWriteUint24_same. }
  assert (E4 : exists r4,
             ProcessData (r_TlsContext r) (shift Ms j) 8 sc' = Done r4
             /\ r_ResultFlags r4 = QUIC_TLS_RESULT_TICKET
             /\ TicketReady (r_TlsContext r4) = true
             /\ r_BufferLength r4 = 8
             /\ r_State r4 = sc').
  { unfold QuicTlsProcessData, QuicTlsHasValidMessageToProcess.
    rewrite Rc', Lc'. cbn [negb andb is_INVALID].
    rewrite TlsReadUint24_shift, Hl4. change (u32 (4 + 4)) with 8.
    change (8 <? 7) with false. change (8 <? 8) with false. cbv iota.
    unfold QuicTlsClientProcess, bind, QUIC_DBG_ASSERT.
    settle_ltb. rewrite Lc'.
    rewrite !load8_shift, Ht4, Z.eqb_refl. cbn [negb].
    unfold DrainLengthOf. rewrite TlsReadUint24_shift, Hl4.
    change (u16 (u16 4 + 4)) with 8.
    eexists; split; [reflexivity |]. unfold returns; fields.
    repeat match goal with |- _ /\ _ => split end; reflexivity. }
  destruct E4 as (r4 & E4 & Hf4 & Ht4' & Hd4 & Hs4).
  exists r4. auto 15.
Qed.


(** ** The server reads the first flight of the client *)

(** X21. The two roles composed at the start.  A client in state None
    with an empty output buffer, a server name (if any) without NUL, an
    ALPN value and transport parameters that fit makes its first call; a
    server in state None, ready as in X17, is handed what the client
    wrote.  The message passes the gate of the server and its extension
    loop returns: the server consumes the whole message, holds the server
    name of the client (its own when the client has none), and the
    callback was handed the transport parameters of the client once, byte
    for byte.  As the client always attempts early data, the server
    accepts it (flag, 0-RTT read key), and it answers with its first
    flight. *)
Theorem server_reads_the_flight_of_the_client :
  forall (client server : QUIC_TLS QUIC_CERT)
         (sc ss : QUIC_TLS_PROCESS_STATE) (B0 : mem)
         (cfg : QUIC_SEC_CONFIG QUIC_CERT)
         (name : option (list Z)) (alpn tp : list Z),
    IsServer client = false ->
    LastMessageType client = QUIC_TLS_MESSAGE_INVALID ->
    SNI client = option_map (fun n => n ++ [0]) name ->
    (forall n, name = Some n -> Forall (fun b => 0 < b < 256) n) ->
    TlsSession client = Fresh.session alpn ->
    LocalTPBuffer client = tp ->
    LocalTPLength client = Z.of_nat (length tp) ->
    Forall (fun b => 0 <= b < 256) tp ->
    45 + ext_list_size name alpn true tp <= 65535 ->
    BufferLength sc = 0 ->
    0 < BufferAllocLength sc ->
    IsServer server = true ->
    LastMessageType server = QUIC_TLS_MESSAGE_INVALID ->
    SecConfig server = Some cfg ->
    QuicCertSelect (Certificate cfg) [0x0804] = true ->
    BufferLength ss = 0 ->
    0 <= FormatLength cfg ->
    274 + FormatLength cfg <= BufferAllocLength ss < 65536 ->
    exists rc rs,
      ProcessData client B0 0 sc = Done rc
      /\ BufferLength (r_State rc) = 45 + ext_list_size name alpn true tp
      /\ ProcessData server (Buffer (r_State rc)) (BufferLength (r_State rc)) ss
           = Done rs
      /\ r_BufferLength rs = BufferLength (r_State rc)
      /\ SNI (r_TlsContext rs)
           = match name with Some _ => SNI client | None => SNI server end
      /\ ReceivedTP (r_TlsContext rs)
           = ReceivedTP server ++ [(Z.of_nat (length tp), tp)]
      /\ LastMessageType (r_TlsContext rs) = QUIC_TLS_MESSAGE_SERVER_HANDSHAKE
      /\ EarlyDataAccepted (r_State rs) = true
      /\ has_flag (r_ResultFlags rs) QUIC_TLS_RESULT_EARLY_DATA_ACCEPT = true
      /\ ReadKeys (r_State rs) QUIC_PACKET_KEY_0_RTT
           = Some {| KeyType := QUIC_PACKET_KEY_0_RTT |}
      /\ emitted_first_flight (r_State rs) 8 (266 + FormatLength cfg)
      /\ signalled_first_flight (r_ResultFlags rs) (r_State rs).
Proof.
  intros client server sc ss B0 cfg name alpn tp Rc Lc Hsni Hname Halpn Htpb
    Htpl Htp Hsize Hc0 Hcap Rs Ls Hcfg Hsel Hs0 Hfl Hroom.
  assert (Hsz : 0 <= ext_list_size name alpn true tp)
    by (unfold ext_list_size; destruct name; lia).
  set (m0 := store8
               (TlsWriteUint16
                  (store8
                     (TlsWriteUint16
                        (store8 (Buffer sc) (0 + Off.Type_)
                           TlsHandshake_ClientHello)
                        (0 + Off.Version) 770)
                     (0 + Off.SessionIdLength) 0)
                  (0 + Off.CipherSuiteLength) 0)
               (0 + Off.CompressionMethodLength) 1).
  set (W := WriteExtList client true m0 Off.ExtList).
  set (Mc := TlsWriteUint24
               (TlsWriteUint16 (fst W) Off.ExtListLength (snd W))
               Off.Length (sizeof_QUIC_TLS_CLIENT_HELLO + snd W)).
  assert (HB : forall a, Off.ExtList <= a -> load8 Mc a = load8 (fst W) a).
  { intros a Ha. unfold Mc. offsets. strip_load8. reflexivity. }
  destruct (written_list_is_read_back client server ss m0 Mc Off.ExtList true
              name alpn tp)
    as (Hlen & c' & s' & P & Hn' & Hatt & Hacc & Htp'); try assumption; try lia.
  fold W in Hlen, P.
  assert (H0 : load8 Mc Off.Type_ = msg_code QUIC_TLS_MESSAGE_CLIENT_INITIAL).
  { unfold Mc. offsets. strip_load8. unfold W.
    rewrite WriteExtList_frame by lia. unfold m0. strip_load8.
    apply load8_store8_same. }
  assert (H1 : TlsReadUint24 Mc Off.Length = 41 + snd W).
  { unfold Mc. rewrite TlsReadUint24_TlsWriteUint24_same.
    unfold sizeof_QUIC_TLS_CLIENT_HELLO. apply Z.mod_small. lia. }
  assert (H43 : TlsReadUint16 Mc Off.ExtListLength = snd W).
  { unfold Mc. offsets. down_to_store.
    rewrite TlsReadUint16_TlsWriteUint16_same. apply u16_small. lia. }
  assert (Ec : ProcessData client B0 0 sc
               = Done {| r_TlsContext :=
                           set_LastMessageType client
                             QUIC_TLS_MESSAGE_CLIENT_INITIAL;
                         r_ResultFlags := QUIC_TLS_RESULT_DATA;
                         r_State :=
                           install_WriteKey
                             (set_Lengths
                                (set_Buffer (set_EarlyData sc true false) Mc)
                                (45 + snd W) (45 + snd W)
                                (BufferOffsetHandshake sc)
                                (BufferOffset1Rtt sc))
                             QUIC_PACKET_KEY_0_RTT
                             (QuicStubAllocKey QUIC_PACKET_KEY_0_RTT);
                         r_BufferLength := 0 |}).
  { unfold QuicTlsProcessData, QuicTlsHasValidMessageToProcess.
    rewrite Rc, Lc. cbn [negb andb is_INVALID]. change (0 =? 0) with true.
    cbv iota.
    unfold QuicTlsClientProcess, bind, QUIC_DBG_ASSERT.
    rewrite Hc0. settle_ltb. rewrite Lc.
    unfold ClientFirstFlight. fields.
    change (0 + Off.ExtList) with Off.ExtList. fold m0. fold W.
    rewrite (surjective_pairing W). cbv iota beta.
    unfold returns. fields.
    replace (u16 (sizeof_QUIC_TLS_CLIENT_HELLO + snd W + 4)) with (45 + snd W)
      by (unfold sizeof_QUIC_TLS_CLIENT_HELLO; symmetry; rewrite u16_small; lia).
    replace (45 + snd W - 4) with (sizeof_QUIC_TLS_CLIENT_HELLO + snd W)
      by (unfold sizeof_QUIC_TLS_CLIENT_HELLO; lia).
    reflexivity. }
  assert (G : QuicTlsHasValidMessageToProcess server (45 + snd W) Mc = true).
  { unfold QuicTlsHasValidMessageToProcess. rewrite Rs.
    cbn [negb andb]. rewrite H1.
    rewrite (u32_small (41 + snd W + 4)) by lia. do 2 settle_ltb.
    reflexivity. }
  rewrite <- H43 in P.
  destruct (server_flight server ss Mc (45 + snd W) cfg c' s')
    as (rs & Es & Hc & Hd & Hf & He & Hs & Ha & _ & Hk & _);
    try assumption; try lia.
  assert (Hd' : DrainLengthOf Mc = 45 + snd W).
  { unfold DrainLengthOf. rewrite H1. rewrite (u16_small (41 + _)) by lia.
    rewrite u16_small by lia. lia. }
  eexists. exists rs. split; [exact Ec |]. fields.
  rewrite Hf, Hacc in Hs. rewrite Hc, Hd, Hf, Ha, Hacc. fields.
  repeat match goal with |- _ /\ _ => split end;
    try assumption; try reflexivity; try lia.
  apply Hk. assumption.
Qed.

(** ** What the server reads of a short ClientInitial *)

(** X22. The validity gate bounds the framed length of a message by the
    input length, but the server reads the length of the extension list at
    offset 43 and the list behind it whatever the input length is.  For an
    input of at most 43 bytes that passes the gate with the ClientInitial
    type, the outcome of the first call of the server is decided by bytes
    past the end of the input: of two buffers that agree with it on every
    byte of the input, one makes the call abort on the release assertion
    and the other makes it return. *)
Theorem short_initial_is_decided_past_its_end :
  forall (c : QUIC_TLS QUIC_CERT) (s : QUIC_TLS_PROCESS_STATE) (B : mem)
         (InLength : Z) (cfg : QUIC_SEC_CONFIG QUIC_CERT),
    IsServer c = true ->
    LastMessageType c = QUIC_TLS_MESSAGE_INVALID ->
    SecConfig c = Some cfg ->
    QuicTlsHasValidMessageToProcess c InLength B = true ->
    load8 B Off.Type_ = msg_code QUIC_TLS_MESSAGE_CLIENT_INITIAL ->
    InLength <= Off.ExtListLength ->
    BufferLength s < BufferAllocLength s ->
    exists B1 B2,
      (forall a, a < InLength -> load8 B1 a = load8 B a)
      /\ (forall a, a < InLength -> load8 B2 a = load8 B a)
      /\ QuicTlsHasValidMessageToProcess c InLength B1 = true
      /\ QuicTlsHasValidMessageToProcess c InLength B2 = true
      /\ ProcessData c B1 InLength s = Fault FreAssert
      /\ exists r, ProcessData c B2 InLength s = Done r.
Proof.
  intros c s B InLength cfg R L Hcfg G T Hshort Hroom.
  set (B1 := TlsWriteUint16
               (TlsWriteUint16 (TlsWriteUint16 B Off.ExtListLength 4)
                  Off.ExtList 0xFFFF)
               (Off.ExtList + 2) 0).
  set (B2 := TlsWriteUint16 B Off.ExtListLength 0).
  assert (H1 : forall a, a < Off.ExtListLength -> load8 B1 a = load8 B a)
    by (intros a Ha; unfold B1; offsets; strip_load8; reflexivity).
  assert (H2 : forall a, a < Off.ExtListLength -> load8 B2 a = load8 B a)
    by (intros a Ha; unfold B2; offsets; strip_load8; reflexivity).
  assert (Hgate : forall B', (forall a, a < Off.ExtListLength ->
                                  load8 B' a = load8 B a) ->
                  QuicTlsHasValidMessageToProcess c InLength B' = true).
  { intros B' H'. rewrite <- G. unfold QuicTlsHasValidMessageToProcess.
    rewrite (TlsReadUint24_ext B B') by (intros; apply H'; offsets; lia).
    reflexivity. }
  apply Z.ltb_lt in Hroom.
  exists B1, B2.
  split; [intros; apply H1; lia |]. split; [intros; apply H2; lia |].
  split; [apply Hgate; assumption |]. split; [apply Hgate; assumption |].
  split.
  - unfold QuicTlsProcessData. rewrite (Hgate B1 H1), R.
    unfold QuicTlsServerProcess, bind, QUIC_DBG_ASSERT, QUIC_FRE_ASSERT.
    rewrite Hroom, L, (H1 Off.Type_) by (offsets; lia).
    rewrite T, Z.eqb_refl.
    rewrite ParseExtList_offends; [reflexivity | | lia | apply u16_range].
    replace (TlsReadUint16 B1 Off.ExtListLength) with 4
      by (unfold B1; offsets; symmetry; down_to_store;
          apply TlsReadUint16_TlsWriteUint16_same).
    apply offends_type; [lia |].
    replace (TlsReadUint16 B1 Off.ExtList) with 0xFFFF
      by (unfold B1; offsets; symmetry; down_to_store;
          apply TlsReadUint16_TlsWriteUint16_same).
    reflexivity.
  - unfold QuicTlsProcessData. rewrite (Hgate B2 H2), R.
    unfold QuicTlsServerProcess, bind, QUIC_DBG_ASSERT, QUIC_FRE_ASSERT.
    rewrite Hroom, L, (H2 Off.Type_) by (offsets; lia).
    rewrite T, Z.eqb_refl.
    replace (TlsReadUint16 B2 Off.ExtListLength) with 0
      by (unfold B2; symmetry; apply TlsReadUint16_TlsWriteUint16_same).
    rewrite ParseExtList_nonpos by lia. fields. rewrite Hcfg.
    unfold ServerFirstFlight, returns.
    repeat match goal with
           | |- context [if ?b then _ else _] => destruct b
           end; eauto.
Qed.


(** ** An error is not a call that did nothing *)

(** X26. A client that has sent its ClientInitial, holds a security
    configuration and is handed a ServerHandshake that passes the gate
    calls the transport-parameter callback before it looks
    at the certificate or at the room in its buffer, with the length byte
    of the record and that many bytes behind it.  So the parameters are
    delivered whatever the call reports; and when it reports Error,
    nothing is consumed and the marker stays, so that the same call made
    again delivers the same parameters a second time. *)
Theorem error_still_delivers_the_transport_parameters :
  forall (c : QUIC_TLS QUIC_CERT) (s : QUIC_TLS_PROCESS_STATE) (B : mem)
         (InLength : Z) (cfg : QUIC_SEC_CONFIG QUIC_CERT),
    IsServer c = false ->
    LastMessageType c = QUIC_TLS_MESSAGE_CLIENT_INITIAL ->
    SecConfig c = Some cfg ->
    QuicTlsHasValidMessageToProcess c InLength B = true ->
    load8 B Off.Type_ = msg_code QUIC_TLS_MESSAGE_SERVER_HANDSHAKE ->
    BufferLength s < BufferAllocLength s ->
    let tp := (load8 B Off.QuicTPLength,
               peek B Off.QuicTP (load8 B Off.QuicTPLength)) in
    exists r,
      ProcessData c B InLength s = Done r
      /\ ReceivedTP (r_TlsContext r) = ReceivedTP c ++ [tp]
      /\ (has_flag (r_ResultFlags r) QUIC_TLS_RESULT_ERROR = true ->
          r_BufferLength r = 0
          /\ LastMessageType (r_TlsContext r) = QUIC_TLS_MESSAGE_CLIENT_INITIAL
          /\ exists r',
               ProcessData (r_TlsContext r) B InLength (r_State r) = Done r'
               /\ ReceivedTP (r_TlsContext r') = ReceivedTP c ++ [tp; tp]).
Proof.
  intros c s B InLength cfg R L Hcfg G T Hroom tp.
  apply Z.ltb_lt in Hroom.
  assert (Step : forall c0 s0,
             IsServer c0 = false ->
             LastMessageType c0 = QUIC_TLS_MESSAGE_CLIENT_INITIAL ->
             SecConfig c0 = Some cfg ->
             (BufferLength s0 <? BufferAllocLength s0) = true ->
             exists r,
               ProcessData c0 B InLength s0 = Done r
               /\ ReceivedTP (r_TlsContext r) = ReceivedTP c0 ++ [tp]
               /\ (has_flag (r_ResultFlags r) QUIC_TLS_RESULT_ERROR = true ->
                   r_BufferLength r = 0
                   /\ LastMessageType (r_TlsContext r)
                        = QUIC_TLS_MESSAGE_CLIENT_INITIAL
                   /\ IsServer (r_TlsContext r) = false
                   /\ SecConfig (r_TlsContext r) = Some cfg
                   /\ BufferLength (r_State r) = BufferLength s0
                   /\ BufferAllocLength (r_State r) = BufferAllocLength s0)).
  { intros c0 s0 R0 L0 Hcfg0 Hroom0.
    assert (G0 : QuicTlsHasValidMessageToProcess c0 InLength B = true).
    { rewrite <- G. unfold QuicTlsHasValidMessageToProcess.
      rewrite R, L, R0, L0. reflexivity. }
    unfold QuicTlsProcessData. rewrite G0, R0.
    unfold QuicTlsClientProcess, bind, QUIC_DBG_ASSERT.
    rewrite Hroom0, L0, T.
    change (msg_code QUIC_TLS_MESSAGE_SERVER_HANDSHAKE
            =? msg_code QUIC_TLS_MESSAGE_SERVER_INITIAL) with false.
    rewrite Z.eqb_refl. cbv iota zeta. fields. rewrite Hcfg0.
    repeat match goal with
           | |- context [if ?b then _ else _] => destruct b
           | |- context [match ?x with Some _ => _ | None => _ end] =>
             destruct x
           end;
      (eexists; split; [reflexivity |]); unfold returns; fields;
      (split; [reflexivity |]); intros He;
      try discriminate He; auto 10. }
  destruct (Step c s R L Hcfg Hroom) as (r & E & Htp & Herr).
  exists r. split; [assumption |]. split; [assumption |].
  intros He. destruct (Herr He) as (Hd & Hl & Hr & Hc & Hb & Ha).
  split; [assumption |]. split; [assumption |].
  destruct (Step (r_TlsContext r) (r_State r) Hr Hl Hc) as (r' & E' & Htp' & _).
  { rewrite Hb, Ha. assumption. }
  exists r'. split; [assumption |].
  rewrite Htp', Htp, <- app_assoc. reflexivity.
Qed.


(** ** The first flight of the client into a buffer that is not empty *)

(** X27. The first flight of a client writes its ClientInitial at the
    used length of the buffer and then sets the used length and the total
    length to the length of the record; it does not add to them.  Into a
    buffer that already holds k bytes the record is written at offset k
    and the k bytes stay, but the used length that is reported is the
    length of the record alone. *)
Theorem first_flight_sets_the_used_length :
  forall (c : QUIC_TLS QUIC_CERT) (s : QUIC_TLS_PROCESS_STATE) (B0 : mem)
         (name : option (list Z)) (alpn tp : list Z),
    IsServer c = false ->
    LastMessageType c = QUIC_TLS_MESSAGE_INVALID ->
    SNI c = option_map (fun n => n ++ [0]) name ->
    (forall n, name = Some n -> Forall (fun b => 0 < b < 256) n) ->
    TlsSession c = Fresh.session alpn ->
    LocalTPBuffer c = tp ->
    LocalTPLength c = Z.of_nat (length tp) ->
    Forall (fun b => 0 <= b < 256) tp ->
    45 + ext_list_size name alpn true tp <= 65535 ->
    0 <= BufferLength s < BufferAllocLength s ->
    let k := BufferLength s in
    let n := 45 + ext_list_size name alpn true tp in
    exists r,
      ProcessData c B0 0 s = Done r
      /\ r_ResultFlags r = QUIC_TLS_RESULT_DATA
      /\ r_BufferLength r = 0
      /\ load8 (Buffer (r_State r)) (k + Off.Type_) = TlsHandshake_ClientHello
      /\ TlsReadUint24 (Buffer (r_State r)) (k + Off.Length) + 4 = n
      /\ (forall a, a < k -> load8 (Buffer (r_State r)) a = load8 (Buffer s) a)
      /\ BufferLength (r_State r) = n
      /\ BufferTotalLength (r_State r) = n.
Proof.
  intros c s B0 name alpn tp R L Hsni Hname Halpn Htpb Htpl Htp Hsize Hk k n.
  assert (Hsz : 0 <= ext_list_size name alpn true tp)
    by (unfold ext_list_size; destruct name; lia).
  set (m0 := store8
               (TlsWriteUint16
                  (store8
                     (TlsWriteUint16
                        (store8 (Buffer s) (k + Off.Type_)
                           TlsHandshake_ClientHello)
                        (k + Off.Version) 770)
                     (k + Off.SessionIdLength) 0)
                  (k + Off.CipherSuiteLength) 0)
               (k + Off.CompressionMethodLength) 1).
  set (W := WriteExtList c true m0 (k + Off.ExtList)).
  destruct (written_list_is_read_back c c s m0 (fst W) (k + Off.ExtList) true
              name alpn tp) as (Hlen & _); try assumption; try lia.
  { intros; reflexivity. }
  fold W in Hlen.
  set (M := TlsWriteUint24
              (TlsWriteUint16 (fst W) (k + Off.ExtListLength) (snd W))
              (k + Off.Length) (sizeof_QUIC_TLS_CLIENT_HELLO + snd W)).
  assert (E : ProcessData c B0 0 s
              = Done {| r_TlsContext :=
                          set_LastMessageType c QUIC_TLS_MESSAGE_CLIENT_INITIAL;
                        r_ResultFlags := QUIC_TLS_RESULT_DATA;
                        r_State :=
                          install_WriteKey
                            (set_Lengths
                               (set_Buffer (set_EarlyData s true false) M)
                               (45 + snd W) (45 + snd W)
                               (BufferOffsetHandshake s)
                               (BufferOffset1Rtt s))
                            QUIC_PACKET_KEY_0_RTT
                            (QuicStubAllocKey QUIC_PACKET_KEY_0_RTT);
                        r_BufferLength := 0 |}).
  { unfold QuicTlsProcessData, QuicTlsHasValidMessageToProcess.
    rewrite R, L. cbn [negb andb is_INVALID]. change (0 =? 0) with true.
    cbv iota.
    unfold QuicTlsClientProcess, bind, QUIC_DBG_ASSERT.
    fold k. settle_ltb. rewrite L.
    unfold ClientFirstFlight. fields. fold k. fold m0. fold W.
    rewrite (surjective_pairing W). cbv iota beta.
    unfold returns. fields.
    replace (u16 (sizeof_QUIC_TLS_CLIENT_HELLO + snd W + 4)) with (45 + snd W)
      by (unfold sizeof_QUIC_TLS_CLIENT_HELLO; symmetry; rewrite u16_small; lia).
    replace (45 + snd W - 4) with (sizeof_QUIC_TLS_CLIENT_HELLO + snd W)
      by (unfold sizeof_QUIC_TLS_CLIENT_HELLO; lia).
    reflexivity. }
  eexists. split; [exact E |]. fields.
  split; [reflexivity |]. split; [reflexivity |].
  split; [| split; [| split; [| subst n; split; lia]]].
  - unfold M. offsets. strip_load8. unfold W.
    rewrite WriteExtList_frame by lia. unfold m0. offsets. strip_load8.
    apply load8_store8_same.
  - unfold M. rewrite TlsReadUint24_TlsWriteUint24_same.
    unfold sizeof_QUIC_TLS_CLIENT_HELLO. rewrite Z.mod_small by lia.
    subst n. lia.
  - intros a Ha. unfold M. offsets. strip_load8. unfold W.
    rewrite WriteExtList_frame by (offsets; lia).
    unfold m0. offsets. strip_load8. reflexivity.
Qed.


End Further.

(** * The security configuration *)

Section Lifecycle.

Context {QUIC_CERT : Type}.
Variable QUIC_SEC_CONFIG_FLAG_CERTIFICATE_NULL : Z.
Variable QUIC_SEC_CONFIG_FLAG_CERTIFICATE_FILE : Z.
Variable QUIC_SEC_CONFIG_FLAG_CERTIFICATE_CONTEXT : Z.
Variable SIZEOF_CERT_CHAIN_LIST_LENGTH : Z.
Variable QuicCertCreate :
  Z -> option QUIC_CERT -> option (list Z) -> QUIC_STATUS * option QUIC_CERT.
Variable QuicCertFormat : option QUIC_CERT -> Z -> Z * list Z.
Variable long : Z -> Z.

Local Abbreviation Create :=
  (QuicTlsServerSecConfigCreate QUIC_SEC_CONFIG_FLAG_CERTIFICATE_NULL
     QUIC_SEC_CONFIG_FLAG_CERTIFICATE_FILE
     QUIC_SEC_CONFIG_FLAG_CERTIFICATE_CONTEXT SIZEOF_CERT_CHAIN_LIST_LENGTH
     QuicCertCreate QuicCertFormat).
Local Abbreviation Delete :=
  (QuicTlsSecConfigDelete QUIC_SEC_CONFIG_FLAG_CERTIFICATE_CONTEXT).
Local Abbreviation refs :=
  (references QUIC_SEC_CONFIG_FLAG_CERTIFICATE_CONTEXT long).

(** X24. Creation of a server configuration holds what it took on every
    path.  When it succeeds, the completion handler is called once, as the
    last call, with a configuration of one reference that carries the
    flags and the rundown, and neither the rundown is released nor the
    object freed.  When it fails, the handler is not called, the rundown
    is released once if it was acquired, and the object is freed once if
    it was allocated. *)
Theorem creation_keeps_or_returns_what_it_took :
  forall (acquired : bool) (allocated : option (SEC_CONFIG_OBJECT QUIC_CERT))
         (Flags_ : Z) (Certificate_ : option QUIC_CERT)
         (Principal : option (list Z)),
    let Status := fst (Create acquired allocated Flags_ Certificate_ Principal) in
    let calls := snd (Create acquired allocated Flags_ Certificate_ Principal) in
    if QUIC_FAILED Status
    then times is_completion calls = 0
         /\ times is_release calls = (if acquired then 1 else 0)
         /\ times is_free calls
              = (if acquired
                 then match allocated with Some _ => 1 | None => 0 end
                 else 0)
    else acquired = true
         /\ allocated <> None
         /\ times is_release calls = 0
         /\ times is_free calls = 0
         /\ exists before o,
              calls = before ++ [CompletionHandler QUIC_STATUS_SUCCESS o]
              /\ times is_completion before = 0
              /\ RefCount (Config o) = 1
              /\ Flags (Config o) = Flags_
              /\ CleanupRundown o = true.
Proof.
  intros acquired allocated Flags_ Certificate_ Principal.
  unfold QuicTlsServerSecConfigCreate.
  destruct acquired; [| cbn; auto].
  destruct allocated as [raw |]; [| cbn; auto].
  cbn [negb].
  repeat match goal with
         | |- context [if ?b then _ else _] =>
           lazymatch b with
           | QUIC_FAILED _ => fail
           | _ => destruct b
           end
         | |- context [QuicCertFormat ?c ?n] =>
           destruct (QuicCertFormat c n)
         | |- context [QuicCertCreate ?f ?c ?p] =>
           destruct (QuicCertCreate f c p) as [[] ?]
         | |- context [match Certificate_ with _ => _ end] =>
           destruct Certificate_
         end;
    cbn;
    try (repeat split; reflexivity);
    (split; [reflexivity |]); (split; [discriminate |]);
    (split; [reflexivity |]); (split; [reflexivity |]);
    match goal with
    | |- exists before o, ?l = _ /\ _ =>
      exists (removelast l); eexists; (split; [reflexivity |])
    end; repeat split; reflexivity.
Qed.

(** ** References *)

Lemma set_RefCount_same (o : SEC_CONFIG_OBJECT QUIC_CERT) :
  set_RefCount o (RefCount (Config o)) = o.
Proof. destruct o as [r [n f c l b]]. reflexivity. Qed.

Lemma set_RefCount_twice (o : SEC_CONFIG_OBJECT QUIC_CERT) n k :
  set_RefCount (set_RefCount o n) k = set_RefCount o k.
Proof. reflexivity. Qed.

Section Count.

Hypothesis long_holds_32_bits :
  forall x, - 2 ^ 31 <= x < 2 ^ 31 -> long x = x.

(** While the count stays above zero nothing is freed. *)
Lemma references_held ops :
  forall (o : SEC_CONFIG_OBJECT QUIC_CERT),
    0 < RefCount (Config o) ->
    RefCount (Config o) + Z.of_nat (length ops) < 2 ^ 31 ->
    held_throughout (RefCount (Config o)) ops ->
    refs ops (Some o)
      = Some (Some (set_RefCount o (count_after (RefCount (Config o)) ops)),
              []).
Proof.
  induction ops as [| op ops IH]; intros o Hpos Hsmall Hheld.
  - cbn. rewrite set_RefCount_same. reflexivity.
  - destruct Hheld as [Hnext Hheld]. cbn [length] in Hsmall.
    cbn [references count_after].
    assert (E : (match op with
                 | OpAddRef => (Some (QuicTlsSecConfigAddRef long o), [])
                 | OpRelease =>
                   QuicTlsSecConfigRelease
                     QUIC_SEC_CONFIG_FLAG_CERTIFICATE_CONTEXT long o
                 end)
                = (Some (set_RefCount o (RefCount (Config o) + ref_delta op)),
                   @nil (sec_call QUIC_CERT))).
    { destruct op; cbn [ref_delta] in *;
        unfold QuicTlsSecConfigAddRef, QuicTlsSecConfigRelease,
          InterlockedIncrement, InterlockedDecrement.
      - rewrite long_holds_32_bits by lia. reflexivity.
      - rewrite long_holds_32_bits by lia. cbn [RefCount Config set_RefCount].
        replace (RefCount (Config o) - 1 =? 0) with false
          by (symmetry; apply Z.eqb_neq; lia).
        reflexivity. }
    rewrite E.
    rewrite IH; cbn [RefCount Config set_RefCount];
      [reflexivity | lia | destruct op; cbn [ref_delta]; lia | assumption].
Qed.

(** X25. The shared configuration is freed by the release that brings
    its count to zero, and not before.  From a count above zero, while
    every operation of the holders leaves the count above zero, the object
    stays allocated with the count the operations add up to and nothing is
    freed.  The release that meets a count of one deletes the object: the
    certificate is freed unless the flags mark it as the caller's, the
    object is freed, and the rundown is released if the object has one.
    An operation after that is an access to the freed object. *)
Theorem configuration_is_freed_by_its_last_release :
  forall (ops : list ref_op) (o : SEC_CONFIG_OBJECT QUIC_CERT),
    0 < RefCount (Config o) ->
    RefCount (Config o) + Z.of_nat (length ops) < 2 ^ 31 ->
    (held_throughout (RefCount (Config o)) ops ->
     refs ops (Some o)
       = Some (Some (set_RefCount o (count_after (RefCount (Config o)) ops)),
               []))
    /\ (forall before after,
          ops = before ++ OpRelease :: after ->
          held_throughout (RefCount (Config o)) before ->
          count_after (RefCount (Config o)) before = 1 ->
          refs ops (Some o)
            = match after with
              | [] =>
                Some (None,
                      (if Z.land (Flags (Config o))
                            QUIC_SEC_CONFIG_FLAG_CERTIFICATE_CONTEXT =? 0
                       then [QuicCertFree (Certificate (Config o))]
                       else [])
                      ++ [QUIC_FREE]
                      ++ (if CleanupRundown o then [QuicRundownRelease]
                          else []))
              | _ :: _ => None
              end).
Proof.
  intros ops o Hpos Hsmall. split; [apply references_held; assumption |].
  intros before after -> Hheld Hone.
  rewrite length_app in Hsmall. cbn [length] in Hsmall.
  assert (Happ : forall l1 l2 (x : option (SEC_CONFIG_OBJECT QUIC_CERT)),
             refs (l1 ++ l2) x
             = match refs l1 x with
               | None => None
               | Some (y, calls) =>
                 match refs l2 y with
                 | None => None
                 | Some (z, calls') => Some (z, calls ++ calls')
                 end
               end).
  { induction l1 as [| op l1 IH]; intros l2 x.
    - cbn. destruct (refs l2 x) as [[z calls'] |]; reflexivity.
    - cbn [app references]. destruct x as [x |]; [| reflexivity].
      destruct (match op with
                | OpAddRef => _
                | OpRelease => _
                end) as [y calls].
      rewrite IH. destruct (refs l1 y) as [[y' c1] |]; [| reflexivity].
      destruct (refs l2 y') as [[z c2] |]; [| reflexivity].
      rewrite app_assoc. reflexivity. }
  rewrite Happ, references_held by (assumption || lia).
  rewrite Hone. cbn [references].
  unfold QuicTlsSecConfigRelease, InterlockedDecrement.
  cbn [RefCount Config set_RefCount].
  rewrite long_holds_32_bits by lia. cbn [Z.sub Z.add Z.opp Z.pos_sub Z.eqb].
  unfold QuicTlsSecConfigDelete.
  cbn [RefCount Config set_RefCount Flags Certificate CleanupRundown].
  destruct after as [| op after].
  - cbn [references]. rewrite app_nil_r. reflexivity.
  - reflexivity.
Qed.

End Count.


End Lifecycle.


(** * Header protection *)

(** X23. QuicHpComputeMask succeeds and writes a mask of zeros for every
    sample of the batch, whatever the key and the samples are: a byte that
    is combined with its mask byte by exclusive-or stays as it was, so the
    header is left unprotected.  Nothing is written behind the last
    sample. *)
Theorem header_protection_mask_is_zero :
  forall (SAMPLE : Z) (Key : Z) (BatchSize : Z) (Cipher Mask : mem),
    0 <= SAMPLE ->
    0 <= BatchSize < 256 ->
    let r := QuicHpComputeMask SAMPLE Key BatchSize Cipher Mask in
    fst r = QUIC_STATUS_SUCCESS
    /\ (forall i j b,
          0 <= i < BatchSize -> 0 <= j < SAMPLE ->
          load8 (snd r) (i * SAMPLE + j) = 0
          /\ Z.lxor b (load8 (snd r) (i * SAMPLE + j)) = b)
    /\ (forall a, a < 0 \/ BatchSize * SAMPLE <= a ->
          load8 (snd r) a = load8 Mask a).
Proof.
  intros SAMPLE Key BatchSize Cipher Mask Hs Hb r. subst r.
  unfold QuicHpComputeMask. cbn [fst snd].
  rewrite (u8_small BatchSize) by assumption.
  split; [reflexivity |]. split.
  - intros i j b Hi Hj.
    assert (E : load8 (QuicZeroMemory Mask 0 (BatchSize * SAMPLE))
                  (i * SAMPLE + j) = 0).
    { unfold load8, QuicZeroMemory.
      replace (0 <=? i * SAMPLE + j) with true
        by (symmetry; apply Z.leb_le; nia).
      replace (i * SAMPLE + j <? 0 + BatchSize * SAMPLE) with true
        by (symmetry; apply Z.ltb_lt; nia).
      reflexivity. }
    rewrite E. split; [reflexivity | apply Z.lxor_0_r].
  - intros a Ha. unfold load8, QuicZeroMemory.
    destruct (Z.leb_spec 0 a), (Z.ltb_spec a (0 + BatchSize * SAMPLE));
      cbn [andb]; try reflexivity; lia.
Qed.


(** * The further properties at concrete inputs *)

Lemma byte_values_h3 : Forall (fun b => 0 < b < 256) Scenario.h3.
Proof. repeat (constructor; [lia |]). constructor. Qed.

Lemma byte_values_a_test : Forall (fun b => 0 < b < 256) Scenario.a_test.
Proof. repeat (constructor; [lia |]). constructor. Qed.

Lemma byte_values_chain :
  Forall (fun x => 0 <= x < 256) (FormatBuffer Scenario.config).
Proof.
  apply Forall_forall. intros x Hx. apply repeat_spec in Hx. subst x. lia.
Qed.

Lemma a_test_initial_does_not_offend :
  ~ ExtListOffends (mem_of_list (Scenario.a_test_initial true)) Off.ExtList
      (TlsReadUint16 (mem_of_list (Scenario.a_test_initial true))
         Off.ExtListLength).
Proof.
  intros H.
  pose proof (ParseExtList_offends _ _ _ H 32%nat Scenario.server
                (Fresh.state 4096 Scenario.zeros)) as F.
  vm_compute in F. specialize (F (le_n _) eq_refl).
  discriminate F.
Qed.

Lemma encrypt_of_short_buffer_writes_behind_it_witness :
  peek (snd (QuicEncrypt 16 0 [] 0 [] 4 Scenario.zeros)) 65524 8
    = [0xF7; 0xF6; 0xF5; 0xF4; 0xF3; 0xF2; 0xF1; 0xF0].
Proof.
  destruct (encrypt_of_short_buffer_writes_behind_it 16 0 [] 0 [] 4
              Scenario.zeros) as (_ & H & _); [lia | lia | exact H].
Defined.

Lemma session_holds_the_whole_alpn_witness :
  QuicTlsSessionInitialize (Scenario.h3 ++ [0]) true
    = (QUIC_STATUS_SUCCESS, Some (Fresh.session Scenario.h3)).
Proof.
  destruct (session_holds_the_whole_alpn Scenario.h3 true) as [H _];
    [exact byte_values_h3 | apply H; vm_compute; discriminate].
Defined.

Lemma initialize_copies_or_rejects_the_server_name_witness :
  QuicTlsInitialize Scenario.CERTIFICATE_CONTEXT Scenario.long32 255
    {| cfg_IsServer := false;
       cfg_TlsSession := Fresh.session Scenario.h3;
       cfg_SecConfig := Scenario.shared_config;
       cfg_LocalTPBuffer := [];
       cfg_LocalTPLength := u32 (Z.of_nat (length (@nil Z)));
       cfg_ServerName :=
         option_map (fun n => n ++ [0]) (Some Scenario.a_test) |}
    true true
    = (QUIC_STATUS_SUCCESS,
       Some (Fresh.context false Scenario.h3
               (Config (set_RefCount Scenario.shared_config 2))
               (Some Scenario.a_test) []),
       Some (set_RefCount Scenario.shared_config 2), []).
Proof.
  destruct (initialize_copies_or_rejects_the_server_name unit
              Scenario.CERTIFICATE_CONTEXT Scenario.long32 255 false
              Scenario.h3 [] Scenario.shared_config (Some Scenario.a_test))
    as [H _].
  - intros x Hx. unfold Scenario.long32. rewrite Z.mod_small; lia.
  - cbn. lia.
  - lia.
  - intros n E. injection E as <-. exact byte_values_a_test.
  - apply H. intros n E. injection E as <-. vm_compute. discriminate.
Defined.

Lemma extension_loop_returns_or_aborts_witness :
  ~ ExtListOffends (mem_of_list (Scenario.a_test_initial true)) 45 32.
Proof.
  destruct (extension_loop_returns_or_aborts Scenario.server
              (Fresh.state 4096 Scenario.zeros)
              (mem_of_list (Scenario.a_test_initial true)) 45 32)
    as [_ [_ H]]; [lia |].
  apply H. eexists _, _. vm_compute. reflexivity.
Defined.

Lemma unacceptable_message_is_an_error_witness :
  Scenario.ProcessData Scenario.client_after_handshake
    (mem_of_list Scenario.bare_server_handshake) 266
    (Fresh.state 4096 Scenario.zeros)
  = Done {| r_TlsContext := Scenario.client_after_handshake;
            r_ResultFlags := QUIC_TLS_RESULT_ERROR;
            r_State := Fresh.state 4096 Scenario.zeros;
            r_BufferLength := 0 |}.
Proof.
  exact (unacceptable_message_is_an_error Scenario.CertSelect
           Scenario.CertParseChain Scenario.CertValidateChain
           Scenario.DISABLE_CERT_VALIDATION false
           Scenario.client_after_handshake
           (mem_of_list Scenario.bare_server_handshake) 266
           (Fresh.state 4096 Scenario.zeros) eq_refl eq_refl eq_refl).
Defined.


Lemma keys_stay_in_their_slots_witness :
  exists r,
    Scenario.ProcessData Scenario.client Scenario.zeros 0
      (Fresh.state 4096 Scenario.zeros) = Done r
    /\ keys_match_slots (r_State r)
    /\ WriteKeys (r_State r) QUIC_PACKET_KEY_0_RTT
         = Some {| KeyType := QUIC_PACKET_KEY_0_RTT |}.
Proof.
  eexists. split; [reflexivity |]. split; [| reflexivity].
  match goal with
  | |- keys_match_slots (r_State ?r) =>
    apply (keys_stay_in_their_slots Scenario.CertSelect
             Scenario.CertParseChain Scenario.CertValidateChain
             Scenario.DISABLE_CERT_VALIDATION false
             Scenario.client Scenario.zeros 0
             (Fresh.state 4096 Scenario.zeros) r)
  end.
  - intros k key [H | H]; discriminate H.
  - reflexivity.
Defined.

Lemma ticket_is_ready_after_a_ticket_record_witness :
  exists r m',
    Scenario.ProcessData Scenario.client_after_handshake
      (mem_of_list Scenario.ticket_record) 8
      (Fresh.state 4096 Scenario.zeros) = Done r
    /\ QuicTlsReadTicket (r_TlsContext r) 1 (Some Scenario.zeros)
         = (QUIC_STATUS_SUCCESS, 1, Some m')
    /\ load8 m' 0 = 0xFF.
Proof.
  eexists.
  match goal with
  | |- exists m', ?call = Done ?r /\ _ =>
    destruct (ticket_is_ready_after_a_ticket_record Scenario.CertSelect
                Scenario.CertParseChain Scenario.CertValidateChain
                Scenario.DISABLE_CERT_VALIDATION false
                Scenario.client_after_handshake
                (mem_of_list Scenario.ticket_record) 8
                (Fresh.state 4096 Scenario.zeros) _ (eq_refl : call = Done _))
      as [H _]
  end.
  destruct H as (_ & _ & _ & H); [reflexivity |].
  destruct (H 1 Scenario.zeros) as (m' & E & Hb); [discriminate |].
  exists m'. split; [reflexivity |]. split; assumption.
Defined.

Lemma consumed_is_the_framed_length_witness :
  exists r,
    Scenario.ProcessData Scenario.client_after_handshake
      (mem_of_list Scenario.ticket_record) 8
      (Fresh.state 4096 Scenario.zeros) = Done r
    /\ r_BufferLength r = 8.
Proof.
  eexists. split; [reflexivity |].
  match goal with
  | |- r_BufferLength ?r = _ =>
    destruct (consumed_is_the_framed_length Scenario.CertSelect
                Scenario.CertParseChain Scenario.CertValidateChain
                Scenario.DISABLE_CERT_VALIDATION false
                Scenario.client_after_handshake
                (mem_of_list Scenario.ticket_record) 8
                (Fresh.state 4096 Scenario.zeros) r) as [H _]
  end.
  - reflexivity.
  - reflexivity.
  - reflexivity.
  - right. discriminate.
  - reflexivity.
  - exact H.
Defined.

Lemma servers_keep_the_bound_witness :
  every_step Scenario.CertSelect Scenario.CertParseChain
    Scenario.CertValidateChain Scenario.DISABLE_CERT_VALIDATION false
    (fun _ _ h' =>
       0 <= BufferLength (h_State h') <= BufferAllocLength (h_State h'))
    {| h_TlsContext := Scenario.server;
       h_State := Fresh.state 4096 Scenario.zeros;
       h_Responded := false |}
    [OpProcessData (mem_of_list (Scenario.a_test_initial true)) 77;
     OpReset;
     OpProcessData (mem_of_list Scenario.ticket_record) 8].
Proof.
  apply servers_keep_the_bound.
  - reflexivity.
  - cbn. lia.
  - reflexivity.
  - intros cfg E. injection E as <-. cbn. lia.
Defined.

Lemma server_answers_any_wellformed_initial_witness :
  exists r,
    Scenario.ProcessData Scenario.server
      (mem_of_list (Scenario.a_test_initial true)) 77
      (Fresh.state 4096 Scenario.zeros) = Done r
    /\ r_BufferLength r = 77
    /\ BufferLength (r_State r) = 324
    /\ peek (Buffer (r_State r)) 271 50 = repeat 7 50%nat.
Proof.
  destruct (server_answers_any_wellformed_initial Scenario.CertSelect
              Scenario.CertParseChain Scenario.CertValidateChain
              Scenario.DISABLE_CERT_VALIDATION false
              Scenario.server (Fresh.state 4096 Scenario.zeros)
              (mem_of_list (Scenario.a_test_initial true)) 77
              Scenario.config)
    as (r & E & _ & _ & Hd & _ & He & _ & _ & _ & Hp);
    try reflexivity.
  - exact a_test_initial_does_not_offend.
  - exact byte_values_chain.
  - cbn. lia.
  - exists r. split; [exact E |]. split; [apply Hd; reflexivity |].
    split; [apply He | exact Hp].
Defined.

Lemma server_flight_cut_short_leaves_the_initial_witness :
  exists r,
    Scenario.ProcessData Scenario.server
      (mem_of_list (Scenario.a_test_initial true)) 77
      (Fresh.state 100 Scenario.zeros) = Done r
    /\ r_ResultFlags r = QUIC_TLS_RESULT_ERROR
    /\ r_BufferLength r = 0
    /\ BufferLength (r_State r) = 8.
Proof.
  destruct (server_flight_cut_short_leaves_the_initial Scenario.CertSelect
              Scenario.CertParseChain Scenario.CertValidateChain
              Scenario.DISABLE_CERT_VALIDATION false
              Scenario.server (Fresh.state 100 Scenario.zeros)
              (mem_of_list (Scenario.a_test_initial true)) 77
              Scenario.config)
    as (r & E & Hf & Hd & _ & Hl & _);
    try reflexivity.
  - exact a_test_initial_does_not_offend.
  - cbn. lia.
  - cbn. lia.
  - exists r. auto.
Defined.


Lemma byte_values_tp :
  Forall (fun x => 0 <= x < 256) (LocalTPBuffer Scenario.server).
Proof. repeat (constructor; [lia |]). constructor. Qed.

Lemma client_reads_the_flight_of_the_server_witness :
  exists r1 r2,
    Scenario.ProcessData Scenario.client_after_initial
      (Buffer (r_State Scenario.flight_of_server)) 324
      (Fresh.state 4096 Scenario.zeros) = Done r1
    /\ r_BufferLength r1 = 8
    /\ Scenario.ProcessData (r_TlsContext r1)
         (shift (Buffer (r_State Scenario.flight_of_server)) 8) 316
         (r_State r1) = Done r2
    /\ ReceivedTP (r_TlsContext r2) = [(10, [1; 2; 3; 4; 5; 6; 7; 8; 9; 10])]
    /\ has_flag (r_ResultFlags r2) QUIC_TLS_RESULT_COMPLETE = true
    /\ r_BufferLength r2 = 316.
Proof.
  destruct (client_reads_the_flight_of_the_server Scenario.CertSelect
              Scenario.CertParseChain Scenario.CertValidateChain
              Scenario.DISABLE_CERT_VALIDATION false
              Scenario.server Scenario.client_after_initial
              (Fresh.state 4096 Scenario.zeros)
              (Fresh.state 4096 Scenario.zeros)
              (mem_of_list (Scenario.a_test_initial true)) 77
              Scenario.config Scenario.config Scenario.flight_of_server)
    as (r1 & r2 & E1 & Hd1 & _ & _ & E2 & Htp & Hc & _ & _ & Hv & _);
    try reflexivity; try (cbn; lia);
    try exact a_test_initial_does_not_offend;
    try exact byte_values_chain; try exact byte_values_tp.
  exists r1, r2. split; [exact E1 |]. split; [exact Hd1 |].
  split; [exact E2 |]. split; [exact Htp |]. split; [exact Hc |].
  destruct (Hv eq_refl) as [Hn _]. rewrite Hd1 in Hn.
  change (BufferLength (r_State Scenario.flight_of_server)) with 324 in Hn.
  lia.
Defined.

Lemma handshake_finishes_with_a_ticket_witness :
  exists r3 r4,
    Scenario.ProcessData (r_TlsContext Scenario.flight_of_server)
      (shift (Buffer (r_State Scenario.finish_of_client)) 0) 8
      (Fresh.state 4096 Scenario.zeros) = Done r3
    /\ LastMessageType (r_TlsContext r3) = QUIC_TLS_MESSAGE_TICKET
    /\ SecConfig (r_TlsContext r3) = None
    /\ Scenario.ProcessData (r_TlsContext Scenario.finish_of_client)
         (shift (Buffer (r_State r3)) 0) 8
         (Fresh.state 4096 Scenario.zeros) = Done r4
    /\ TicketReady (r_TlsContext r4) = true.
Proof.
  destruct (handshake_finishes_with_a_ticket Scenario.CertSelect
              Scenario.CertParseChain Scenario.CertValidateChain
              Scenario.DISABLE_CERT_VALIDATION false
              Scenario.client_after_initial
              (r_TlsContext Scenario.flight_of_server)
              (Fresh.state 4096 Scenario.zeros)
              (Fresh.state 4096 Scenario.zeros)
              (Fresh.state 4096 Scenario.zeros)
              (shift (Buffer (r_State Scenario.flight_of_server)) 8) 316
              Scenario.config Scenario.finish_of_client)
    as (_ & r3 & r4 & E3 & _ & _ & _ & Hn & Hm & _ & _ & E4 & _ & Ht & _);
    try reflexivity; try (cbn; lia).
  exists r3, r4. auto.
Defined.

Lemma server_reads_the_flight_of_the_client_witness :
  exists rc rs,
    Scenario.ProcessData Scenario.client_with_tp Scenario.zeros 0
      (Fresh.state 4096 Scenario.zeros) = Done rc
    /\ BufferLength (r_State rc) = 80
    /\ Scenario.ProcessData Scenario.server (Buffer (r_State rc))
         (BufferLength (r_State rc)) (Fresh.state 4096 Scenario.zeros)
       = Done rs
    /\ r_BufferLength rs = 80
    /\ SNI (r_TlsContext rs) = Some (Scenario.a_test ++ [0])
    /\ ReceivedTP (r_TlsContext rs) = [(3, [1; 2; 3])].
Proof.
  destruct (server_reads_the_flight_of_the_client Scenario.CertSelect
              Scenario.CertParseChain Scenario.CertValidateChain
              Scenario.DISABLE_CERT_VALIDATION false
              Scenario.client_with_tp Scenario.server
              (Fresh.state 4096 Scenario.zeros)
              (Fresh.state 4096 Scenario.zeros) Scenario.zeros
              Scenario.config (Some Scenario.a_test) Scenario.h3 [1; 2; 3])
    as (rc & rs & Ec & Hl & Es & Hd & Hn & Ht & _);
    try reflexivity; try (cbn; lia).
  - intros n E. injection E as <-. exact byte_values_a_test.
  - repeat (constructor; [lia |]). constructor.
  - exists rc, rs. split; [exact Ec |]. split; [exact Hl |].
    split; [exact Es |]. split; [rewrite Hd; exact Hl |].
    split; [exact Hn | exact Ht].
Defined.

Lemma short_initial_is_decided_past_its_end_witness :
  exists B1 B2,
    (forall a, a < 7 ->
       load8 B1 a = load8 (mem_of_list Scenario.short_initial) a)
    /\ (forall a, a < 7 ->
          load8 B2 a = load8 (mem_of_list Scenario.short_initial) a)
    /\ Scenario.ProcessData Scenario.server B1 7
         (Fresh.state 4096 Scenario.zeros) = Fault FreAssert
    /\ exists r,
         Scenario.ProcessData Scenario.server B2 7
           (Fresh.state 4096 Scenario.zeros) = Done r.
Proof.
  destruct (short_initial_is_decided_past_its_end Scenario.CertSelect
              Scenario.CertParseChain Scenario.CertValidateChain
              Scenario.DISABLE_CERT_VALIDATION false
              Scenario.server (Fresh.state 4096 Scenario.zeros)
              (mem_of_list Scenario.short_initial) 7 Scenario.config)
    as (B1 & B2 & H1 & H2 & _ & _ & F & D);
    try reflexivity.
  - vm_compute. discriminate.
  - exists B1, B2. auto.
Defined.

Lemma header_protection_mask_is_zero_witness :
  load8 (snd (QuicHpComputeMask 16 0 2 Scenario.zeros (fun _ => 255))) 17 = 0.
Proof.
  destruct (header_protection_mask_is_zero 16 0 2 Scenario.zeros
              (fun _ => 255)) as (_ & H & _); [lia | lia |].
  destruct (H 1 1 0) as [E _]; [lia | lia | exact E].
Defined.

Lemma long32_holds_32_bits :
  forall x, - 2 ^ 31 <= x < 2 ^ 31 -> Scenario.long32 x = x.
Proof.
  intros x Hx. unfold Scenario.long32. rewrite Z.mod_small; lia.
Qed.

Lemma configuration_is_freed_by_its_last_release_witness :
  references Scenario.CERTIFICATE_CONTEXT Scenario.long32
    [OpAddRef; OpRelease; OpRelease] (Some Scenario.shared_config)
  = Some (None, [QuicCertFree (Some tt); QUIC_FREE; QuicRundownRelease]).
Proof.
  destruct (configuration_is_freed_by_its_last_release
              Scenario.CERTIFICATE_CONTEXT Scenario.long32
              long32_holds_32_bits [OpAddRef; OpRelease; OpRelease]
              Scenario.shared_config) as [_ H].
  - reflexivity.
  - reflexivity.
  - exact (H [OpAddRef; OpRelease] [] eq_refl
             (conj eq_refl (conj eq_refl I)) eq_refl).
Defined.


Lemma error_still_delivers_the_transport_parameters_witness :
  exists r r',
    Scenario.ProcessData Scenario.client_after_initial
      (shift (Buffer (r_State Scenario.flight_of_server)) 8) 316
      Scenario.cramped = Done r
    /\ has_flag (r_ResultFlags r) QUIC_TLS_RESULT_ERROR = true
    /\ Scenario.ProcessData (r_TlsContext r)
         (shift (Buffer (r_State Scenario.flight_of_server)) 8) 316
         (r_State r) = Done r'
    /\ ReceivedTP (r_TlsContext r')
         = [(10, [1; 2; 3; 4; 5; 6; 7; 8; 9; 10]);
            (10, [1; 2; 3; 4; 5; 6; 7; 8; 9; 10])].
Proof.
  destruct (error_still_delivers_the_transport_parameters
              Scenario.CertSelect Scenario.CertParseChain
              Scenario.CertValidateChain Scenario.DISABLE_CERT_VALIDATION false
              Scenario.client_after_initial Scenario.cramped
              (shift (Buffer (r_State Scenario.flight_of_server)) 8) 316
              Scenario.config)
    as (r & E & _ & Herr); try reflexivity.
  assert (Hr : r = Scenario.returned_by
                     (Scenario.ProcessData Scenario.client_after_initial
                        (shift (Buffer (r_State Scenario.flight_of_server)) 8)
                        316 Scenario.cramped))
    by (unfold Scenario.ProcessData; rewrite E; reflexivity).
  assert (He : has_flag (r_ResultFlags r) QUIC_TLS_RESULT_ERROR = true)
    by (rewrite Hr; reflexivity).
  destruct (Herr He) as (_ & _ & r' & E' & Htp').
  exists r, r'. split; [exact E |]. split; [exact He |].
  split; [exact E' | exact Htp'].
Defined.

Lemma first_flight_sets_the_used_length_witness :
  exists r,
    Scenario.ProcessData Scenario.client Scenario.zeros 0 Scenario.half_full
      = Done r
    /\ load8 (Buffer (r_State r)) 62 = 1
    /\ BufferLength (r_State r) = 62.
Proof.
  destruct (first_flight_sets_the_used_length
              Scenario.CertSelect Scenario.CertParseChain
              Scenario.CertValidateChain Scenario.DISABLE_CERT_VALIDATION false
              Scenario.client Scenario.half_full Scenario.zeros
              None Scenario.h3 [])
    as (r & E & _ & _ & Ht & _ & _ & Hl & _);
    try reflexivity; try (cbn; lia).
  - intros n E. discriminate E.
  - constructor.
  - exists r. split; [exact E |]. split; [exact Ht | exact Hl].
Defined.
